(** * Bookableu backend: indexing pipeline and book queries

    A shallow embedding of [app/services/book_service.py] and
    [app/routes/books.py] (with the records of [app/models.py] and
    [app/services/s3_service.py] they work on), and the properties of the
    document pipeline proved or refuted on it.

    Conventions.
    - A Python [str] holding book text is a list of Unicode code points
      ([list N]); file names, storage keys and dictionary keys are Rocq
      strings.
    - Python exceptions are values of [exn]; a computation that may raise
      returns a [result].
    - Code that touches the database session, the object store or the
      process-wide text cache runs in the state-and-exception monad [M];
      a raised exception keeps the effects performed before it, as in
      Python. *)

From Stdlib Require Import ZArith List Lia Bool String Ascii.
From stdpp Require Import base option list gmap strings.
Import ListNotations.

Local Open Scope Z_scope.

(** ** Exceptions and results *)

Inductive exn : Type :=
| ValueError (msg : string)
| TypeError (msg : string)
| KeyError (key : string)
| IndexError
| UnboundLocalError (name : string)
| ClientError (key : string)
| OSError (msg : string)
| EpubException
| FitzError
| OpenAIError
| SQLAlchemyError
| HTTPException (status_code : Z) (detail : string).

Inductive result (A : Type) : Type :=
| Ok (a : A)
| Raise (e : exn).
Arguments Ok {A} a.
Arguments Raise {A} e.

Definition rbind {A B} (r : result A) (k : A -> result B) : result B :=
  match r with
  | Ok a => k a
  | Raise e => Raise e
  end.

(** ** Python built-ins used by the service *)

Module Py.

(** [str]: a sequence of code points. *)
Definition str : Type := list N.

(** Reading a Rocq string literal as a [str] (one code point per byte). *)
Fixpoint cps (s : string) : str :=
  match s with
  | EmptyString => []
  | String a s' => N_of_ascii a :: cps s'
  end.

(** [str.isspace] on one code point: the code points CPython's
    [str.split()] treats as separators. *)
Definition isspace (c : N) : bool :=
  ((9 <=? c) && (c <=? 13) || (28 <=? c) && (c <=? 32)
   || (c =? 133) || (c =? 160) || (c =? 5760)
   || (8192 <=? c) && (c <=? 8202)
   || (c =? 8232) || (c =? 8233) || (c =? 8239) || (c =? 8287)
   || (c =? 12288))%N.

Definition SPACE : N := 32%N.
Definition NEWLINE : N := 10%N.

(** [emit cur rest]: close the word read so far, if there is one. *)
Definition emit (cur : str) (rest : list str) : list str :=
  match cur with
  | [] => rest
  | _ :: _ => cur :: rest
  end.

(** The scan of [str.split()] with no separator argument: [cur] is the
    word being read. Runs of whitespace separate words and produce no
    empty strings. *)
Fixpoint split_from (cur : str) (s : str) : list str :=
  match s with
  | [] => emit cur []
  | c :: s' =>
      if isspace c then emit cur (split_from [] s')
      else split_from (cur ++ [c]) s'
  end.

(** [s.split()] *)
Definition split (s : str) : list str := split_from [] s.

(** [sep.join(l)] *)
Fixpoint join (sep : str) (l : list str) : str :=
  match l with
  | [] => []
  | [w] => w
  | w :: rest => w ++ sep ++ join sep rest
  end.

(** [range(start, stop, step)] as the list it iterates over; a zero
    step raises [ValueError]. *)
Definition range (start stop step : Z) : result (list Z) :=
  if step =? 0 then Raise (ValueError "range() arg 3 must not be zero")
  else
    let n := if 0 <? step
             then (stop - start + step - 1) / step
             else (start - stop - step - 1) / (- step) in
    Ok (map (fun j => start + Z.of_nat j * step) (seq 0 (Z.to_nat n))).

(** Clamping of one slice bound to [0, len]. *)
Definition clamp (len i : Z) : Z :=
  let i' := if i <? 0 then i + len else i in
  Z.max 0 (Z.min len i').

(** [l[lo:hi]] *)
Definition slice {A} (l : list A) (lo hi : Z) : list A :=
  let len := Z.of_nat (length l) in
  let lo' := clamp len lo in
  let hi' := clamp len hi in
  firstn (Z.to_nat (hi' - lo')) (skipn (Z.to_nat lo') l).

(** [l[i]] with Python's negative indices and [IndexError]. *)
Definition getitem {A} (l : list A) (i : Z) : result A :=
  let len := Z.of_nat (length l) in
  let i' := if i <? 0 then i + len else i in
  if (i' <? 0) || (len <=? i') then Raise IndexError
  else match nth_error l (Z.to_nat i') with
       | Some a => Ok a
       | None => Raise IndexError
       end.

End Py.

(** ** [book_service.chunk_text] *)

Definition chunk_text (text : Py.str) (chunk_size : Z) : result (list Py.str) :=
  let words := Py.split text in
  rbind (Py.range 0 (Z.of_nat (length words)) chunk_size) (fun idx =>
  Ok (map (fun i => Py.join [Py.SPACE] (Py.slice words i (i + chunk_size))) idx)).

(** ** Strings: file names and storage keys *)

Module Str.

Definition chars (s : string) : list ascii := list_ascii_of_string s.
Definition of_chars (l : list ascii) : string := string_of_list_ascii l.

Definition eqb_ascii (a b : ascii) : bool := Ascii.eqb a b.

Fixpoint is_prefix (p l : list ascii) : bool :=
  match p, l with
  | [], _ => true
  | a :: p', b :: l' => eqb_ascii a b && is_prefix p' l'
  | _ :: _, [] => false
  end.

(** [s.endswith(suffix)] *)
Definition endswith (s suffix : string) : bool :=
  is_prefix (rev (chars suffix)) (rev (chars s)).

(** [s.lower()] on ASCII letters. *)
Definition lower_ascii (a : ascii) : ascii :=
  let n := N_of_ascii a in
  if ((65 <=? n) && (n <=? 90))%N then ascii_of_N (n + 32) else a.

Definition lower (s : string) : string := of_chars (map lower_ascii (chars s)).

(** [l.rfind(c)], [-1] when absent. *)
Fixpoint rfind_from (c : ascii) (l : list ascii) (i : Z) (found : Z) : Z :=
  match l with
  | [] => found
  | a :: l' => rfind_from c l' (i + 1) (if eqb_ascii a c then i else found)
  end.

Definition rfind (c : ascii) (l : list ascii) : Z := rfind_from c l 0 (-1).

(** [os.path.splitext] (POSIX): split at the last dot of the last path
    component, unless that component consists of leading dots only up
    to that dot. *)
Definition splitext (p : string) : string * string :=
  let l := chars p in
  let sepIndex := rfind "/" l in
  let dotIndex := rfind "." l in
  if (sepIndex <? dotIndex)
     && existsb (fun a => negb (eqb_ascii a "."))
                (Py.slice l (sepIndex + 1) dotIndex)
  then (of_chars (Py.slice l 0 dotIndex),
        of_chars (Py.slice l dotIndex (Z.of_nat (length l))))
  else (p, EmptyString).

(** Truth value of a [str]. *)
Definition nonempty (s : string) : bool :=
  match s with EmptyString => false | String _ _ => true end.

End Str.

(** ** Data model ([app/models.py]) *)

Inductive BookStatus : Type := UNREAD | READING | FINISHED | PROCESSING.

(** A binary64 value, kept as its bit pattern; arithmetic on such values is
    the platform's and enters through [World]. *)
Inductive float : Type := Float64 (bits : Z).

(** Values stored in the JSON column [book_metadata]. *)
Inductive json : Type :=
| JNull
| JBool (b : bool)
| JInt (z : Z)
| JFloat (f : float)
| JStr (s : string).

Definition bytes : Type := list Byte.byte.

Record Book : Type := mkBook {
  id : Z;
  user_id : string;
  title : string;
  file_key : string;
  text_key : option string;
  author : option string;
  total_pages : option Z;
  current_page : Z;
  status : BookStatus;
  book_metadata : gmap string json
}.

Record User : Type := mkUser {
  u_id : string;
  preferences : gmap string (gmap string json)
}.

(** [schemas.QueryResult] *)
Record QueryResult : Type := mkQueryResult {
  text : Py.str;
  similarity_score : float;
  chunk_index : Z
}.

(** A fitted [TfidfVectorizer]: determined by its settings and the corpus
    it was fitted on. *)
Inductive vectorizer : Type :=
| Fitted (max_features : Z) (corpus : list Py.str).

(** A [faiss.IndexFlatL2]: the dimension and the stored rows. *)
Record flat_index : Type := mkIndex {
  dimension : nat;
  xb : list (list float)
}.

(** What an object of the bucket holds. Pickled and encoded values are
    kept structured: [pickle.loads (pickle.dumps x) = x]. *)
Inductive blob : Type :=
| RawFile (content : bytes)
| Utf8Text (t : Py.str)
| PickledChunks (chunks : list Py.str)
| PickledVectorizer (v : vectorizer)
| FaissFile (ix : flat_index).

Record s3_object : Type := mkObject {
  body : blob;
  content_type : option string
}.

(** ** The environment

    Everything the service obtains from outside the repository: the
    libraries' numeric and parsing results and the success or failure of
    every external call. Properties are proved for every [World]. *)

Record World : Type := mkWorld {
  (* Unicode data used by scikit-learn's default analyzer, for code
     points outside ASCII *)
  unicode_word : N -> bool;
  unicode_lower : N -> list N;
  (* the TF-IDF row of a document under the model fitted on a corpus *)
  tfidf_row : vectorizer -> Py.str -> list float;
  (* PyMuPDF: the page texts of a PDF, [None] when it cannot be opened *)
  fitz_open : bytes -> option (list Py.str);
  (* ebooklib: the decoded document items, [None] when unreadable *)
  epub_items : bytes -> option (list Py.str);
  (* [hash] on [bytes] *)
  py_hash : bytes -> Z;
  (* [IndexFlatL2.search]: distances and labels for the k nearest rows *)
  faiss_search : flat_index -> list float -> Z -> list float * list Z;
  (* S3 calls that raise [ClientError] *)
  s3_upload_fails : string -> bool;
  s3_download_fails : string -> bool;
  s3_delete_fails : string -> bool;
  (* writing the named temporary file fails *)
  tmp_write_fails : string -> bool;
  (* [db.commit()] raises *)
  commit_fails : bool;
  (* the chat completion returned for a prompt, [None] when the call
     raises *)
  chat_completion : Py.str -> Py.str -> Book -> User -> option Py.str;
  (* binary64 arithmetic *)
  truediv : Z -> Z -> float;
  fmul_int : float -> Z -> float;
  ftrunc : float -> Z;
  fround1 : float -> float
}.

(** ** State and the monad of effects *)

Record state : Type := mkState {
  db_rows : list Book;                 (* committed rows of [books] *)
  session : list Book;                 (* the rows as the session holds them *)
  s3 : gmap string s3_object;          (* the bucket *)
  text_cache : gmap (string * Z) Py.str (* [book_service.text_cache] *)
}.

Definition M (A : Type) : Type := state -> result A * state.

Definition ret {A} (a : A) : M A := fun st => (Ok a, st).

Definition raise {A} (e : exn) : M A := fun st => (Raise e, st).

Definition bind {A B} (m : M A) (k : A -> M B) : M B :=
  fun st =>
    match m st with
    | (Ok a, st') => k a st'
    | (Raise e, st') => (Raise e, st')
    end.

Definition lift {A} (r : result A) : M A := fun st => (r, st).

(** [try: body except Exception as e: handler e] *)
Definition try_except {A} (body : M A) (handler : exn -> M A) : M A :=
  fun st =>
    match body st with
    | (Ok a, st') => (Ok a, st')
    | (Raise e, st') => handler e st'
    end.

(** [try: body finally: cleanup] for a cleanup that does not raise. *)
Definition try_finally {A} (body : M A) (cleanup : M unit) : M A :=
  fun st =>
    match body st with
    | (r, st') => (r, snd (cleanup st'))
    end.

Declare Scope eff_scope.
Delimit Scope eff_scope with eff.
Notation "'do' x <- m ;; k" := (bind m (fun x => k))
  (at level 10, x pattern, m at level 99, k at level 200,
   format "'[v' 'do'  x  <-  m  ;; '/' k ']'") : eff_scope.
Notation "'run' m ;; k" := (bind m (fun _ => k))
  (at level 10, m at level 99, k at level 200,
   format "'[v' 'run'  m  ;; '/' k ']'") : eff_scope.
Local Open Scope eff_scope.

Definition len {A} (l : list A) : Z := Z.of_nat (length l).

(** [[f(x) for x in l]] for an [f] that may raise. *)
Fixpoint map_r {A B} (f : A -> result B) (l : list A) : result (list B) :=
  match l with
  | [] => Ok []
  | a :: l' => rbind (f a) (fun b => rbind (map_r f l') (fun bs => Ok (b :: bs)))
  end.

(** [[x for x in l if p(x)]] for a [p] that may raise. *)
Fixpoint filter_r {A} (p : A -> result bool) (l : list A) : result (list A) :=
  match l with
  | [] => Ok []
  | a :: l' =>
      rbind (p a) (fun keep =>
      rbind (filter_r p l') (fun rest => Ok (if keep then a :: rest else rest)))
  end.

(** [enumerate(l)] *)
Definition enumerate {A} (l : list A) : list (Z * A) :=
  combine (map Z.of_nat (seq 0 (length l))) l.

(** Reading a local variable of a Python function: it raises
    [UnboundLocalError] while no assignment to it has run. *)
Definition load_local {A} (name : string) (v : option A) : M A :=
  match v with
  | Some a => ret a
  | None => raise (UnboundLocalError name)
  end.

(** *** Truth values *)

Definition truthy_json (j : option json) : bool :=
  match j with
  | None | Some JNull => false
  | Some (JBool b) => b
  | Some (JInt z) => negb (z =? 0)
  | Some (JFloat (Float64 bits)) =>
      negb ((bits =? 0) || (bits =? 2 ^ 63))
  | Some (JStr s) => Str.nonempty s
  end.

Definition truthy_int (z : Z) : bool := negb (z =? 0).

Definition truthy_opt_int (z : option Z) : bool :=
  match z with
  | None => false
  | Some n => truthy_int n
  end.

Definition truthy_opt_str (s : option string) : bool :=
  match s with
  | None => false
  | Some s => Str.nonempty s
  end.

(** *** Record updates *)

Definition set_total_pages (v : option Z) (b : Book) : Book :=
  mkBook (id b) (user_id b) (title b) (file_key b) (text_key b) (author b)
         v (current_page b) (status b) (book_metadata b).

Definition set_book_metadata (v : gmap string json) (b : Book) : Book :=
  mkBook (id b) (user_id b) (title b) (file_key b) (text_key b) (author b)
         (total_pages b) (current_page b) (status b) v.

Definition set_status (v : BookStatus) (b : Book) : Book :=
  mkBook (id b) (user_id b) (title b) (file_key b) (text_key b) (author b)
         (total_pages b) (current_page b) v (book_metadata b).

Definition with_session (f : list Book -> list Book) (st : state) : state :=
  mkState (db_rows st) (f (session st)) (s3 st) (text_cache st).

Definition with_s3 (f : gmap string s3_object -> gmap string s3_object)
    (st : state) : state :=
  mkState (db_rows st) (session st) (f (s3 st)) (text_cache st).

Definition with_text_cache (f : gmap (string * Z) Py.str -> gmap (string * Z) Py.str)
    (st : state) : state :=
  mkState (db_rows st) (session st) (s3 st) (f (text_cache st)).

(** ** The database session *)

Module Db.

(** [db.query(Book).filter(p).first()] *)
Definition first (p : Book -> bool) : M (option Book) :=
  fun st => (Ok (List.find p (session st)), st).

(** [db.query(Book).filter(p).all()] *)
Definition all (p : Book -> bool) : M (list Book) :=
  fun st => (Ok (List.filter p (session st)), st).

(** An attribute assignment on the mapped object with primary key [pk]:
    pending in the session until the next commit. *)
Definition setattr (pk : Z) (f : Book -> Book) : M unit :=
  fun st =>
    (Ok tt, with_session (map (fun b => if id b =? pk then f b else b)) st).

(** [db.delete(book)] *)
Definition delete (pk : Z) : M unit :=
  fun st =>
    (Ok tt, with_session (List.filter (fun b => negb (id b =? pk))) st).

(** [db.commit()]: the pending state becomes the committed one, unless
    the commit raises. *)
Definition commit (w : World) : M unit :=
  fun st =>
    if commit_fails w then (Raise SQLAlchemyError, st)
    else (Ok tt, mkState (session st) (session st) (s3 st) (text_cache st)).

(** [db.rollback()]: pending changes are discarded. *)
Definition rollback : M unit :=
  fun st => (Ok tt, mkState (db_rows st) (db_rows st) (s3 st) (text_cache st)).

End Db.

(** ** [app/services/s3_service.py] *)

Definition upload_fileobj_to_s3 (w : World) (data : blob) (key : string)
    (ctype : option string) : M unit :=
  fun st =>
    let extra := if truthy_opt_str ctype then ctype else None in
    if s3_upload_fails w key then (Raise (ClientError key), st)
    else (Ok tt, with_s3 (insert key (mkObject data extra)) st).

Definition download_fileobj_from_s3 (w : World) (key : string) : M blob :=
  fun st =>
    if s3_download_fails w key then (Raise (ClientError key), st)
    else match s3 st !! key with
         | Some o => (Ok (body o), st)
         | None => (Raise (ClientError key), st)
         end.

Definition delete_object (w : World) (key : string) : M bool :=
  fun st =>
    if s3_delete_fails w key then (Raise (ClientError key), st)
    else (Ok true, with_s3 (delete key) st).

(** ** The vectorizer ([sklearn.feature_extraction.text.TfidfVectorizer])

    The library is not part of the repository. Its default analyzer is
    modelled as documented: the text is lowercased and the tokens are the
    matches of [(?u)\b\w\w+\b], that is the maximal runs of word characters
    that are at least two characters long; fitting on a corpus without any
    token raises [ValueError]. The weights themselves come from [World]. *)

Module Sklearn.

Definition ascii_word (c : N) : bool :=
  ((48 <=? c) && (c <=? 57) || (65 <=? c) && (c <=? 90)
   || (97 <=? c) && (c <=? 122) || (c =? 95))%N.

Definition is_word (w : World) (c : N) : bool :=
  if (c <? 128)%N then ascii_word c else unicode_word w c.

Definition lower (w : World) (s : Py.str) : Py.str :=
  flat_map (fun c =>
    if ((65 <=? c) && (c <=? 90))%N then [(c + 32)%N]
    else if (c <? 128)%N then [c]
    else unicode_lower w c) s.

(** Maximal runs of word characters; [cur] is the run being read. *)
Fixpoint runs_from (w : World) (cur : Py.str) (s : Py.str) : list Py.str :=
  match s with
  | [] => Py.emit cur []
  | c :: s' =>
      if is_word w c then runs_from w (cur ++ [c]) s'
      else Py.emit cur (runs_from w [] s')
  end.

Definition tokens (w : World) (doc : Py.str) : list Py.str :=
  List.filter (fun t => 2 <=? len t) (runs_from w [] (lower w doc)).

(** [vectorizer.fit_transform(raw_documents)] *)
Definition fit_transform (w : World) (max_features : Z)
    (raw_documents : list Py.str) : result (vectorizer * list (list float)) :=
  match flat_map (tokens w) raw_documents with
  | [] => Raise (ValueError
            "empty vocabulary; perhaps the documents only contain stop words")
  | _ :: _ =>
      let v := Fitted max_features raw_documents in
      Ok (v, map (tfidf_row w v) raw_documents)
  end.

(** [vectorizer.transform([query])], the single row *)
Definition transform (w : World) (v : vectorizer) (query : Py.str) : list float :=
  tfidf_row w v query.

End Sklearn.

(** ** [book_service.process_book], lines 233-245: fitting the vectorizer
    and building the FAISS index *)

Definition build_index (w : World) (chunks : list Py.str)
    : result (vectorizer * flat_index) :=
  rbind (Sklearn.fit_transform w 1000 chunks) (fun fitted =>
    let (vectorizer, tfidf_matrix) := fitted in
    let embeddings := tfidf_matrix in
    let dimension := match embeddings with
                     | row :: _ => length row
                     | [] => 0%nat
                     end in
    Ok (vectorizer, mkIndex dimension embeddings)).

(** ** [book_service.extract_text] *)

(** The page loop of the PDF branch: documents of more than ten pages are
    read in batches of ten, the others page by page. *)
Definition pdf_text (pages : list Py.str) : result Py.str :=
  let page_count := len pages in
  if 10 <? page_count then
    let batch_size := Z.min 10 page_count in
    rbind (Py.range 0 page_count batch_size) (fun starts =>
      let text_parts :=
        flat_map (fun i => Py.slice pages i (Z.min (i + batch_size) page_count))
                 starts in
      Ok (Py.join [] text_parts))
  else Ok (fold_left (fun text page => text ++ page) pages []).

Definition extract_text (w : World) (file_content : bytes) (filename : string)
    : M Py.str :=
  let cache_key := (filename, py_hash w file_content) in
  do cache <- (fun st => (Ok (text_cache st), st)) ;;
  match cache !! cache_key with
  | Some cached => ret cached
  | None =>
      if Str.endswith filename ".pdf" then
        try_except
          (if tmp_write_fails w ".pdf" then raise (OSError ".pdf")
           else match fitz_open w file_content with
                | None => raise FitzError
                | Some pages =>
                    do text <- lift (pdf_text pages) ;;
                    run (fun st => (Ok tt, with_text_cache (insert cache_key text) st)) ;;
                    ret text
                end)
          (fun _ => raise (HTTPException 500 "Text extraction failed"))
      else if Str.endswith filename ".epub" then
        match epub_items w file_content with
        | None => raise EpubException
        | Some items =>
            let text := Py.join [Py.NEWLINE] items in
            run (fun st => (Ok tt, with_text_cache (insert cache_key text) st)) ;;
            ret text
        end
      else raise (HTTPException 400 "Unsupported file format")
  end.

(** ** [book_service.process_book] *)

(** Lines 212-227: the page count of a PDF. *)
Definition detect_pages (w : World) (file_content : bytes) (filename : string)
    : M (option Z) :=
  if Str.endswith filename ".pdf" then
    if tmp_write_fails w ".pdf" then raise (OSError ".pdf")
    else match fitz_open w file_content with
         | None => raise FitzError
         | Some pages => ret (Some (len pages))
         end
  else ret None.

Definition artifact_key (user_id filename suffix : string) : string :=
  ("users/" ++ user_id ++ "/" ++ fst (Str.splitext filename) ++ suffix)%string.

(** The dictionary written to [book.book_metadata] on success. *)
Definition success_metadata (index_key vectorizer_key chunks_key : string)
    (num_chunks : Z) : gmap string json :=
  <["extracted" := JBool true]>
  (<["index_key" := JStr index_key]>
  (<["vectorizer_key" := JStr vectorizer_key]>
  (<["chunks_key" := JStr chunks_key]>
  (<["num_chunks" := JInt num_chunks]> ∅)))).

(** Line 286: [detected_pages and (not total_pages or total_pages == 0)] *)
Definition use_detected_pages (detected_pages total_pages : option Z) : bool :=
  truthy_opt_int detected_pages
  && (negb (truthy_opt_int total_pages)
      || match total_pages with Some n => n =? 0 | None => false end).

(** The filter [Book.user_id == user_id, Book.file_key == file_key]. *)
Definition owned_with_key (uid key : string) (b : Book) : bool :=
  String.eqb (user_id b) uid && String.eqb (file_key b) key.

(** The filter [Book.id == book_id, Book.user_id == current_user.id]. *)
Definition owned_with_id (book_id : Z) (u : User) (b : Book) : bool :=
  (id b =? book_id) && String.eqb (user_id b) (u_id u).

(** The suite of the [try] statement. *)
Definition process_book_body (w : World) (file_content : bytes)
    (file_key text_key filename user_id : string) (author : option string)
    (total_pages : option Z) : M unit :=
  let content_type :=
    if Str.endswith (Str.lower filename) ".pdf" then Some "application/pdf"%string
    else if Str.endswith (Str.lower filename) ".epub"
         then Some "application/epub+zip"%string
         else None in
  run upload_fileobj_to_s3 w (RawFile file_content) file_key content_type ;;
  do text <- extract_text w file_content filename ;;
  do detected_pages <- detect_pages w file_content filename ;;
  do chunks <- lift (chunk_text text 500) ;;
  do built <- lift (build_index w chunks) ;;
  let (vectorizer, index) := built : vectorizer * flat_index in
  let index_file_path := ("/tmp/" ++ filename ++ "_index.faiss")%string in
  run (if tmp_write_fails w index_file_path then raise (OSError index_file_path)
       else ret tt) ;;
  let index_key := artifact_key user_id filename "_index.faiss" in
  run upload_fileobj_to_s3 w (FaissFile index) index_key
        (Some "application/octet-stream"%string) ;;
  let vectorizer_key := artifact_key user_id filename "_vectorizer.pkl" in
  run upload_fileobj_to_s3 w (PickledVectorizer vectorizer) vectorizer_key
        (Some "application/octet-stream"%string) ;;
  let chunks_key := artifact_key user_id filename "_chunks.pkl" in
  run upload_fileobj_to_s3 w (PickledChunks chunks) chunks_key
        (Some "application/octet-stream"%string) ;;
  run upload_fileobj_to_s3 w (Utf8Text text) text_key (Some "text/plain"%string) ;;
  do book <- Db.first (owned_with_key user_id file_key) ;;
  match book with
  | Some book =>
      run (if use_detected_pages detected_pages total_pages
           then Db.setattr (id book) (set_total_pages detected_pages)
           else ret tt) ;;
      run Db.setattr (id book)
            (set_book_metadata
               (success_metadata index_key vectorizer_key chunks_key (len chunks))) ;;
      run Db.setattr (id book) (set_status UNREAD) ;;
      Db.commit w
  | None => ret tt
  end.

Definition process_book (w : World) (file_content : bytes)
    (file_key text_key filename user_id : string) (author : option string)
    (total_pages : option Z) : M unit :=
  try_except
    (process_book_body w file_content file_key text_key filename user_id author
                       total_pages)
    (fun _ => Db.rollback).

(** ** [book_service.generate_chat_answer]

    The excerpts are joined with the separator of the source; the prompt
    goes to the completion service, whose answer comes from [World]. *)
Definition generate_chat_answer (w : World) (query : Py.str)
    (context_chunks : list Py.str) (book : Book) (user : User) : M Py.str :=
  let context := Py.join (Py.cps (String "010" (String "010" "---"
                            ++ String "010" (String "010" ""))))
                         context_chunks in
  match chat_completion w query context book user with
  | Some answer => ret answer
  | None => raise OpenAIError
  end.

(** ** [routes/books.py] *)

(** [d[key]] and [d.get(key)] on the metadata dictionary. *)
Definition dict_getitem (d : gmap string json) (key : string) : result json :=
  match d !! key with
  | Some v => Ok v
  | None => Raise (KeyError key)
  end.

Definition as_key (j : json) : result string :=
  match j with
  | JStr s => Ok s
  | _ => Raise (TypeError "expected str for Key")
  end.

Definition loads_vectorizer (b : blob) : result vectorizer :=
  match b with
  | PickledVectorizer v => Ok v
  | _ => Raise (ValueError "could not unpickle")
  end.

Definition loads_chunks (b : blob) : result (list Py.str) :=
  match b with
  | PickledChunks c => Ok c
  | _ => Raise (ValueError "could not unpickle")
  end.

Definition read_index (b : blob) : result flat_index :=
  match b with
  | FaissFile ix => Ok ix
  | _ => Raise (ValueError "could not read index")
  end.

(** Line 383: [int((current_page / total_pages) * len(chunks))] *)
Definition spoiler_boundary (w : World) (current_page total_pages : Z)
    (num_chunks : Z) : Z :=
  ftrunc w (fmul_int w (truediv w current_page total_pages) num_chunks).

(** Line 384: [[chunk for i, chunk in enumerate(relevant_chunks)
                 if indices[0][i] <= current_chunk]] *)
Definition drop_spoilers (indices : list Z) (current_chunk : Z)
    (relevant_chunks : list Py.str) : result (list Py.str) :=
  rbind (filter_r (fun ic : Z * Py.str =>
                     rbind (Py.getitem indices (fst ic)) (fun label =>
                     Ok (label <=? current_chunk)))
                  (enumerate relevant_chunks))
        (fun kept => Ok (map snd kept)).

(** Lines 391-398: the evidence entries of the response. *)
Definition evidence (distances : list float) (indices : list Z)
    (relevant_chunks : list Py.str) : result (list QueryResult) :=
  map_r (fun ic : Z * Py.str =>
           rbind (Py.getitem distances (fst ic)) (fun d =>
           rbind (Py.getitem indices (fst ic)) (fun label =>
           Ok (mkQueryResult (snd ic) d label))))
        (enumerate relevant_chunks).

(** Lines 371-399, after [k] has been computed. *)
Definition search_and_answer (w : World) (book : Book) (current_user : User)
    (query : Py.str) (no_spoilers : bool) (index : flat_index)
    (query_vector : list float) (chunks_key : string) (k : Z)
    : M (Py.str * list QueryResult) :=
  let (distances, indices) := faiss_search w index query_vector k in
  do chunks_data <- download_fileobj_from_s3 w chunks_key ;;
  do chunks <- lift (loads_chunks chunks_data) ;;
  do relevant_chunks <- lift (map_r (Py.getitem chunks) indices) ;;
  do relevant_chunks <-
    (if no_spoilers && truthy_int (current_page book)
        && truthy_opt_int (total_pages book)
     then
       let current_chunk :=
         spoiler_boundary w (current_page book)
                          (default 0 (total_pages book)) (len chunks) in
       lift (drop_spoilers indices current_chunk relevant_chunks)
     else ret relevant_chunks) ;;
  do response <- generate_chat_answer w query relevant_chunks book current_user ;;
  do results <- lift (evidence distances indices relevant_chunks) ;;
  ret (response, results).

(** The suite of the outer [try] statement of [query_book]. *)
Definition query_book_body (w : World) (book_id : Z) (query : Py.str)
    (no_spoilers : bool) (current_user : User)
    : M (Py.str * list QueryResult) :=
  do book <- Db.first (owned_with_id book_id current_user) ;;
  match book with
  | None =>
      raise (HTTPException 404
               "Book not found or you don't have permission to access it")
  | Some book =>
      if negb (truthy_json (book_metadata book !! "extracted"))
      then raise (HTTPException 400 "Book text not yet extracted")
      else
        do index_key <-
          lift (rbind (dict_getitem (book_metadata book) "index_key") as_key) ;;
        do vectorizer_key <-
          lift (rbind (dict_getitem (book_metadata book) "vectorizer_key") as_key) ;;
        do chunks_key <-
          lift (rbind (dict_getitem (book_metadata book) "chunks_key") as_key) ;;
        do vectorizer_data <- download_fileobj_from_s3 w vectorizer_key ;;
        do vectorizer <- lift (loads_vectorizer vectorizer_data) ;;
        let query_vector := Sklearn.transform w vectorizer query in
        do index_data <- download_fileobj_from_s3 w index_key ;;
        run (if tmp_write_fails w "" then raise (OSError "") else ret tt) ;;
        try_finally
          (do index <- lift (read_index index_data) ;;
           (* [chunks] is a local variable of the function, assigned on
              line 375 only; line 370 reads it first *)
           let chunks : option (list Py.str) := None in
           do chunks_read <- load_local "chunks" chunks ;;
           let k := Z.min 5 (len chunks_read) in
           search_and_answer w book current_user query no_spoilers index
                             query_vector chunks_key k)
          (ret tt)
  end.

Definition query_book (w : World) (book_id : Z) (query : Py.str)
    (no_spoilers : bool) (current_user : User)
    : M (Py.str * list QueryResult) :=
  try_except
    (query_book_body w book_id query no_spoilers current_user)
    (fun _ => raise (HTTPException 500 "Failed to process query")).

Definition get_book (w : World) (book_id : Z) (current_user : User) : M Book :=
  do book <- Db.first (owned_with_id book_id current_user) ;;
  match book with
  | None =>
      raise (HTTPException 404
               "Book not found or you don't have permission to access it")
  | Some book =>
      do has_pages <-
        lift (match total_pages book with
              | None => Raise (TypeError
                  "'>' not supported between instances of 'NoneType' and 'int'")
              | Some n => Ok (0 <? n)
              end) ;;
      if has_pages then
        let progress :=
          fround1 w (fmul_int w (truediv w (current_page book)
                                         (default 0 (total_pages book))) 100) in
        let book' :=
          set_book_metadata
            (<["reading_progress" := JFloat progress]> (book_metadata book)) book in
        run Db.setattr (id book) (fun _ => book') ;;
        ret book'
      else ret book
  end.

Definition list_books (w : World) (current_user : User) (skip limit : nat)
    : M (list Book) :=
  try_except
    (do books <- Db.all (fun b => String.eqb (user_id b) (u_id current_user)) ;;
     ret (firstn limit (skipn skip books)))
    (fun _ => raise (HTTPException 500 "Failed to retrieve books")).

Definition delete_book (w : World) (book_id : Z) (current_user : User) : M Book :=
  do book <- Db.first (owned_with_id book_id current_user) ;;
  match book with
  | None =>
      raise (HTTPException 404
               "Book not found or you don't have permission to delete it")
  | Some book =>
      try_except
        (run (if Str.nonempty (file_key book)
              then run delete_object w (file_key book) ;; ret tt
              else ret tt) ;;
         run (match text_key book with
              | Some key =>
                  if Str.nonempty key
                  then run delete_object w key ;; ret tt
                  else ret tt
              | None => ret tt
              end) ;;
         run Db.delete (id book) ;;
         run Db.commit w ;;
         ret book)
        (fun _ =>
           run Db.rollback ;;
           raise (HTTPException 500 "Failed to delete book"))
  end.

(** ** Vocabulary of the statements *)

Definition nospace (s : Py.str) : Prop := Forall (fun c => Py.isspace c = false) s.

(** A word: non-empty and free of whitespace. *)
Definition is_word (s : Py.str) : Prop := s <> [] /\ nospace s.

(** The run of [n] items starting at item [j * n]. *)
Definition group {A} (n : nat) (l : list A) (j : nat) : list A :=
  firstn n (skipn (j * n) l).

(** [db_frame m]: running [m] changes neither the committed rows nor the
    session, whether it returns or raises. *)
Definition db_frame {A} (m : M A) : Prop :=
  forall st r st', m st = (r, st') ->
    db_rows st' = db_rows st /\ session st' = session st.

(** [always_raises m]: [m] never returns a value. *)
Definition always_raises {A} (m : M A) : Prop :=
  forall st, exists e st', m st = (Raise e, st').

(** [s3_keeps key m]: running [m] leaves the object stored under [key] as
    it is, whether [m] returns or raises. *)
Definition s3_keeps {A} (key : string) (m : M A) : Prop :=
  forall st r st', m st = (r, st') -> s3 st' !! key = s3 st !! key.

(** A committed row that carries the complete result of the pipeline. *)
Definition fully_indexed (b : Book) : Prop :=
  status b = UNREAD
  /\ book_metadata b !! "extracted" = Some (JBool true)
  /\ (exists k, book_metadata b !! "index_key" = Some (JStr k))
  /\ (exists k, book_metadata b !! "vectorizer_key" = Some (JStr k))
  /\ (exists k, book_metadata b !! "chunks_key" = Some (JStr k))
  /\ (exists n, book_metadata b !! "num_chunks" = Some (JInt n)).

(** Lines 286-297 as one update of the book row. *)
Definition commit_update (detected_pages total_pages : option Z)
    (metadata : gmap string json) (b : Book) : Book :=
  set_status UNREAD
    (set_book_metadata metadata
       (if use_detected_pages detected_pages total_pages
        then set_total_pages detected_pages b else b)).

Definition update_row (pk : Z) (f : Book -> Book) (rows : list Book) : list Book :=
  map (fun b => if id b =? pk then f b else b) rows.

(** ** Sample environments and states

    Concrete inputs on which the statements below are evaluated. *)

Module Sample.

Definition page1 : Py.str := Py.cps "It was the best of times, ".
Definition page2 : Py.str := Py.cps "it was the worst of times.".

(** The sample environments: [pages] is what PyMuPDF reads from any file
    ([None] when it cannot open it), [upload_fails] tells which uploads
    raise, [commit_raises] whether the commit does, and [ranking], when
    given, is the answer of every index search (the default ranks the first
    [k] rows in order). The arithmetic is a fixed-point stand-in for
    binary64 with twenty fractional bits, exact on the values used below. *)
Definition env (pages : option (list Py.str)) (upload_fails : string -> bool)
    (commit_raises : bool) (ranking : option (list float * list Z)) : World := {|
  unicode_word := fun _ => false;
  unicode_lower := fun c => [c];
  tfidf_row := fun _ doc => [Float64 (len doc)];
  fitz_open := fun _ => pages;
  epub_items := fun _ => None;
  py_hash := fun _ => 0;
  faiss_search := fun ix _ k =>
    match ranking with
    | Some answer => answer
    | None => (map (fun j => Float64 (Z.of_nat j)) (seq 0 (Z.to_nat k)),
               map Z.of_nat (seq 0 (Z.to_nat k)))
    end;
  s3_upload_fails := upload_fails;
  s3_download_fails := fun _ => false;
  s3_delete_fails := fun _ => false;
  tmp_write_fails := fun _ => false;
  commit_fails := commit_raises;
  chat_completion := fun _ context _ _ => Some context;
  truediv := fun a b => Float64 (a * 2 ^ 20 / b);
  fmul_int := fun f n => match f with Float64 x => Float64 (x * n) end;
  ftrunc := fun f => match f with Float64 x => x / 2 ^ 20 end;
  fround1 := fun f => f
|}.

(** Every external call succeeds and every file is a two-page PDF. *)
Definition world : World :=
  env (Some [page1; page2]) (fun _ => false) false None.

(** PyMuPDF cannot open the file: the extraction fails. *)
Definition world_unreadable : World :=
  env None (fun _ => false) false None.

(** The file holds single letters only: the vectorizer finds no token. *)
Definition world_letters : World :=
  env (Some [Py.cps "a b c"]) (fun _ => false) false None.

(** The upload of the chunk list fails. *)
Definition world_chunks_upload_fails : World :=
  env (Some [page1; page2]) (String.eqb "users/u1/tale_chunks.pkl") false None.

(** The commit fails. *)
Definition world_commit_fails : World :=
  env (Some [page1; page2]) (fun _ => false) true None.

(** The search ranks chunks 7, 2, 9, 1. *)
Definition world_ranked : World :=
  env (Some [page1; page2]) (fun _ => false) false
      (Some ([Float64 10; Float64 20; Float64 30; Float64 40], [7; 2; 9; 1])).

Definition alice : User := mkUser "u1" ∅.

(** A book as [upload_book] creates it. *)
Definition uploaded : Book := {|
  id := 1;
  user_id := "u1";
  title := "tale";
  file_key := "users/u1/tale.pdf";
  text_key := Some "users/u1/tale_text.txt"%string;
  author := None;
  total_pages := None;
  current_page := 0;
  status := PROCESSING;
  book_metadata := ∅
|}.

Definition st0 : state := mkState [uploaded] [uploaded] ∅ ∅.

(** The state after the pipeline has run on [st0]. *)
Definition st_processed : state :=
  snd (process_book world [] "users/u1/tale.pdf" "users/u1/tale_text.txt"
         "tale.pdf" "u1" None None st0).

(** A processed ten-chunk book, half read. *)
Definition ten_chunks : list Py.str :=
  map Py.cps ["c0"; "c1"; "c2"; "c3"; "c4"; "c5"; "c6"; "c7"; "c8"; "c9"]%string.

Definition reading : Book := {|
  id := 2;
  user_id := "u1";
  title := "ten";
  file_key := "users/u1/ten.pdf";
  text_key := Some "users/u1/ten_text.txt"%string;
  author := None;
  total_pages := Some 100;
  current_page := 50;
  status := READING;
  book_metadata :=
    success_metadata "users/u1/ten_index.faiss" "users/u1/ten_vectorizer.pkl"
                     "users/u1/ten_chunks.pkl" 10
|}.

Definition ten_vectorizer : vectorizer := Fitted 1000 ten_chunks.

Definition ten_index : flat_index :=
  mkIndex 1 (map (tfidf_row world ten_vectorizer) ten_chunks).

Definition st_reading : state :=
  mkState [reading] [reading]
    (<["users/u1/ten_index.faiss" := mkObject (FaissFile ten_index) None]>
     (<["users/u1/ten_vectorizer.pkl" :=
          mkObject (PickledVectorizer ten_vectorizer) None]>
     (<["users/u1/ten_chunks.pkl" := mkObject (PickledChunks ten_chunks) None]>
      ∅)))
    ∅.

End Sample.

(** ** More of the service

    The parts of [book_service.py] and [routes/books.py] (and of
    [routes/users.py], which writes the preferences the prompt reads) that
    the sections above leave out. *)

From Stdlib Require Import DecimalString DecimalNat.

(** [str(n)] for an [int]. *)
Definition str_of_nat (n : nat) : string :=
  NilEmpty.string_of_uint (Nat.to_uint n).

Definition str_of_Z (z : Z) : string :=
  NilEmpty.string_of_int (Z.to_int z).

(** *** [book_service.generate_unique_keys] *)

Definition numbered_file_key (user_id base_name ext : string) (counter : nat)
    : string :=
  ("users/" ++ user_id ++ "/" ++ base_name ++ str_of_nat counter ++ ext)%string.

Definition numbered_text_key (user_id base_name : string) (counter : nat)
    : string :=
  ("users/" ++ user_id ++ "/" ++ base_name ++ str_of_nat counter ++ "_text.txt")%string.

(** The [while] loop of lines 323-326 on the rows of the session: [fuel]
    bounds the number of tests of the loop condition, [None] says the bound
    was reached. *)
Fixpoint unique_keys_loop (fuel : nat) (rows : list Book)
    (user_id base_name ext file_key text_key : string) (counter : nat)
    : option (string * string) :=
  match fuel with
  | O => None
  | S fuel' =>
      match List.find (owned_with_key user_id file_key) rows with
      | Some _ =>
          unique_keys_loop fuel' rows user_id base_name ext
            (numbered_file_key user_id base_name ext counter)
            (numbered_text_key user_id base_name counter)
            (S counter)
      | None => Some (file_key, text_key)
      end
  end.

Definition unique_keys (fuel : nat) (rows : list Book)
    (base_filename user_id : string) : option (string * string) :=
  let (base_name, ext) := Str.splitext base_filename in
  let file_key := ("users/" ++ user_id ++ "/" ++ base_filename)%string in
  let text_key := ("users/" ++ user_id ++ "/" ++ base_name ++ "_text.txt")%string in
  unique_keys_loop fuel rows user_id base_name ext file_key text_key 1.

(** [generate_unique_keys(base_filename, user_id, db)]. Two tests more than
    there are rows always suffice ([loop_enough_fuel] below), so the
    last branch is never taken. *)
Definition generate_unique_keys (base_filename user_id : string)
    : M (string * string) :=
  fun st =>
    match unique_keys (S (S (length (session st)))) (session st) base_filename user_id with
    | Some keys => (Ok keys, st)
    | None => (Raise (OSError "generate_unique_keys: bound reached"), st)
    end.

(** *** [book_service.generate_chat_answer]: the request sent to the
    completion service *)

(** The settings of [app/config.py] the prompt reads. *)
Record Settings : Type := mkSettings {
  OPENAI_MODEL : string;
  OPENAI_TEMPERATURE : float;
  OPENAI_MAX_TOKENS : Z;
  BOOK_QUERY_INSTRUCTION_STYLE : string
}.

Definition nl : string := String "010" "".

Definition ACADEMIC_PROMPT : string :=
  ("You are a scholarly assistant analyzing literary texts. Your answers should be: "
   ++ nl ++ "- Precise and well-researched, with careful analysis"
   ++ nl ++ "- Structured with clear arguments and evidence from the text"
   ++ nl ++ "- Properly contextualized with relevant literary or historical background"
   ++ nl ++ "- Include direct quotes when relevant, properly attributed"
   ++ nl ++ "- Academic in tone but still accessible"
   ++ nl ++ "- Clear about limitations when the text doesn't provide sufficient information")%string.

Definition CASUAL_PROMPT : string :=
  ("You are a friendly book club discussion leader. Your answers should be: "
   ++ nl ++ "- Conversational and engaging"
   ++ nl ++ "- Easy to understand with minimal jargon"
   ++ nl ++ "- Include interesting observations from the text"
   ++ nl ++ "- Sometimes pose thought-provoking questions"
   ++ nl ++ "- Honest about when you don't have enough information"
   ++ nl ++ "- Focus on the most interesting and relevant points")%string.

Definition CONCISE_PROMPT : string :=
  ("You are a direct and efficient research assistant. Your answers should be: "
   ++ nl ++ "- Brief and to the point"
   ++ nl ++ "- Focused only on the most relevant information"
   ++ nl ++ "- Use bullet points when appropriate"
   ++ nl ++ "- Avoid unnecessary elaboration"
   ++ nl ++ "- Clear when information is limited or unavailable"
   ++ nl ++ "- Prioritize accuracy over thoroughness")%string.


Definition instruction_styles : gmap string string :=
  <["academic" := ACADEMIC_PROMPT]>
  (<["casual" := CASUAL_PROMPT]>
  (<["concise" := CONCISE_PROMPT]> ∅)).

(** [instruction_styles.get(instruction_style, instruction_styles["academic"])];
    a style that is not a string is a key the dictionary does not have. *)
Definition system_prompt_for (instruction_style : json) : string :=
  match instruction_style with
  | JStr s => default ACADEMIC_PROMPT (instruction_styles !! s)
  | _ => ACADEMIC_PROMPT
  end.

Record llm_params : Type := mkParams {
  p_model : json;
  p_temperature : json;
  p_max_tokens : json;
  p_instruction_style : json
}.

(** [if key in user_llm_prefs: value = user_llm_prefs[key]] *)
Definition override (user_llm_prefs : gmap string json) (key : string)
    (value : json) : json :=
  match user_llm_prefs !! key with
  | Some v => v
  | None => value
  end.

(** Lines 353-372. The style of the settings is lowercased (on ASCII
    letters, which is all the three style names need); the user's is taken
    as stored. *)
Definition resolve_llm_params (settings : Settings) (user : option User)
    : llm_params :=
  let model := JStr (OPENAI_MODEL settings) in
  let temperature := JFloat (OPENAI_TEMPERATURE settings) in
  let max_tokens := JInt (OPENAI_MAX_TOKENS settings) in
  let instruction_style := JStr (Str.lower (BOOK_QUERY_INSTRUCTION_STYLE settings)) in
  match user with
  | Some user =>
      match preferences user !! "llm" with
      | Some user_llm_prefs =>
          mkParams (override user_llm_prefs "model" model)
                   (override user_llm_prefs "temperature" temperature)
                   (override user_llm_prefs "max_tokens" max_tokens)
                   (override user_llm_prefs "instruction_style" instruction_style)
      | None => mkParams model temperature max_tokens instruction_style
      end
  | None => mkParams model temperature max_tokens instruction_style
  end.

(** Lines 415-424. *)
Definition book_info (book : option Book) : Py.str :=
  match book with
  | None => []
  | Some book =>
      Py.cps ("Book Information:" ++ nl)
      ++ (if Str.nonempty (title book)
          then Py.cps ("- Title: " ++ title book ++ nl) else [])
      ++ (if truthy_opt_str (author book)
          then Py.cps ("- Author: " ++ default "" (author book) ++ nl) else [])
      ++ (if truthy_int (current_page book) && truthy_opt_int (total_pages book)
          then Py.cps ("- Reading Progress: Page " ++ str_of_Z (current_page book)
                       ++ " of " ++ str_of_Z (default 0 (total_pages book)) ++ nl)
          else [])
      ++ Py.cps nl
  end.

(** The arguments of [client.chat.completions.create] on lines 431-441
    ([top_p] and [presence_penalty] are the constants 0.9 and 0.1). *)
Record chat_request : Type := mkRequest {
  rq_model : json;
  rq_system : string;
  rq_user : Py.str;
  rq_temperature : json;
  rq_max_tokens : json
}.

Definition chat_separator : Py.str := Py.cps (nl ++ nl ++ "---" ++ nl ++ nl).

Definition build_chat_request (settings : Settings) (query : Py.str)
    (context_chunks : list Py.str) (book : option Book) (user : option User)
    : chat_request :=
  let context := Py.join chat_separator context_chunks in
  let params := resolve_llm_params settings user in
  let system_prompt := system_prompt_for (p_instruction_style params) in
  let user_prompt :=
    book_info book
    ++ Py.cps ("Here are relevant excerpts from the book:" ++ nl ++ nl)
    ++ context ++ Py.cps (nl ++ nl ++ "Question: ") ++ query in
  mkRequest (p_model params) system_prompt user_prompt
            (p_temperature params) (p_max_tokens params).

(** *** [routes/books.py]: upload and update *)

Definition ALLOWED_EXTENSIONS : list string := [".pdf"; ".epub"]%string.

Definition MAX_FILE_SIZE : Z := 20 * 1024 * 1024.

(** [db.add(book)] *)
Definition db_add (b : Book) : M unit :=
  fun st => (Ok tt, with_session (fun rows => rows ++ [b]) st).

(** [upload_book]. [py_int] is Python's [int] on the form field (its
    [ValueError] is [None]) and [new_id] the primary key the database gives
    the new row. The result is the created book and the background task the
    route schedules. *)
Definition upload_book (w : World) (py_int : string -> option Z) (new_id : Z)
    (filename : string) (size : Z) (content : bytes) (author : option string)
    (total_pages : option string) (current_user : User)
    : M (Book * M unit) :=
  if negb (existsb (Str.endswith filename) ALLOWED_EXTENSIONS)
  then raise (HTTPException 400 "Only PDF or EPUB files allowed")
  else if MAX_FILE_SIZE <? size
  then raise (HTTPException 400 "File size exceeds 20MB limit")
  else
    do total_pages_int <-
      (if truthy_opt_str total_pages
       then match py_int (default "" total_pages) with
            | Some n => ret (Some n)
            | None => raise (HTTPException 400 "total_pages must be a valid integer")
            end
       else ret None) ;;
    do keys <- generate_unique_keys filename (u_id current_user) ;;
    let book :=
      mkBook new_id (u_id current_user) (fst (Str.splitext filename))
             (fst keys) (Some (snd keys)) author total_pages_int 0 PROCESSING ∅ in
    try_except
      (run db_add book ;;
       run Db.commit w ;;
       ret (book,
            process_book w content (fst keys) (snd keys) filename
                         (u_id current_user) author total_pages_int))
      (fun _ =>
         run Db.rollback ;;
         raise (HTTPException 500 "Failed to create book entry")).

Definition set_current_page (v : Z) (b : Book) : Book :=
  mkBook (id b) (user_id b) (title b) (file_key b) (text_key b) (author b)
         (total_pages b) v (status b) (book_metadata b).

Definition status_eqb (a b : BookStatus) : bool :=
  match a, b with
  | UNREAD, UNREAD | READING, READING | FINISHED, FINISHED
  | PROCESSING, PROCESSING => true
  | _, _ => false
  end.

(** [update_book]. [books_finished] is the counter of the current user
    before the request; the result is the updated book and the counter the
    commit stores. *)
Definition update_book (w : World) (book_id : Z) (new_status : BookStatus)
    (new_page : Z) (current_user : User) (books_finished : Z)
    : M (Book * Z) :=
  do book <- Db.first (owned_with_id book_id current_user) ;;
  match book with
  | None => raise (HTTPException 404 "Book not found")
  | Some book =>
      try_except
        (let was_finished := status_eqb (status book) FINISHED in
         run Db.setattr (id book) (set_status new_status) ;;
         run Db.setattr (id book) (set_current_page (Z.max 0 new_page)) ;;
         let counter :=
           if status_eqb new_status FINISHED && negb was_finished
           then books_finished + 1 else books_finished in
         run Db.commit w ;;
         ret (set_current_page (Z.max 0 new_page) (set_status new_status book),
              counter))
        (fun _ =>
           run Db.rollback ;;
           raise (HTTPException 500 "Failed to update book"))
  end.

(** *** [routes/users.py]: [update_llm_preferences] *)

(** [schemas.LLMPreferences] *)
Record LLMPreferences : Type := mkLLMPreferences {
  lp_model : option string;
  lp_temperature : option float;
  lp_max_tokens : option Z;
  lp_instruction_style : option string
}.

Definition allowed_styles : list string := ["academic"; "casual"; "concise"]%string.

(** [in_unit f] is the comparison [0 <= f <= 1] on binary64 values. The
    result is the dictionary returned under ["preferences"]. *)
Definition update_llm_preferences (w : World) (in_unit : float -> bool)
    (prefs : LLMPreferences) (current_user : User) : M (gmap string json) :=
  try_except
    (let llm := default ∅ (preferences current_user !! "llm") in
     let llm := match lp_model prefs with
                | Some m => <["model" := JStr m]> llm
                | None => llm
                end in
     do llm <-
       match lp_temperature prefs with
       | Some t =>
           if in_unit t then ret (<["temperature" := JFloat t]> llm)
           else raise (HTTPException 400 "Temperature must be between 0 and 1")
       | None => ret llm
       end ;;
     do llm <-
       match lp_max_tokens prefs with
       | Some n =>
           if (50 <=? n) && (n <=? 1000)
           then ret (<["max_tokens" := JInt n]> llm)
           else raise (HTTPException 400 "max_tokens must be between 50 and 1000")
       | None => ret llm
       end ;;
     do llm <-
       match lp_instruction_style prefs with
       | Some s =>
           if existsb (String.eqb (Str.lower s)) allowed_styles
           then ret (<["instruction_style" := JStr (Str.lower s)]> llm)
           else raise (HTTPException 400
                  "instruction_style must be one of: academic, casual, concise")
       | None => ret llm
       end ;;
     run Db.commit w ;;
     ret llm)
    (fun _ =>
       run Db.rollback ;;
       raise (HTTPException 500 "Failed to update LLM preferences")).

(** *** Vocabulary of the further statements *)

(** [s3_same m]: [m] leaves the bucket as it is. *)
Definition s3_same {A} (m : M A) : Prop :=
  forall st r st', m st = (r, st') -> s3 st' = s3 st.

(** [s3_grows m]: [m] removes no object from the bucket. *)
Definition s3_grows {A} (m : M A) : Prop :=
  forall st r st', m st = (r, st') ->
    forall key, is_Some (s3 st !! key) -> is_Some (s3 st' !! key).

(** Every cached text belongs to a file name [extract_text] supports. *)
Definition cache_supported (st : state) : Prop :=
  forall filename h, is_Some (text_cache st !! (filename, h)) ->
    Str.endswith filename ".pdf" = true \/ Str.endswith filename ".epub" = true.

(** *** Further sample inputs *)

Module Demo.

(** A second upload of the file name of [Sample.uploaded], as
    [generate_unique_keys] numbers it. *)
Definition second : Book := {|
  id := 2;
  user_id := "u1";
  title := "tale";
  file_key := "users/u1/tale1.pdf";
  text_key := Some "users/u1/tale1_text.txt"%string;
  author := None;
  total_pages := None;
  current_page := 0;
  status := PROCESSING;
  book_metadata := ∅
|}.

Definition st_two : state :=
  mkState [Sample.uploaded; second] [Sample.uploaded; second] ∅ ∅.

(** The state after the pipeline of the first upload. *)
Definition st_two_first : state :=
  snd (process_book Sample.world [] "users/u1/tale.pdf" "users/u1/tale_text.txt"
         "tale.pdf" "u1" None None st_two).

(** The state after the pipeline of the second upload. *)
Definition st_two_both : state :=
  snd (process_book Sample.world [] "users/u1/tale1.pdf" "users/u1/tale1_text.txt"
         "tale.pdf" "u1" None None st_two_first).

(** A bucket that holds nothing of the books of the state. *)
Definition st_empty : state := mkState [] [] ∅ ∅.

Definition settings : Settings := mkSettings "gpt-3.5-turbo" (Float64 0) 500 "Academic".

(** The book [upload_book] creates when "tale.pdf" is uploaded a third
    time, and the state after that upload. *)
Definition third : Book := {|
  id := 3;
  user_id := "u1";
  title := "tale";
  file_key := "users/u1/tale2.pdf";
  text_key := Some "users/u1/tale2_text.txt"%string;
  author := None;
  total_pages := Some 12;
  current_page := 0;
  status := PROCESSING;
  book_metadata := ∅
|}.

Definition st_three : state :=
  mkState [Sample.uploaded; second; third] [Sample.uploaded; second; third] ∅ ∅.

End Demo.

(** * Properties *)

(** ** The chunker *)

Section Chunker.

Lemma emit_app cur (a b : list Py.str) :
  Py.emit cur (a ++ b) = Py.emit cur a ++ b.
Proof. destruct cur; reflexivity. Qed.

Lemma split_from_nospace cur word s :
  nospace word -> Py.split_from cur (word ++ s) = Py.split_from (cur ++ word) s.
Proof.
  intros Hw. revert cur.
  induction Hw as [|c word Hc _ IH]; intros cur; simpl.
  - by rewrite app_nil_r.
  - rewrite Hc, IH. by rewrite <- app_assoc.
Qed.

Lemma split_from_words s : forall cur,
  nospace cur -> Forall is_word (Py.split_from cur s).
Proof.
  induction s as [|c s IH]; intros cur Hcur; simpl.
  - destruct cur; constructor; [|constructor]. split; [discriminate | exact Hcur].
  - destruct (Py.isspace c) eqn:Hc.
    + specialize (IH [] ltac:(constructor)).
      destruct cur; simpl; [exact IH|].
      constructor; [|exact IH]. split; [discriminate | exact Hcur].
    + apply IH. apply Forall_app. split; [exact Hcur|].
      constructor; [exact Hc | constructor].
Qed.

Lemma split_words s : Forall is_word (Py.split s).
Proof. apply split_from_words. constructor. Qed.

Lemma split_from_space cur a b :
  Py.split_from cur (a ++ Py.SPACE :: b) = Py.split_from cur a ++ Py.split b.
Proof.
  revert cur. induction a as [|c a IH]; intros cur; simpl.
  - change (Py.isspace Py.SPACE) with true. simpl.
    change (Py.split_from [] b) with ([] ++ Py.split b).
    by rewrite emit_app.
  - destruct (Py.isspace c).
    + rewrite IH. by rewrite emit_app.
    + apply IH.
Qed.

Lemma split_join_concat (l : list Py.str) :
  Py.split (Py.join [Py.SPACE] l) = concat (map Py.split l).
Proof.
  induction l as [|a [|b l] IH].
  - reflexivity.
  - simpl. by rewrite app_nil_r.
  - change (Py.join [Py.SPACE] (a :: b :: l))
      with (a ++ Py.SPACE :: Py.join [Py.SPACE] (b :: l)).
    unfold Py.split at 1. rewrite split_from_space, IH. reflexivity.
Qed.

Lemma split_word word : is_word word -> Py.split word = [word].
Proof.
  intros [Hne Hns]. unfold Py.split.
  rewrite <- (app_nil_r word) at 1.
  rewrite split_from_nospace by exact Hns. simpl.
  destruct word; [contradiction | reflexivity].
Qed.

Lemma concat_split_words (ws : list Py.str) :
  Forall is_word ws -> concat (map Py.split ws) = ws.
Proof.
  induction 1 as [|word ws Hw _ IH]; simpl; [reflexivity|].
  by rewrite (split_word _ Hw), IH.
Qed.

(** Splitting the join of words gives the words back. *)
Lemma split_join (ws : list Py.str) :
  Forall is_word ws -> Py.split (Py.join [Py.SPACE] ws) = ws.
Proof. intros H. rewrite split_join_concat. by apply concat_split_words. Qed.

Lemma split_blank s : forallb Py.isspace s = true -> Py.split s = [].
Proof.
  unfold Py.split. induction s as [|c s IH]; simpl; [reflexivity|].
  intros H. apply andb_prop in H as [Hc Hs]. rewrite Hc. simpl. by apply IH.
Qed.

Lemma concat_groups {A} (n : nat) : forall (c : nat) (l : list A),
  (length l <= c * n)%nat -> concat (map (group n l) (seq 0 c)) = l.
Proof.
  induction c as [|c IH]; intros l Hl.
  - destruct l; [reflexivity | simpl in Hl; lia].
  - rewrite <- cons_seq, <- seq_shift, map_cons, List.map_map, concat_cons.
    unfold group at 1. simpl skipn.
    rewrite (map_ext (fun j => group n l (S j)) (group n (skipn n l))).
    + rewrite IH; [apply firstn_skipn|].
      rewrite length_skipn. simpl in Hl. lia.
    + intros j. unfold group. rewrite skipn_skipn. f_equal. f_equal. lia.
Qed.

Lemma slice_group {A} (l : list A) (n j : nat) :
  Py.slice l (Z.of_nat j * Z.of_nat n) (Z.of_nat j * Z.of_nat n + Z.of_nat n)
  = group n l j.
Proof.
  unfold Py.slice, Py.clamp, group.
  set (L := Z.of_nat (length l)).
  assert (HL : L = Z.of_nat (length l)) by reflexivity.
  destruct (Z.ltb_spec (Z.of_nat j * Z.of_nat n) 0); [lia|].
  destruct (Z.ltb_spec (Z.of_nat j * Z.of_nat n + Z.of_nat n) 0); [lia|].
  destruct (Z.le_gt_cases (Z.of_nat j * Z.of_nat n) L) as [Hin|Hout].
  - replace (Z.to_nat (Z.max 0 (Z.min L (Z.of_nat j * Z.of_nat n))))
      with (j * n)%nat by lia.
    destruct (Z.le_gt_cases (Z.of_nat j * Z.of_nat n + Z.of_nat n) L).
    + f_equal. lia.
    + rewrite !firstn_all2; [reflexivity | |]; rewrite length_skipn; lia.
  - replace (Z.to_nat (Z.max 0 (Z.min L (Z.of_nat j * Z.of_nat n))))
      with (length l) by lia.
    rewrite !skipn_all2 by lia. by rewrite !firstn_nil.
Qed.

Lemma chunk_text_groups (text : Py.str) (n : nat) :
  (0 < n)%nat ->
  chunk_text text (Z.of_nat n)
  = Ok (map (fun j => Py.join [Py.SPACE] (group n (Py.split text) j))
            (seq 0 (Z.to_nat ((len (Py.split text) + Z.of_nat n - 1) / Z.of_nat n)))).
Proof.
  intros Hn. unfold chunk_text, Py.range, len.
  destruct (Z.eqb_spec (Z.of_nat n) 0); [lia|].
  destruct (Z.ltb_spec 0 (Z.of_nat n)); [|lia].
  rewrite Z.sub_0_r. simpl rbind. rewrite List.map_map. f_equal.
  apply map_ext. intros j. rewrite Z.add_0_l. by rewrite slice_group.
Qed.

Lemma group_words (text : Py.str) (n j : nat) :
  Forall is_word (group n (Py.split text) j).
Proof.
  unfold group. apply Forall_take, Forall_drop, split_words.
Qed.

End Chunker.

Lemma lookup_map_Some {A B} (f : A -> B) (l : list A) (i : nat) (b : B) :
  map f l !! i = Some b -> exists a, l !! i = Some a /\ b = f a.
Proof.
  revert i. induction l as [|a l IH]; intros [|i] H; simpl in *; try discriminate.
  - injection H as <-. eauto.
  - by apply IH.
Qed.

Lemma ceil_div_bounds (L n : nat) :
  (0 < n)%nat ->
  let c := Z.to_nat ((Z.of_nat L + Z.of_nat n - 1) / Z.of_nat n) in
  (L <= c * n)%nat /\ (forall j, (j < c)%nat -> (j * n < L)%nat).
Proof.
  intros Hn c. subst c.
  set (q := (Z.of_nat L + Z.of_nat n - 1) / Z.of_nat n).
  assert (Hq : 0 <= q) by (apply Z.div_pos; lia).
  pose proof (Z.div_mod (Z.of_nat L + Z.of_nat n - 1) (Z.of_nat n) ltac:(lia)) as Hdm.
  pose proof (Z.mod_pos_bound (Z.of_nat L + Z.of_nat n - 1) (Z.of_nat n) ltac:(lia)) as Hmod.
  fold q in Hdm.
  split.
  - nia.
  - intros j Hj. nia.
Qed.

(** C4. For every text and every positive chunk size, [chunk_text] returns
    (it does not raise); the words of the chunks, taken in index order, are
    exactly the whitespace-delimited words of the text, both when the chunks
    are joined by a space and split again and when each chunk is split on
    its own; every chunk but the last holds exactly [chunk_size] words, every
    chunk holds between one and [chunk_size] words; and an empty or
    all-whitespace text gives no chunk at all. *)
Theorem chunk_text_reproduces_words (text : Py.str) (chunk_size : Z) :
  0 < chunk_size ->
  exists chunks,
    chunk_text text chunk_size = Ok chunks /\
    Py.split (Py.join [Py.SPACE] chunks) = Py.split text /\
    concat (map Py.split chunks) = Py.split text /\
    (forall i c, (S i < length chunks)%nat -> chunks !! i = Some c ->
                 len (Py.split c) = chunk_size) /\
    (forall c, In c chunks -> 0 < len (Py.split c) <= chunk_size) /\
    (forallb Py.isspace text = true -> chunks = []).
Proof.
  intros Hpos.
  set (n := Z.to_nat chunk_size).
  assert (Hn : (0 < n)%nat) by lia.
  replace chunk_size with (Z.of_nat n) by lia.
  rewrite (chunk_text_groups text n Hn).
  set (W := Py.split text).
  destruct (ceil_div_bounds (length W) n Hn) as [Hcover Hbelow].
  unfold len.
  set (c := Z.to_nat ((Z.of_nat (length W) + Z.of_nat n - 1) / Z.of_nat n)) in *.
  assert (Hsplit : forall j, Py.split (Py.join [Py.SPACE] (group n W j)) = group n W j).
  { intros j. apply split_join, group_words. }
  assert (Hconcat :
    concat (map Py.split (map (fun j => Py.join [Py.SPACE] (group n W j)) (seq 0 c))) = W).
  { rewrite List.map_map.
    rewrite (map_ext _ (group n W)) by exact Hsplit.
    by apply concat_groups. }
  eexists. split; [reflexivity|].
  split; [by rewrite split_join_concat|].
  split; [exact Hconcat|].
  split; [|split].
  - intros i ch Hi Hlook.
    rewrite length_map, length_seq in Hi.
    apply lookup_map_Some in Hlook as (j & Hj & ->).
    apply lookup_seq in Hj as [-> _]. simpl.
    rewrite Hsplit. unfold group.
    rewrite length_firstn, length_skipn.
    specialize (Hbelow (S i) Hi). simpl in Hbelow. nia.
  - intros ch Hin.
    apply in_map_iff in Hin as (j & <- & Hj).
    apply in_seq in Hj as [_ Hj]. simpl in Hj.
    rewrite Hsplit. unfold group.
    rewrite length_firstn, length_skipn.
    specialize (Hbelow j Hj). lia.
  - intros Hblank.
    assert (HW : W = []) by (apply split_blank; exact Hblank).
    subst c. rewrite HW. simpl length.
    replace ((Z.of_nat 0 + Z.of_nat n - 1) / Z.of_nat n) with 0; [reflexivity|].
    symmetry. apply Z.div_small. lia.
Qed.

(** The chunker at the size used by the pipeline, on a three-word text. *)
Lemma chunk_text_reproduces_words_witness :
  exists chunks,
    chunk_text (Py.cps " to be  or ") 2 = Ok chunks /\
    Py.split (Py.join [Py.SPACE] chunks) = Py.split (Py.cps " to be  or ") /\
    concat (map Py.split chunks) = Py.split (Py.cps " to be  or ") /\
    (forall i c, (S i < length chunks)%nat -> chunks !! i = Some c ->
                 len (Py.split c) = 2) /\
    (forall c, In c chunks -> 0 < len (Py.split c) <= 2) /\
    (forallb Py.isspace (Py.cps " to be  or ") = true -> chunks = []).
Proof. apply (chunk_text_reproduces_words (Py.cps " to be  or ") 2). lia. Defined.

(** ** Effects of the primitives on the database *)

Create HintDb frames.

Section Pipeline.

Variable w : World.

Lemma bind_inv {A B} (m : M A) (k : A -> M B) st r st' :
  bind m k st = (r, st') ->
  (exists e, m st = (Raise e, st') /\ r = Raise e)
  \/ (exists a st1, m st = (Ok a, st1) /\ k a st1 = (r, st')).
Proof.
  unfold bind. destruct (m st) as [[a|e] st1]; intros H.
  - right. eauto.
  - left. injection H as <- <-. eauto.
Qed.

Lemma frame_ret {A} (a : A) : db_frame (ret a).
Proof. intros st r st' [= <- <-]. auto. Qed.

Lemma frame_raise {A} e : db_frame (@raise A e).
Proof. intros st r st' [= <- <-]. auto. Qed.

Lemma frame_lift {A} (x : result A) : db_frame (lift x).
Proof. intros st r st' [= <- <-]. auto. Qed.

Lemma frame_bind {A B} (m : M A) (k : A -> M B) :
  db_frame m -> (forall a, db_frame (k a)) -> db_frame (bind m k).
Proof.
  intros Hm Hk st r st' H.
  apply bind_inv in H as [(e & H & _) | (a & st1 & H1 & H2)].
  - by apply Hm in H.
  - apply Hm in H1 as [E1 E2]. apply Hk in H2 as [-> ->]. auto.
Qed.

Lemma frame_try_except {A} (m : M A) (h : exn -> M A) :
  db_frame m -> (forall e, db_frame (h e)) -> db_frame (try_except m h).
Proof.
  intros Hm Hh st r st'. unfold try_except.
  destruct (m st) as [[a|e] st1] eqn:E; intros H.
  - injection H as <- <-. by apply Hm in E.
  - apply Hm in E as [E1 E2]. apply Hh in H as [-> ->]. auto.
Qed.

Lemma frame_try_finally {A} (m : M A) (c : M unit) :
  db_frame m -> db_frame c -> db_frame (try_finally m c).
Proof.
  intros Hm Hc st r st'. unfold try_finally.
  destruct (m st) as [r1 st1] eqn:E. intros [= <- <-].
  apply Hm in E as [E1 E2].
  destruct (c st1) as [r2 st2] eqn:E3. simpl. apply Hc in E3 as [-> ->]. auto.
Qed.

Lemma frame_upload data key ctype : db_frame (upload_fileobj_to_s3 w data key ctype).
Proof.
  intros st r st'. unfold upload_fileobj_to_s3.
  destruct (s3_upload_fails w key); intros [= <- <-]; auto.
Qed.

Lemma frame_download key : db_frame (download_fileobj_from_s3 w key).
Proof.
  intros st r st'. unfold download_fileobj_from_s3.
  destruct (s3_download_fails w key); [intros [= <- <-]; auto|].
  destruct (s3 st !! key); intros [= <- <-]; auto.
Qed.

Lemma frame_delete_object key : db_frame (delete_object w key).
Proof.
  intros st r st'. unfold delete_object.
  destruct (s3_delete_fails w key); intros [= <- <-]; auto.
Qed.

Lemma frame_first p : db_frame (Db.first p).
Proof. intros st r st' [= <- <-]. auto. Qed.

Lemma frame_load_local {A} name (v : option A) : db_frame (load_local name v).
Proof. destruct v; [apply frame_ret | apply frame_raise]. Qed.

Lemma frame_cache_read :
  db_frame (fun st : state => (Ok (text_cache st), st)).
Proof. intros st r st' [= <- <-]. auto. Qed.

Lemma frame_cache_write key (text : Py.str) :
  db_frame (fun st : state => (Ok tt, with_text_cache (insert key text) st)).
Proof. intros st r st' [= <- <-]. auto. Qed.

Hint Resolve frame_ret frame_raise frame_lift frame_upload frame_download
  frame_delete_object frame_first frame_cache_read frame_cache_write
  frame_load_local : frames.

Ltac frame :=
  repeat first
    [ progress eauto with frames
    | apply frame_bind; [|intros ?]
    | apply frame_try_except; [|intros ?]
    | apply frame_try_finally
    | match goal with
      | |- db_frame (if ?b then _ else _) => destruct b
      | |- db_frame (match ?x with _ => _ end) => destruct x
      end ].

Lemma frame_extract_text content filename :
  db_frame (extract_text w content filename).
Proof. unfold extract_text. frame. Qed.

Lemma frame_detect_pages content filename :
  db_frame (detect_pages w content filename).
Proof. unfold detect_pages. frame. Qed.

Lemma frame_generate_chat_answer query chunks book user :
  db_frame (generate_chat_answer w query chunks book user).
Proof. unfold generate_chat_answer. frame. Qed.


(** ** The indexing pipeline *)

Lemma id_set_total_pages v b : id (set_total_pages v b) = id b.
Proof. reflexivity. Qed.

Lemma update_row_compose pk (f g : Book -> Book) rows :
  (forall b, id (f b) = id b) ->
  update_row pk g (update_row pk f rows) = update_row pk (fun b => g (f b)) rows.
Proof.
  intros Hid. unfold update_row. rewrite List.map_map. apply map_ext.
  intros b. destruct (id b =? pk) eqn:E; [|by rewrite E].
  by rewrite Hid, E.
Qed.

Lemma setattr_spec pk f st :
  Db.setattr pk f st
  = (Ok tt, mkState (db_rows st) (update_row pk f (session st)) (s3 st)
                    (text_cache st)).
Proof. reflexivity. Qed.

Lemma detect_pages_ok content filename st d st' :
  detect_pages w content filename st = (Ok d, st') ->
  if Str.endswith filename ".pdf"
  then exists pages, fitz_open w content = Some pages /\ d = Some (len pages)
  else d = None.
Proof.
  unfold detect_pages. destruct (Str.endswith filename ".pdf").
  - destruct (tmp_write_fails w ".pdf"); [discriminate|].
    destruct (fitz_open w content) as [pages|]; [|discriminate].
    intros [= <- <-]. eauto.
  - by intros [= <- <-].
Qed.

Lemma upload_text_cache data key ctype st u st' :
  upload_fileobj_to_s3 w data key ctype st = (Ok u, st') ->
  text_cache st' = text_cache st.
Proof.
  unfold upload_fileobj_to_s3.
  destruct (s3_upload_fails w key); [discriminate|]. by intros [= <- <-].
Qed.

(** A step raised: the committed rows are those before the step. *)
Ltac raised H lem :=
  left; eexists; split; [reflexivity|];
  apply lem in H as [-> _]; congruence.

Ltac raised_by_frame H :=
  left; eexists; split; [reflexivity|];
  match type of H with
  | ?m ?s = _ =>
      let Hf := fresh in
      assert (Hf : db_frame m) by frame;
      apply Hf in H as [-> _]; congruence
  end.

Ltac apply_frame H D S :=
  match type of H with
  | ?m ?s = _ =>
      let Hf := fresh in
      assert (Hf : db_frame m) by frame;
      apply Hf in H as [D S]; clear Hf
  end.

(** What the suite of the [try] statement can do to the database: raise
    with the committed rows untouched, find no book and change nothing,
    or commit the one update of the book's row. *)
Lemma process_book_body_cases content file_key text_key filename user_id
    author total_pages st r st' :
  process_book_body w content file_key text_key filename user_id author
                    total_pages st = (r, st') ->
  (exists e, r = Raise e /\ db_rows st' = db_rows st)
  \/ (r = Ok tt
      /\ List.find (owned_with_key user_id file_key) (session st) = None
      /\ db_rows st' = db_rows st /\ session st' = session st)
  \/ (exists (book : Book) (detected : option Z) (chunks : list Py.str),
        r = Ok tt
        /\ List.find (owned_with_key user_id file_key) (session st) = Some book
        /\ (if Str.endswith filename ".pdf"
            then exists pages, fitz_open w content = Some pages
                               /\ detected = Some (len pages)
            else detected = None)
        /\ session st'
           = update_row (id book)
               (commit_update detected total_pages
                  (success_metadata
                     (artifact_key user_id filename "_index.faiss")
                     (artifact_key user_id filename "_vectorizer.pkl")
                     (artifact_key user_id filename "_chunks.pkl")
                     (len chunks)))
               (session st)
        /\ db_rows st' = session st'
        /\ exists text st1 st2,
             text_cache st1 = text_cache st
             /\ extract_text w content filename st1 = (Ok text, st2)
             /\ chunk_text text 500 = Ok chunks
             /\ exists built, build_index w chunks = Ok built).
Proof.
  unfold process_book_body. intros H.
  apply bind_inv in H as [(e & H & ->) | (u1 & st1 & H1 & H)].
  { raised H (frame_upload). }
  pose proof (upload_text_cache _ _ _ _ _ _ H1) as Hcache.
  apply frame_upload in H1 as [D1 S1].
  apply bind_inv in H as [(e & H & ->) | (text & st2 & H2 & H)].
  { raised H frame_extract_text. }
  pose proof H2 as Hext.
  apply frame_extract_text in H2 as [D2 S2].
  apply bind_inv in H as [(e & H & ->) | (detected & st3 & H3 & H)].
  { raised H frame_detect_pages. }
  pose proof (detect_pages_ok _ _ _ _ _ H3) as Hdet.
  apply frame_detect_pages in H3 as [D3 S3].
  apply bind_inv in H as [(e & H & ->) | (chunks & st4 & H4 & H)].
  { raised H @frame_lift. }
  assert (Hchunks : chunk_text text 500 = Ok chunks)
    by (unfold lift in H4; congruence).
  apply frame_lift in H4 as [D4 S4].
  apply bind_inv in H as [(e & H & ->) | ([vz ix] & st5 & H5 & H)].
  { raised H @frame_lift. }
  assert (Hbuilt : build_index w chunks = Ok (vz, ix))
    by (unfold lift in H5; congruence).
  apply frame_lift in H5 as [D5 S5].
  apply bind_inv in H as [(e & H & ->) | (u6 & st6 & H6 & H)].
  { raised_by_frame H. }
  apply_frame H6 D6 S6.
  apply bind_inv in H as [(e & H & ->) | (u7 & st7 & H7 & H)].
  { raised H frame_upload. }
  apply frame_upload in H7 as [D7 S7].
  apply bind_inv in H as [(e & H & ->) | (u8 & st8 & H8 & H)].
  { raised H frame_upload. }
  apply frame_upload in H8 as [D8 S8].
  apply bind_inv in H as [(e & H & ->) | (u9 & st9 & H9 & H)].
  { raised H frame_upload. }
  apply frame_upload in H9 as [D9 S9].
  apply bind_inv in H as [(e & H & ->) | (u10 & st10 & H10 & H)].
  { raised H frame_upload. }
  apply frame_upload in H10 as [D10 S10].
  assert (Dall : db_rows st10 = db_rows st) by congruence.
  assert (Sall : session st10 = session st) by congruence.
  clear D1 D2 D3 D4 D5 D6 D7 D8 D9 D10 S1 S2 S3 S4 S5 S6 S7 S8 S9 S10.
  unfold bind at 1 in H. simpl in H. rewrite Sall in H.
  destruct (find (owned_with_key user_id file_key) (session st)) as [book|] eqn:Hfind.
  - (* the book is found: three assignments, then the commit *)
    set (md := success_metadata _ _ _ _) in *.
    assert (Hsess : forall st11 r11,
      (run Db.setattr (id book) (set_book_metadata md) ;;
       run Db.setattr (id book) (set_status UNREAD) ;;
       Db.commit w) st11 = (r11, st') ->
      db_rows st11 = db_rows st ->
      (exists e, r11 = Raise e /\ db_rows st' = db_rows st)
      \/ (r11 = Ok tt
          /\ session st'
             = update_row (id book)
                 (fun b => set_status UNREAD (set_book_metadata md b))
                 (session st11)
          /\ db_rows st' = session st')).
    { intros st11 r11 Hrun Hdb. unfold bind in Hrun.
      rewrite !setattr_spec in Hrun. unfold Db.commit in Hrun.
      destruct (commit_fails w); injection Hrun as <- <-; simpl.
      - left. eauto.
      - right. split; [reflexivity|].
        rewrite update_row_compose by reflexivity. auto. }
    destruct (use_detected_pages detected total_pages) eqn:Huse.
    + unfold bind at 1 in H. rewrite setattr_spec in H.
      apply Hsess in H as [Hraise | (-> & Hs & Hd)]; [by left | | exact Dall].
      right. right. exists book, detected, chunks.
      split; [reflexivity|]. split; [reflexivity|]. split; [exact Hdet|].
      split; [|split; [exact Hd | eauto 10]].
      rewrite Hs. simpl session. rewrite Sall.
      rewrite update_row_compose by reflexivity.
      unfold commit_update. by rewrite Huse.
    + unfold bind at 1 in H. simpl in H.
      apply Hsess in H as [Hraise | (-> & Hs & Hd)]; [by left | | exact Dall].
      right. right. exists book, detected, chunks.
      split; [reflexivity|]. split; [reflexivity|]. split; [exact Hdet|].
      split; [|split; [exact Hd | eauto 10]].
      rewrite Hs, Sall. unfold commit_update. by rewrite Huse.
  - injection H as <- <-. right. left. auto.
Qed.

Lemma find_update_row (p : Book -> bool) pk f rows b :
  (forall x, p (f x) = p x) ->
  List.find p rows = Some b -> id b = pk ->
  List.find p (update_row pk f rows) = Some (f b).
Proof.
  intros Hp Hfind Hid. induction rows as [|a rows IH]; [discriminate|].
  simpl in Hfind |- *. destruct (p a) eqn:Ha.
  - injection Hfind as ->. rewrite Hid, Z.eqb_refl, Hp, Ha. reflexivity.
  - destruct (id a =? pk); [rewrite Hp|]; rewrite Ha; by apply IH.
Qed.

Lemma commit_update_fields detected supplied md b :
  status (commit_update detected supplied md b) = UNREAD
  /\ book_metadata (commit_update detected supplied md b) = md
  /\ total_pages (commit_update detected supplied md b)
     = (if use_detected_pages detected supplied then detected else total_pages b).
Proof.
  unfold commit_update. destruct (use_detected_pages detected supplied); auto.
Qed.

Lemma success_metadata_keys ik vk ck n :
  success_metadata ik vk ck n !! "extracted" = Some (JBool true)
  /\ success_metadata ik vk ck n !! "index_key" = Some (JStr ik)
  /\ success_metadata ik vk ck n !! "vectorizer_key" = Some (JStr vk)
  /\ success_metadata ik vk ck n !! "chunks_key" = Some (JStr ck)
  /\ success_metadata ik vk ck n !! "num_chunks" = Some (JInt n).
Proof. unfold success_metadata. repeat split; by simplify_map_eq. Qed.

Lemma commit_update_fully_indexed detected supplied ik vk ck n b :
  fully_indexed (commit_update detected supplied (success_metadata ik vk ck n) b).
Proof.
  destruct (commit_update_fields detected supplied (success_metadata ik vk ck n) b)
    as (Hs & Hm & _).
  destruct (success_metadata_keys ik vk ck n) as (? & ? & ? & ? & ?).
  unfold fully_indexed. rewrite Hs, Hm. eauto 10.
Qed.

(** C1. Whatever step of the pipeline raises (the upload of the raw file,
    the extraction, the page count, the chunking, the fit of the
    vectorizer and the index, the upload of an artifact, the commit), the
    committed rows of the database are exactly those before the run and the
    session is rolled back to them: no key of the metadata appears and the
    status stays what it was. In every run, each committed row afterwards
    either is a row of before, unchanged, or carries the complete metadata
    (extracted, the three artifact keys, num_chunks) together with status
    UNREAD. *)
Theorem process_book_commits_all_or_nothing content file_key text_key
    filename user_id author supplied st :
  session st = db_rows st ->
  (forall e st1,
      process_book_body w content file_key text_key filename user_id author
                        supplied st = (Raise e, st1) ->
      db_rows (snd (process_book w content file_key text_key filename user_id
                                 author supplied st)) = db_rows st
      /\ session (snd (process_book w content file_key text_key filename
                                    user_id author supplied st)) = db_rows st)
  /\ Forall2 (fun b b' => b' = b \/ fully_indexed b')
             (db_rows st)
             (db_rows (snd (process_book w content file_key text_key filename
                                         user_id author supplied st))).
Proof.
  intros Hclean. unfold process_book, try_except.
  destruct (process_book_body w content file_key text_key filename user_id
              author supplied st) as [r st1] eqn:Hbody.
  pose proof (process_book_body_cases _ _ _ _ _ _ _ _ _ _ Hbody)
    as [(e & -> & Hdb) | [(-> & _ & Hdb & _) | (book & d & chunks & -> & _ & _ & Hs & Hd & _)]].
  - split.
    + intros e' st1' _. simpl. auto.
    + simpl. rewrite Hdb. apply Forall2_same_length_lookup_2; [reflexivity|].
      intros i b b' H1 H2. left. congruence.
  - split; [intros e st1' [=]|]. simpl. rewrite Hdb.
    apply Forall2_same_length_lookup_2; [reflexivity|].
    intros i b b' H1 H2. left. congruence.
  - split; [intros e st1' [=]|]. simpl. rewrite Hd, Hs, Hclean.
    unfold update_row. apply Forall2_fmap_r, Forall_Forall2_diag.
    apply Forall_forall. intros b _. simpl.
    destruct (id b =? id book); [right | by left].
    apply commit_update_fully_indexed.
Qed.

Lemma owned_with_key_commit_update uid key detected supplied md b :
  owned_with_key uid key (commit_update detected supplied md b)
  = owned_with_key uid key b.
Proof.
  unfold commit_update. by destruct (use_detected_pages detected supplied).
Qed.

(** C7. When the pipeline succeeds on a PDF of [len pages] pages (at least
    one) for a book present in the database, the committed row of the book
    has status UNREAD; its [total_pages] is the detected page count when
    the caller supplied none or zero, and is left as it was when the caller
    supplied any other value (in particular a positive one). *)
Theorem process_book_total_pages content file_key text_key filename user_id
    author supplied st st' book pages :
  session st = db_rows st ->
  List.find (owned_with_key user_id file_key) (db_rows st) = Some book ->
  Str.endswith filename ".pdf" = true ->
  fitz_open w content = Some pages ->
  0 < len pages ->
  process_book_body w content file_key text_key filename user_id author
                    supplied st = (Ok tt, st') ->
  process_book w content file_key text_key filename user_id author supplied st
  = (Ok tt, st')
  /\ exists book',
       List.find (owned_with_key user_id file_key) (db_rows st') = Some book'
       /\ status book' = UNREAD
       /\ (supplied = None \/ supplied = Some 0 ->
           total_pages book' = Some (len pages))
       /\ (forall n, supplied = Some n -> n <> 0 ->
           total_pages book' = total_pages book).
Proof.
  intros Hclean Hfind Hpdf Hopen Hpos Hbody.
  split; [unfold process_book, try_except; by rewrite Hbody|].
  pose proof (process_book_body_cases _ _ _ _ _ _ _ _ _ _ Hbody)
    as [(e & [=] & _) | [(_ & Hnone & _) | (b & d & chunks & _ & Hb & Hdet & Hs & Hd & _)]].
  { rewrite Hclean in Hnone. congruence. }
  rewrite Hclean in Hb, Hs. rewrite Hpdf in Hdet.
  destruct Hdet as (pages' & Hopen' & ->).
  assert (b = book) as -> by congruence.
  assert (pages' = pages) as -> by congruence.
  eexists. split.
  { rewrite Hd, Hs. apply find_update_row; [|exact Hfind|reflexivity].
    intros x. apply owned_with_key_commit_update. }
  match goal with
  | |- context [commit_update ?d ?s ?m ?b] =>
      destruct (commit_update_fields d s m b) as (Hst & _ & Htp)
  end.
  split; [exact Hst|]. rewrite Htp.
  assert (Htruthy : truthy_opt_int (Some (len pages)) = true).
  { unfold truthy_opt_int, truthy_int.
    destruct (Z.eqb_spec (len pages) 0); [lia | reflexivity]. }
  unfold use_detected_pages. rewrite Htruthy. split.
  - intros [-> | ->]; reflexivity.
  - intros n -> Hn. simpl. unfold truthy_int.
    destruct (Z.eqb_spec n 0); [contradiction | reflexivity].
Qed.

Lemma build_index_result chunks :
  build_index w chunks
  = match flat_map (Sklearn.tokens w) chunks with
    | [] => Raise (ValueError
              "empty vocabulary; perhaps the documents only contain stop words")
    | _ :: _ =>
        Ok (Fitted 1000 chunks,
            mkIndex (match map (tfidf_row w (Fitted 1000 chunks)) chunks with
                     | row :: _ => length row
                     | [] => 0%nat
                     end)
                    (map (tfidf_row w (Fitted 1000 chunks)) chunks))
    end.
Proof.
  unfold build_index, Sklearn.fit_transform.
  destruct (flat_map (Sklearn.tokens w) chunks); reflexivity.
Qed.

(** The page count asked of a successful run is no restriction when the
    text comes from the file itself: without a cached text for the upload,
    a PDF with no page gives an empty text, no chunk, and a vectorizer that
    raises. *)
Lemma process_book_success_has_pages content file_key text_key filename user_id
    author supplied st st' book pages :
  text_cache st !! (filename, py_hash w content) = None ->
  List.find (owned_with_key user_id file_key) (session st) = Some book ->
  Str.endswith filename ".pdf" = true ->
  fitz_open w content = Some pages ->
  process_book_body w content file_key text_key filename user_id author
                    supplied st = (Ok tt, st') ->
  0 < len pages.
Proof.
  intros Hmiss Hfind Hpdf Hopen Hbody.
  destruct pages as [|page pages]; [|unfold len; simpl; lia].
  exfalso.
  pose proof (process_book_body_cases _ _ _ _ _ _ _ _ _ _ Hbody)
    as [(e & [=] & _) | [(_ & Hnone & _) | (b & d & chunks & _ & _ & _ & _ & _ & Hrun)]].
  { congruence. }
  destruct Hrun as (text & st1 & st2 & Hcache & Hext & Hchunks & built & Hbuilt).
  unfold extract_text in Hext. unfold bind at 1 in Hext.
  rewrite Hcache, Hmiss, Hpdf in Hext.
  unfold try_except in Hext.
  destruct (tmp_write_fails w ".pdf"); [discriminate|].
  rewrite Hopen in Hext. unfold bind, lift in Hext. simpl in Hext.
  injection Hext as <- _.
  injection Hchunks as <-.
  by rewrite build_index_result in Hbuilt.
Qed.

(** ** Index construction *)


(** C5, as the code has it. Fitting the vectorizer and building the index
    raises exactly when no chunk contains a token (a run of at least two
    word characters); the exception is then the vectorizer's [ValueError]
    for an empty vocabulary. An empty chunk list always raises it. *)
Theorem build_index_raises_iff_no_token chunks :
  ((exists e, build_index w chunks = Raise e)
   <-> flat_map (Sklearn.tokens w) chunks = [])
  /\ ((exists e, build_index w chunks = Raise e)
      <-> build_index w chunks
          = Raise (ValueError
              "empty vocabulary; perhaps the documents only contain stop words"))
  /\ build_index w []
     = Raise (ValueError
         "empty vocabulary; perhaps the documents only contain stop words").
Proof.
  rewrite build_index_result.
  destruct (flat_map (Sklearn.tokens w) chunks) eqn:E.
  - repeat split; eauto.
  - repeat split; try (intros [e [=]]); try discriminate.
Qed.

End Pipeline.

(** ** The pipeline on concrete inputs *)

(** C1 on a file PyMuPDF cannot open: the extraction raises and the book
    stays as uploaded. *)
Lemma process_book_commits_all_or_nothing_witness :
  db_rows (snd (process_book Sample.world_unreadable [] "users/u1/tale.pdf"
                  "users/u1/tale_text.txt" "tale.pdf" "u1" None None Sample.st0))
  = db_rows Sample.st0
  /\ session (snd (process_book Sample.world_unreadable [] "users/u1/tale.pdf"
                     "users/u1/tale_text.txt" "tale.pdf" "u1" None None Sample.st0))
     = db_rows Sample.st0.
Proof.
  destruct (process_book_commits_all_or_nothing Sample.world_unreadable []
              "users/u1/tale.pdf" "users/u1/tale_text.txt" "tale.pdf" "u1"
              None None Sample.st0 eq_refl) as [Hfail _].
  apply (Hfail (HTTPException 500 "Text extraction failed")
               (snd (process_book_body Sample.world_unreadable []
                       "users/u1/tale.pdf" "users/u1/tale_text.txt" "tale.pdf"
                       "u1" None None Sample.st0))).
  vm_compute. reflexivity.
Defined.

(** The named failures on the sample upload: the exception the suite
    raises and the committed row afterwards, which is the uploaded one. *)
Lemma process_book_failures_sample :
  Forall (fun failure : World * exn =>
            fst (process_book_body (fst failure) [] "users/u1/tale.pdf"
                   "users/u1/tale_text.txt" "tale.pdf" "u1" None None Sample.st0)
            = Raise (snd failure)
            /\ db_rows (snd (process_book (fst failure) [] "users/u1/tale.pdf"
                               "users/u1/tale_text.txt" "tale.pdf" "u1" None
                               None Sample.st0))
               = [Sample.uploaded])
    [(Sample.world_unreadable, HTTPException 500 "Text extraction failed");
     (Sample.world_letters,
      ValueError "empty vocabulary; perhaps the documents only contain stop words");
     (Sample.world_chunks_upload_fails, ClientError "users/u1/tale_chunks.pkl");
     (Sample.world_commit_fails, SQLAlchemyError)].
Proof. repeat constructor; vm_compute; reflexivity. Qed.

(** C7 on the two-page sample: no page count supplied, two pages detected. *)
Lemma process_book_total_pages_witness :
  process_book Sample.world [] "users/u1/tale.pdf" "users/u1/tale_text.txt"
               "tale.pdf" "u1" None None Sample.st0
  = (Ok tt, Sample.st_processed)
  /\ exists book',
       List.find (owned_with_key "u1" "users/u1/tale.pdf")
                 (db_rows Sample.st_processed) = Some book'
       /\ status book' = UNREAD
       /\ (@None Z = None \/ None = Some 0 -> total_pages book' = Some 2)
       /\ (forall n, None = Some n -> n <> 0 ->
           total_pages book' = total_pages Sample.uploaded).
Proof.
  apply (process_book_total_pages Sample.world [] "users/u1/tale.pdf"
           "users/u1/tale_text.txt" "tale.pdf" "u1" None None Sample.st0
           Sample.st_processed Sample.uploaded [Sample.page1; Sample.page2]).
  - reflexivity.
  - vm_compute. reflexivity.
  - vm_compute. reflexivity.
  - reflexivity.
  - vm_compute. reflexivity.
  - vm_compute. reflexivity.
Defined.

(** C5 as stated fails: the chunk list of the one-word text "a" is not
    empty, and index construction raises on it. *)
Lemma build_index_raises_on_nonempty_chunks :
  chunk_text (Py.cps "a") 500 = Ok [Py.cps "a"]
  /\ [Py.cps "a"] <> []
  /\ build_index Sample.world [Py.cps "a"]
     = Raise (ValueError
         "empty vocabulary; perhaps the documents only contain stop words").
Proof. split; [reflexivity|]. split; [discriminate | reflexivity]. Qed.

(** ** The query route *)

Section Routes.

Variable w : World.

Lemma raises_raise {A} e : always_raises (@raise A e).
Proof. intros st. by exists e, st. Qed.

Lemma raises_bind {A B} (m : M A) (k : A -> M B) :
  (forall a, always_raises (k a)) -> always_raises (bind m k).
Proof.
  intros Hk st. unfold bind. destruct (m st) as [[a|e] st1]; [apply Hk | eauto].
Qed.

Lemma raises_bind_l {A B} (m : M A) (k : A -> M B) :
  always_raises m -> always_raises (bind m k).
Proof.
  intros Hm st. unfold bind. destruct (Hm st) as (e & st1 & ->). eauto.
Qed.

Lemma raises_try_finally {A} (m : M A) (c : M unit) :
  always_raises m -> always_raises (try_finally m c).
Proof.
  intros Hm st. unfold try_finally. destruct (Hm st) as (e & st1 & ->). eauto.
Qed.

Lemma raises_unbound {A} name : always_raises (@load_local A name None).
Proof. apply raises_raise. Qed.

(** The suite of the [try] statement never reaches the search: whatever
    the earlier steps do, reading the unassigned local [chunks] raises. *)
Lemma query_book_body_raises book_id query no_spoilers user :
  always_raises (query_book_body w book_id query no_spoilers user).
Proof.
  unfold query_book_body.
  apply raises_bind. intros [book|]; [|apply raises_raise].
  destruct (negb _); [apply raises_raise|].
  do 7 (apply raises_bind; intros ?).
  apply raises_try_finally.
  apply raises_bind. intros index.
  apply raises_bind_l, raises_unbound.
Qed.

(** On a book whose metadata and artifacts are all in place, the suite
    stops at line 370: [len(chunks)] reads the local variable [chunks]
    before its assignment on line 375. *)
Lemma query_book_body_unbound_chunks book_id query no_spoilers user st book
    index_key vectorizer_key chunks_key vz_object vz ix_object ix :
  List.find (owned_with_id book_id user) (session st) = Some book ->
  truthy_json (book_metadata book !! "extracted") = true ->
  book_metadata book !! "index_key" = Some (JStr index_key) ->
  book_metadata book !! "vectorizer_key" = Some (JStr vectorizer_key) ->
  book_metadata book !! "chunks_key" = Some (JStr chunks_key) ->
  s3_download_fails w vectorizer_key = false ->
  s3 st !! vectorizer_key = Some vz_object ->
  body vz_object = PickledVectorizer vz ->
  s3_download_fails w index_key = false ->
  s3 st !! index_key = Some ix_object ->
  body ix_object = FaissFile ix ->
  tmp_write_fails w "" = false ->
  query_book_body w book_id query no_spoilers user st
  = (Raise (UnboundLocalError "chunks"), st).
Proof.
  intros Hfind Hext Hik Hvk Hck Hdv Hv Hvb Hdi Hi Hib Htmp.
  unfold query_book_body, bind, Db.first, lift, dict_getitem,
    download_fileobj_from_s3, try_finally.
  rewrite Hfind, Hext, Hik, Hvk, Hck. simpl.
  rewrite Hdv, Hv, Hvb. simpl.
  rewrite Hdi, Hi, Htmp, Hib. reflexivity.
Qed.

(** C3: the code never runs the search. For every environment, state and
    request, [query_book] raises the generic HTTP 500 error: no request
    gets as far as [index.search]. *)
Theorem query_book_never_answers book_id query no_spoilers user st :
  exists st',
    query_book w book_id query no_spoilers user st
    = (Raise (HTTPException 500 "Failed to process query"), st').
Proof.
  unfold query_book, try_except.
  destruct (query_book_body_raises book_id query no_spoilers user st)
    as (e & st' & ->).
  by exists st'.
Qed.

(** C6: on a book whose metadata has no true [extracted] entry the suite
    raises HTTP 400 "Book text not yet extracted", but the enclosing
    [except Exception] turns it into the generic HTTP 500 "Failed to
    process query"; the caller cannot tell the two failures apart. *)
Theorem query_book_not_extracted_is_generic_failure book_id query no_spoilers
    user st book :
  List.find (owned_with_id book_id user) (session st) = Some book ->
  truthy_json (book_metadata book !! "extracted") = false ->
  query_book_body w book_id query no_spoilers user st
  = (Raise (HTTPException 400 "Book text not yet extracted"), st)
  /\ query_book w book_id query no_spoilers user st
     = (Raise (HTTPException 500 "Failed to process query"), st)
  /\ HTTPException 500 "Failed to process query"
     <> HTTPException 400 "Book text not yet extracted".
Proof.
  intros Hfind Hmeta.
  assert (Hbody : query_book_body w book_id query no_spoilers user st
                  = (Raise (HTTPException 400 "Book text not yet extracted"), st)).
  { unfold query_book_body, bind, Db.first. rewrite Hfind, Hmeta. reflexivity. }
  split; [exact Hbody|]. split; [|discriminate].
  unfold query_book, try_except. rewrite Hbody. reflexivity.
Qed.

(** ** The code after the search *)

Lemma getitem_middle {A} (pre : list A) (a : A) (rest : list A) :
  Py.getitem (pre ++ a :: rest) (Z.of_nat (length pre)) = Ok a.
Proof.
  unfold Py.getitem.
  destruct (Z.ltb_spec (Z.of_nat (length pre)) 0); [lia|].
  rewrite length_app. simpl length.
  destruct (Z.ltb_spec (Z.of_nat (length pre)) 0); [lia|].
  destruct (Z.leb_spec (Z.of_nat (length pre + S (length rest))) (Z.of_nat (length pre)));
    [lia|].
  simpl. rewrite Nat2Z.id, nth_error_app2, Nat.sub_diag by lia. reflexivity.
Qed.

Lemma drop_spoilers_from current_chunk : forall relevant pre labels,
  length labels = length relevant ->
  rbind (filter_r (fun ic : Z * Py.str =>
                     rbind (Py.getitem (pre ++ labels) (fst ic)) (fun label =>
                     Ok (label <=? current_chunk)))
                  (combine (map Z.of_nat (seq (length pre) (length relevant)))
                           relevant))
        (fun kept => Ok (map snd kept))
  = Ok (map snd (List.filter (fun p => fst p <=? current_chunk)
                             (combine labels relevant))).
Proof.
  induction relevant as [|c relevant IH]; intros pre [|label labels] Hlen;
    try discriminate; [reflexivity|].
  injection Hlen as Hlen.
  specialize (IH (pre ++ [label]) labels Hlen).
  rewrite <- app_assoc, length_app in IH. simpl in IH.
  rewrite Nat.add_1_r in IH.
  simpl. rewrite getitem_middle. simpl.
  destruct (filter_r _ _) as [kept|e]; [|discriminate].
  simpl in IH |- *. injection IH as IH.
  destruct (label <=? current_chunk); simpl; by rewrite IH.
Qed.

(** Once reached, line 384 keeps exactly the chunks whose label does not
    exceed the boundary, in the order of the ranking. *)
Lemma drop_spoilers_filters labels current_chunk relevant :
  length labels = length relevant ->
  drop_spoilers labels current_chunk relevant
  = Ok (map snd (List.filter (fun p => fst p <=? current_chunk)
                             (combine labels relevant))).
Proof. intros Hlen. apply (drop_spoilers_from current_chunk relevant [] labels Hlen). Qed.

Lemma evidence_from : forall relevant pre_d pre_l distances labels,
  length pre_d = length pre_l ->
  (length relevant <= length distances)%nat ->
  (length relevant <= length labels)%nat ->
  map_r (fun ic : Z * Py.str =>
           rbind (Py.getitem (pre_d ++ distances) (fst ic)) (fun d =>
           rbind (Py.getitem (pre_l ++ labels) (fst ic)) (fun label =>
           Ok (mkQueryResult (snd ic) d label))))
        (combine (map Z.of_nat (seq (length pre_d) (length relevant))) relevant)
  = Ok (map (fun cdl : Py.str * (float * Z) =>
               mkQueryResult (fst cdl) (fst (snd cdl)) (snd (snd cdl)))
            (combine relevant (combine distances labels))).
Proof.
  induction relevant as [|c relevant IH];
    intros pre_d pre_l [|d distances] [|label labels] Hpre Hd Hl;
    simpl in Hd, Hl; try lia; [reflexivity..|].
  specialize (IH (pre_d ++ [d]) (pre_l ++ [label]) distances labels).
  rewrite <- !app_assoc, !length_app in IH. simpl in IH.
  rewrite Nat.add_1_r in IH.
  simpl. rewrite getitem_middle. simpl.
  rewrite Hpre, getitem_middle. simpl.
  rewrite Hpre in IH. rewrite IH by lia. reflexivity.
Qed.

(** Lines 391-398 pair the n-th chunk they are given with the n-th distance
    and the n-th label of the search, whatever chunk that label names. *)
Lemma evidence_pairs_by_position distances labels relevant :
  (length relevant <= length distances)%nat ->
  (length relevant <= length labels)%nat ->
  evidence distances labels relevant
  = Ok (map (fun cdl : Py.str * (float * Z) =>
               mkQueryResult (fst cdl) (fst (snd cdl)) (snd (snd cdl)))
            (combine relevant (combine distances labels))).
Proof.
  intros Hd Hl.
  apply (evidence_from relevant [] [] distances labels eq_refl Hd Hl).
Qed.

(** ** Fetching and listing books *)

Lemma filter_In_owned (u : User) (b : Book) rows :
  In b rows -> String.eqb (user_id b) (u_id u) = true ->
  In b (List.filter (fun b => String.eqb (user_id b) (u_id u)) rows).
Proof. intros Hin Hu. apply filter_In. auto. Qed.

(** C10. A book without [total_pages] cannot be fetched: [get_book]
    compares [None] with 0, which raises [TypeError], and nothing in the
    route catches it; [list_books] (from the first row on, with a limit
    that covers the table) returns the same book. A fetch that returns did
    find a book whose [total_pages] is set. *)
Theorem get_book_requires_total_pages book_id user st :
  (forall book,
      List.find (owned_with_id book_id user) (session st) = Some book ->
      total_pages book = None ->
      get_book w book_id user st
      = (Raise (TypeError
           "'>' not supported between instances of 'NoneType' and 'int'"), st)
      /\ exists books,
           list_books w user 0 (length (session st)) st = (Ok books, st)
           /\ In book books)
  /\ (forall b st',
        get_book w book_id user st = (Ok b, st') ->
        exists book n,
          List.find (owned_with_id book_id user) (session st) = Some book
          /\ total_pages book = Some n).
Proof.
  split.
  - intros book Hfind Hnone. split.
    + unfold get_book, bind, Db.first. rewrite Hfind, Hnone. reflexivity.
    + eexists. split; [reflexivity|].
      simpl skipn. rewrite firstn_all2.
      * apply find_some in Hfind as [Hin Hown].
        apply filter_In_owned; [exact Hin|].
        unfold owned_with_id in Hown. by apply andb_prop in Hown as [_ ?].
      * etransitivity; [apply filter_length_le|]. reflexivity.
  - intros b st'. unfold get_book, bind, Db.first.
    destruct (find (owned_with_id book_id user) (session st)) as [book|];
      [|discriminate].
    destruct (total_pages book) as [n|] eqn:Htp; [eauto | discriminate].
Qed.

End Routes.

(** ** Deleting a book *)

Section Delete.

Variable w : World.

Lemma delete_object_other key key' st r st' :
  delete_object w key st = (r, st') -> key <> key' ->
  s3 st' !! key' = s3 st !! key'.
Proof.
  unfold delete_object. destruct (s3_delete_fails w key); intros [= <- <-] Hne.
  - reflexivity.
  - simpl. by apply lookup_delete_ne.
Qed.

Lemma keeps_delete_object key key' :
  key <> key' -> s3_keeps key' (delete_object w key).
Proof. intros Hne st r st' H. eapply delete_object_other; eauto. Qed.

Lemma keeps_ret {A} key (a : A) : s3_keeps key (ret a).
Proof. by intros st r st' [= <- <-]. Qed.

Lemma keeps_raise {A} key e : s3_keeps key (@raise A e).
Proof. by intros st r st' [= <- <-]. Qed.

Lemma keeps_bind {A B} key (m : M A) (k : A -> M B) :
  s3_keeps key m -> (forall a, s3_keeps key (k a)) -> s3_keeps key (bind m k).
Proof.
  intros Hm Hk st r st' H.
  apply bind_inv in H as [(e & H & _) | (a & st1 & H1 & H2)].
  - by apply Hm in H.
  - apply Hk in H2. apply Hm in H1. congruence.
Qed.

Lemma keeps_try_except {A} key (m : M A) (h : exn -> M A) :
  s3_keeps key m -> (forall e, s3_keeps key (h e)) ->
  s3_keeps key (try_except m h).
Proof.
  intros Hm Hh st r st'. unfold try_except.
  destruct (m st) as [[a|e] st1] eqn:E; intros H.
  - injection H as <- <-. by apply Hm in E.
  - apply Hh in H. apply Hm in E. congruence.
Qed.

Lemma keeps_first key p : s3_keeps key (Db.first p).
Proof. by intros st r st' [= <- <-]. Qed.

Lemma keeps_db_delete key pk : s3_keeps key (Db.delete pk).
Proof. by intros st r st' [= <- <-]. Qed.

Lemma keeps_commit key : s3_keeps key (Db.commit w).
Proof.
  intros st r st'. unfold Db.commit.
  by destruct (commit_fails w); intros [= <- <-].
Qed.

Lemma keeps_rollback key : s3_keeps key Db.rollback.
Proof. by intros st r st' [= <- <-]. Qed.

(** C8: [delete_book] asks the object store to delete the raw file and the
    extracted text only. Every other object, in particular the chunk list,
    the vectorizer and the index the pipeline stored for the book, is still
    in the bucket afterwards, whether the deletion returns or raises. *)
Theorem delete_book_keeps_other_objects book_id user st book key :
  List.find (owned_with_id book_id user) (session st) = Some book ->
  key <> file_key book ->
  text_key book <> Some key ->
  s3 (snd (delete_book w book_id user st)) !! key = s3 st !! key.
Proof.
  intros Hfind Hfile Htext.
  unfold delete_book. unfold bind at 1. unfold Db.first. rewrite Hfind.
  match goal with
  | |- s3 (snd (?m st)) !! _ = _ =>
      assert (Hkeeps : s3_keeps key m); [|destruct (m st) as [r st'] eqn:H]
  end.
  - apply keeps_try_except.
    + apply keeps_bind.
      { destruct (Str.nonempty (file_key book)); [|apply keeps_ret].
        apply keeps_bind; [|intros; apply keeps_ret].
        apply keeps_delete_object. congruence. }
      intros _. apply keeps_bind.
      { destruct (text_key book) as [tk|]; [|apply keeps_ret].
        destruct (Str.nonempty tk); [|apply keeps_ret].
        apply keeps_bind; [|intros; apply keeps_ret].
        apply keeps_delete_object. congruence. }
      intros _. apply keeps_bind; [apply keeps_db_delete|].
      intros _. apply keeps_bind; [apply keeps_commit|].
      intros _. apply keeps_ret.
    + intros e. apply keeps_bind; [apply keeps_rollback|].
      intros _. apply keeps_raise.
  - simpl. by apply Hkeeps in H.
Qed.

End Delete.

(** ** The routes on concrete inputs *)

(** C8 on the processed sample book: the deletion returns, the row is gone,
    the raw file and the text are gone, and the chunk list is still
    stored. *)
Lemma delete_book_keeps_other_objects_witness :
  s3 (snd (delete_book Sample.world 1 Sample.alice Sample.st_processed))
    !! "users/u1/tale_chunks.pkl"
  = s3 Sample.st_processed !! "users/u1/tale_chunks.pkl".
Proof.
  apply (delete_book_keeps_other_objects Sample.world 1 Sample.alice
           Sample.st_processed
           (commit_update (Some 2) None
              (success_metadata "users/u1/tale_index.faiss"
                 "users/u1/tale_vectorizer.pkl" "users/u1/tale_chunks.pkl" 1)
              Sample.uploaded)).
  - vm_compute. reflexivity.
  - vm_compute. discriminate.
  - vm_compute. discriminate.
Defined.

(** The sample deletion in full: every artifact of the pipeline but the raw
    file and the text outlives the book. *)
Lemma delete_book_sample :
  (exists b, fst (delete_book Sample.world 1 Sample.alice Sample.st_processed) = Ok b)
  /\ db_rows (snd (delete_book Sample.world 1 Sample.alice Sample.st_processed)) = []
  /\ s3 (snd (delete_book Sample.world 1 Sample.alice Sample.st_processed))
       !! "users/u1/tale.pdf" = None
  /\ s3 (snd (delete_book Sample.world 1 Sample.alice Sample.st_processed))
       !! "users/u1/tale_text.txt" = None
  /\ body <$> s3 (snd (delete_book Sample.world 1 Sample.alice Sample.st_processed))
                !! "users/u1/tale_chunks.pkl"
     = Some (PickledChunks
               [Py.cps "It was the best of times, it was the worst of times."])
  /\ s3 (snd (delete_book Sample.world 1 Sample.alice Sample.st_processed))
       !! "users/u1/tale_vectorizer.pkl" <> None
  /\ s3 (snd (delete_book Sample.world 1 Sample.alice Sample.st_processed))
       !! "users/u1/tale_index.faiss" <> None.
Proof.
  split; [eexists; vm_compute; reflexivity|].
  repeat split; vm_compute; (reflexivity || discriminate).
Qed.

(** C6 on the book as uploaded, before the pipeline has run. *)
Lemma query_book_not_extracted_is_generic_failure_witness :
  query_book_body Sample.world 1 (Py.cps "who?") false Sample.alice Sample.st0
  = (Raise (HTTPException 400 "Book text not yet extracted"), Sample.st0)
  /\ query_book Sample.world 1 (Py.cps "who?") false Sample.alice Sample.st0
     = (Raise (HTTPException 500 "Failed to process query"), Sample.st0)
  /\ HTTPException 500 "Failed to process query"
     <> HTTPException 400 "Book text not yet extracted".
Proof.
  apply (query_book_not_extracted_is_generic_failure Sample.world 1
           (Py.cps "who?") false Sample.alice Sample.st0 Sample.uploaded).
  - vm_compute. reflexivity.
  - vm_compute. reflexivity.
Defined.

(** C10 on the book as uploaded without a page count. *)
Lemma get_book_requires_total_pages_witness :
  get_book Sample.world 1 Sample.alice Sample.st0
  = (Raise (TypeError
       "'>' not supported between instances of 'NoneType' and 'int'"), Sample.st0)
  /\ exists books,
       list_books Sample.world Sample.alice 0 (length (session Sample.st0)) Sample.st0
       = (Ok books, Sample.st0)
       /\ In Sample.uploaded books.
Proof.
  destruct (get_book_requires_total_pages Sample.world 1 Sample.alice Sample.st0)
    as [Hnone _].
  apply (Hnone Sample.uploaded).
  - vm_compute. reflexivity.
  - reflexivity.
Defined.

(** C2: with [no_spoilers] set, on the half-read ten-chunk book whose
    artifacts are all stored, the query stops at the read of the unassigned
    local [chunks]; the boundary is never computed and nothing is filtered.
    The caller gets the generic HTTP 500 error. *)
Theorem query_book_spoiler_filter_unreached :
  truthy_int (current_page Sample.reading) = true
  /\ truthy_opt_int (total_pages Sample.reading) = true
  /\ query_book_body Sample.world_ranked 2 (Py.cps "who?") true Sample.alice
                     Sample.st_reading
     = (Raise (UnboundLocalError "chunks"), Sample.st_reading)
  /\ query_book Sample.world_ranked 2 (Py.cps "who?") true Sample.alice
                Sample.st_reading
     = (Raise (HTTPException 500 "Failed to process query"), Sample.st_reading).
Proof. repeat split; vm_compute; reflexivity. Qed.

(** C9: two defects. The query never returns (the same unassigned local),
    and the code after it would pair the survivors of the spoiler filter
    with the distances and labels of the first ranks: with labels 7, 2, 9, 1
    and boundary 5 the survivors are chunks 2 and 1, and the entries returned
    carry chunk 2's text with label 7 and chunk 1's text with label 2. *)
Theorem query_book_evidence_misaligned :
  query_book Sample.world_ranked 2 (Py.cps "who?") true Sample.alice
             Sample.st_reading
  = (Raise (HTTPException 500 "Failed to process query"), Sample.st_reading)
  /\ spoiler_boundary Sample.world_ranked 50 100 10 = 5
  /\ drop_spoilers [7; 2; 9; 1] 5
       [Py.cps "c7"; Py.cps "c2"; Py.cps "c9"; Py.cps "c1"]
     = Ok [Py.cps "c2"; Py.cps "c1"]
  /\ evidence [Float64 10; Float64 20; Float64 30; Float64 40] [7; 2; 9; 1]
               [Py.cps "c2"; Py.cps "c1"]
     = Ok [mkQueryResult (Py.cps "c2") (Float64 10) 7;
           mkQueryResult (Py.cps "c1") (Float64 20) 2]
  /\ rbind (fst (search_and_answer Sample.world_ranked Sample.reading
                     Sample.alice (Py.cps "who?") true Sample.ten_index []
                     "users/u1/ten_chunks.pkl" 4 Sample.st_reading))
           (fun answer => Ok (snd answer))
     = Ok [mkQueryResult (Py.cps "c2") (Float64 10) 7;
           mkQueryResult (Py.cps "c1") (Float64 20) 2].
Proof. repeat split; vm_compute; reflexivity. Qed.

(** * Further properties *)

(** ** The chunker, continued *)

Lemma chunk_text_same_words (a b : Py.str) (chunk_size : Z) :
  Py.split a = Py.split b -> chunk_text a chunk_size = chunk_text b chunk_size.
Proof. intros H. unfold chunk_text. by rewrite H. Qed.

Lemma chunk_text_negative (text : Py.str) (chunk_size : Z) :
  chunk_size < 0 -> chunk_text text chunk_size = Ok [].
Proof.
  intros Hneg. unfold chunk_text, Py.range.
  destruct (Z.eqb_spec chunk_size 0); [lia|].
  destruct (Z.ltb_spec 0 chunk_size); [lia|].
  set (L := Z.of_nat (length (Py.split text))).
  assert (HL : 0 <= L) by (subst L; lia).
  assert (Hq : (0 - L - chunk_size - 1) / - chunk_size <= 0).
  { apply Z.lt_succ_r. apply Z.div_lt_upper_bound; lia. }
  destruct (Z.to_nat ((0 - L - chunk_size - 1) / - chunk_size)) eqn:E; [reflexivity|lia].
Qed.

(** For a positive size, the word lists of the chunks, one after the other,
    are the words of the text, and every chunk is its own words joined by
    single spaces. *)
Lemma chunk_text_words_concat (text : Py.str) (chunk_size : Z) chunks :
  0 < chunk_size ->
  chunk_text text chunk_size = Ok chunks ->
  concat (map Py.split chunks) = Py.split text
  /\ Forall (fun c => Py.join [Py.SPACE] (Py.split c) = c) chunks
  /\ len chunks = (len (Py.split text) + chunk_size - 1) / chunk_size.
Proof.
  intros Hpos H.
  set (n := Z.to_nat chunk_size).
  assert (Hn : (0 < n)%nat) by lia.
  replace chunk_size with (Z.of_nat n) in * by lia.
  rewrite (chunk_text_groups text n Hn) in H. injection H as <-.
  destruct (ceil_div_bounds (length (Py.split text)) n Hn) as [Hcover _].
  assert (Hsplit : forall j,
    Py.split (Py.join [Py.SPACE] (group n (Py.split text) j))
    = group n (Py.split text) j).
  { intros j. apply split_join, group_words. }
  split; [|split].
  - rewrite List.map_map.
    rewrite (map_ext _ (group n (Py.split text))) by exact Hsplit.
    apply concat_groups. exact Hcover.
  - apply Forall_forall. intros c Hin.
    apply list_elem_of_In, in_map_iff in Hin as (j & <- & _).
    by rewrite Hsplit.
  - unfold len. rewrite length_map, length_seq.
    rewrite Z2Nat.id; [reflexivity|].
    apply Z.div_pos; lia.
Qed.

(** X1. For a positive chunk size the number of chunks is the number of
    words divided by the chunk size, rounded up. *)
Theorem chunk_text_count (text : Py.str) (chunk_size : Z) :
  0 < chunk_size ->
  exists chunks,
    chunk_text text chunk_size = Ok chunks
    /\ len chunks = (len (Py.split text) + chunk_size - 1) / chunk_size.
Proof.
  intros Hpos.
  destruct (chunk_text text chunk_size) as [chunks|e] eqn:E.
  - exists chunks. split; [reflexivity|].
    by apply (chunk_text_words_concat text chunk_size chunks Hpos E).
  - exfalso. revert E.
    replace chunk_size with (Z.of_nat (Z.to_nat chunk_size)) by lia.
    rewrite chunk_text_groups by lia. discriminate.
Qed.

Lemma chunk_text_count_witness :
  exists chunks,
    chunk_text (Py.cps "one two three four five") 2 = Ok chunks
    /\ len chunks = (len (Py.split (Py.cps "one two three four five")) + 2 - 1) / 2.
Proof. apply (chunk_text_count (Py.cps "one two three four five") 2). lia. Defined.

(** X2. Chunking is idempotent on its own output: the chunks joined by
    single spaces chunk again, at the same size, into the same chunks. *)
Theorem chunk_text_rechunk (text : Py.str) (chunk_size : Z) chunks :
  chunk_text text chunk_size = Ok chunks ->
  chunk_text (Py.join [Py.SPACE] chunks) chunk_size = Ok chunks.
Proof.
  intros H.
  destruct (Z.lt_trichotomy chunk_size 0) as [Hneg | [-> | Hpos]].
  - rewrite chunk_text_negative in H |- * by exact Hneg. exact H.
  - discriminate H.
  - rewrite <- H. apply chunk_text_same_words.
    rewrite split_join_concat.
    by apply (chunk_text_words_concat text chunk_size chunks Hpos H).
Qed.

Lemma chunk_text_rechunk_witness :
  chunk_text (Py.join [Py.SPACE] [Py.cps "one two"; Py.cps "three"]) 2
  = Ok [Py.cps "one two"; Py.cps "three"].
Proof.
  apply (chunk_text_rechunk (Py.cps "  one   two three ") 2). reflexivity.
Defined.

(** X3. A chunk never starts or ends with whitespace and never holds two
    separators in a row: it is its own words joined by single spaces. *)
Theorem chunk_text_normalised (text : Py.str) (chunk_size : Z) chunks c :
  chunk_text text chunk_size = Ok chunks ->
  In c chunks ->
  Py.join [Py.SPACE] (Py.split c) = c /\ Py.split c <> [].
Proof.
  intros H Hin.
  destruct (Z.lt_trichotomy chunk_size 0) as [Hneg | [-> | Hpos]].
  - rewrite chunk_text_negative in H by exact Hneg. injection H as <-. destruct Hin.
  - discriminate H.
  - split.
    + destruct (chunk_text_words_concat text chunk_size chunks Hpos H)
        as (_ & Hnorm & _).
      rewrite Forall_forall in Hnorm. apply Hnorm. by apply list_elem_of_In.
    + set (n := Z.to_nat chunk_size).
      assert (Hn : (0 < n)%nat) by lia.
      replace chunk_size with (Z.of_nat n) in H by lia.
      rewrite (chunk_text_groups text n Hn) in H. injection H as <-.
      apply in_map_iff in Hin as (j & <- & Hj).
      apply in_seq in Hj as [_ Hj]. simpl in Hj.
      rewrite split_join by apply group_words.
      destruct (ceil_div_bounds (length (Py.split text)) n Hn) as [_ Hbelow].
      specialize (Hbelow j Hj).
      intros Hnil. apply (f_equal (@length _)) in Hnil.
      unfold group in Hnil. rewrite length_firstn, length_skipn in Hnil.
      simpl in Hnil. lia.
Qed.

Lemma chunk_text_normalised_witness :
  Py.join [Py.SPACE] (Py.split (Py.cps "one two")) = Py.cps "one two"
  /\ Py.split (Py.cps "one two") <> [].
Proof.
  apply (chunk_text_normalised (Py.cps "  one   two three ") 2
           [Py.cps "one two"; Py.cps "three"]).
  - reflexivity.
  - left. reflexivity.
Defined.

(** X4. The chunk size is not validated: a size of zero raises the
    [ValueError] of [range], and a negative size returns no chunk at all,
    whatever the text. *)
Theorem chunk_text_nonpositive_size (text : Py.str) (chunk_size : Z) :
  chunk_size <= 0 ->
  chunk_text text chunk_size
  = if chunk_size =? 0
    then Raise (ValueError "range() arg 3 must not be zero")
    else Ok [].
Proof.
  intros Hle. destruct (Z.eqb_spec chunk_size 0) as [->|Hne].
  - reflexivity.
  - apply chunk_text_negative. lia.
Qed.

Lemma chunk_text_nonpositive_size_witness :
  chunk_text (Py.cps "one two three") (-2) = Ok [].
Proof. apply (chunk_text_nonpositive_size (Py.cps "one two three") (-2)). lia. Defined.

(** ** Text extraction *)

Lemma fold_left_app_concat (pages : list Py.str) : forall acc,
  fold_left (fun text page => text ++ page) pages acc = acc ++ concat pages.
Proof.
  induction pages as [|p pages IH]; intros acc; simpl.
  - by rewrite app_nil_r.
  - rewrite IH. by rewrite <- app_assoc.
Qed.

Lemma join_empty_concat (parts : list Py.str) : Py.join [] parts = concat parts.
Proof.
  induction parts as [|a [|b parts] IH]; simpl in *.
  - reflexivity.
  - by rewrite app_nil_r.
  - by rewrite IH.
Qed.

Lemma clamp_min_len (length_l hi : Z) :
  0 <= length_l -> Py.clamp length_l (Z.min hi length_l) = Py.clamp length_l hi.
Proof.
  intros Hlen. unfold Py.clamp.
  destruct (Z.ltb_spec (Z.min hi length_l) 0), (Z.ltb_spec hi 0); lia.
Qed.

Lemma slice_min_len {A} (l : list A) (lo hi : Z) :
  Py.slice l lo (Z.min hi (len l)) = Py.slice l lo hi.
Proof. unfold Py.slice, len. rewrite clamp_min_len by lia. reflexivity. Qed.

Lemma pdf_text_concat (pages : list Py.str) :
  pdf_text pages = Ok (concat pages).
Proof.
  unfold pdf_text.
  destruct (Z.ltb_spec 10 (len pages)) as [Hmany|Hfew].
  - replace (Z.min 10 (len pages)) with (Z.of_nat 10) by lia.
    unfold Py.range. simpl (Z.of_nat 10 =? 0). simpl (0 <? Z.of_nat 10).
    cbv iota. simpl rbind. f_equal.
    rewrite join_empty_concat, flat_map_concat_map, List.map_map.
    rewrite (map_ext _ (group 10 pages)).
    + f_equal. apply concat_groups.
      rewrite Z.sub_0_r.
      apply (ceil_div_bounds (length pages) 10). lia.
    + intros j. rewrite Z.add_0_l, slice_min_len. apply slice_group.
  - f_equal. apply (fold_left_app_concat pages []).
Qed.

(** X5. The text of a PDF is the text of its pages in page order, whether
    the pages are read one by one (ten pages or fewer) or in batches of
    ten: the batches are put together in the order of the document. *)
Theorem pdf_text_page_order (pages : list Py.str) :
  pdf_text pages = Ok (concat pages).
Proof. apply pdf_text_concat. Qed.

Section Extraction.

Variable w : World.

Lemma extract_text_hit content filename st cached :
  text_cache st !! (filename, py_hash w content) = Some cached ->
  extract_text w content filename st = (Ok cached, st).
Proof. intros H. unfold extract_text, bind. simpl. by rewrite H. Qed.

Lemma extract_text_miss content filename st :
  text_cache st !! (filename, py_hash w content) = None ->
  extract_text w content filename st
  = if Str.endswith filename ".pdf" then
      if tmp_write_fails w ".pdf"
      then (Raise (HTTPException 500 "Text extraction failed"), st)
      else match fitz_open w content with
           | Some pages =>
               (Ok (concat pages),
                with_text_cache
                  (insert (filename, py_hash w content) (concat pages)) st)
           | None => (Raise (HTTPException 500 "Text extraction failed"), st)
           end
    else if Str.endswith filename ".epub" then
      match epub_items w content with
      | Some items =>
          (Ok (Py.join [Py.NEWLINE] items),
           with_text_cache
             (insert (filename, py_hash w content) (Py.join [Py.NEWLINE] items)) st)
      | None => (Raise EpubException, st)
      end
    else (Raise (HTTPException 400 "Unsupported file format"), st).
Proof.
  intros H. unfold extract_text, bind. simpl. rewrite H.
  destruct (Str.endswith filename ".pdf").
  - unfold try_except. destruct (tmp_write_fails w ".pdf"); [reflexivity|].
    destruct (fitz_open w content) as [pages|]; [|reflexivity].
    unfold bind, lift. rewrite pdf_text_concat. reflexivity.
  - destruct (Str.endswith filename ".epub"); [|reflexivity].
    destruct (epub_items w content); reflexivity.
Qed.

Lemma extract_text_ok_cached content filename st text st' :
  extract_text w content filename st = (Ok text, st') ->
  text_cache st' !! (filename, py_hash w content) = Some text.
Proof.
  destruct (text_cache st !! (filename, py_hash w content)) as [cached|] eqn:E.
  - rewrite (extract_text_hit _ _ _ _ E). intros [= <- <-]. exact E.
  - rewrite (extract_text_miss _ _ _ E).
    repeat match goal with
           | |- context [if ?b then _ else _] => destruct b
           | |- context [match ?x with Some _ => _ | None => _ end] => destruct x
           end; intros [= <- <-]; simpl; apply lookup_insert_eq.
Qed.

End Extraction.

(** X6. A text extracted once is served from the cache afterwards: a second
    call for the same file name and content returns the same text and
    changes nothing, even if the file could no longer be opened. *)
Theorem extract_text_cached_again (w w' : World) content filename st text st' :
  extract_text w content filename st = (Ok text, st') ->
  py_hash w' content = py_hash w content ->
  extract_text w' content filename st' = (Ok text, st').
Proof.
  intros Hfirst Hhash. apply extract_text_hit. rewrite Hhash.
  by apply (extract_text_ok_cached w content filename st).
Qed.

Lemma extract_text_cached_again_witness :
  extract_text Sample.world_unreadable [] "tale.pdf"
    (snd (extract_text Sample.world [] "tale.pdf" Sample.st0))
  = (Ok (Sample.page1 ++ Sample.page2),
     snd (extract_text Sample.world [] "tale.pdf" Sample.st0)).
Proof.
  apply (extract_text_cached_again Sample.world Sample.world_unreadable []
           "tale.pdf" Sample.st0).
  - vm_compute. reflexivity.
  - reflexivity.
Defined.




(** X8. Only texts of PDF and EPUB file names enter the cache, and as long
    as that holds a file name with any other ending is refused with HTTP 400
    without any effect: [extract_text] keeps the invariant
    [cache_supported]. *)
Theorem extract_text_keeps_cache_supported (w : World) content filename st :
  cache_supported st ->
  cache_supported (snd (extract_text w content filename st))
  /\ (Str.endswith filename ".pdf" = false ->
      Str.endswith filename ".epub" = false ->
      extract_text w content filename st
      = (Raise (HTTPException 400 "Unsupported file format"), st)).
Proof.
  intros Hinv.
  destruct (text_cache st !! (filename, py_hash w content)) as [cached|] eqn:E.
  - rewrite (extract_text_hit _ _ _ _ _ E). split; [exact Hinv|].
    intros Hpdf Hepub.
    destruct (Hinv filename (py_hash w content)) as [H|H]; [eauto|congruence..].
  - rewrite (extract_text_miss _ _ _ _ E). split.
    + destruct (Str.endswith filename ".pdf") eqn:Hpdf;
        [|destruct (Str.endswith filename ".epub") eqn:Hepub];
        repeat match goal with
               | |- context [if ?b then _ else _] => destruct b
               | |- context [match ?x with Some _ => _ | None => _ end] => destruct x
               end; simpl; try exact Hinv.
      all: intros f h Hs; unfold with_text_cache in Hs; simpl in Hs.
      all: apply lookup_insert_is_Some in Hs as [[= <- <-] | [_ Hold]]; eauto.
    + by intros -> ->.
Qed.

Lemma extract_text_keeps_cache_supported_witness :
  cache_supported (snd (extract_text Sample.world [] "notes.txt" Sample.st0))
  /\ (Str.endswith "notes.txt" ".pdf" = false ->
      Str.endswith "notes.txt" ".epub" = false ->
      extract_text Sample.world [] "notes.txt" Sample.st0
      = (Raise (HTTPException 400 "Unsupported file format"), Sample.st0)).
Proof.
  apply (extract_text_keeps_cache_supported Sample.world [] "notes.txt" Sample.st0).
  intros f h [x Hx]. vm_compute in Hx. discriminate.
Defined.

(** ** The bucket during the pipeline *)

Create HintDb bucket.

Section Bucket.

Variable w : World.

Lemma same_ret {A} (a : A) : s3_same (ret a).
Proof. by intros st r st' [= <- <-]. Qed.

Lemma same_raise {A} e : s3_same (@raise A e).
Proof. by intros st r st' [= <- <-]. Qed.

Lemma same_lift {A} (x : result A) : s3_same (lift x).
Proof. by intros st r st' [= <- <-]. Qed.

Lemma same_bind {A B} (m : M A) (k : A -> M B) :
  s3_same m -> (forall a, s3_same (k a)) -> s3_same (bind m k).
Proof.
  intros Hm Hk st r st' H.
  apply bind_inv in H as [(e & H & _) | (a & st1 & H1 & H2)].
  - by apply Hm in H.
  - apply Hk in H2. apply Hm in H1. congruence.
Qed.

Lemma same_try_except {A} (m : M A) (h : exn -> M A) :
  s3_same m -> (forall e, s3_same (h e)) -> s3_same (try_except m h).
Proof.
  intros Hm Hh st r st'. unfold try_except.
  destruct (m st) as [[a|e] st1] eqn:E; intros H.
  - injection H as <- <-. by apply Hm in E.
  - apply Hh in H. apply Hm in E. congruence.
Qed.

Lemma same_first p : s3_same (Db.first p).
Proof. by intros st r st' [= <- <-]. Qed.

Lemma same_setattr pk f : s3_same (Db.setattr pk f).
Proof. by intros st r st' [= <- <-]. Qed.

Lemma same_db_delete pk : s3_same (Db.delete pk).
Proof. by intros st r st' [= <- <-]. Qed.

Lemma same_db_add b : s3_same (db_add b).
Proof. by intros st r st' [= <- <-]. Qed.

Lemma same_commit : s3_same (Db.commit w).
Proof.
  intros st r st'. unfold Db.commit.
  by destruct (commit_fails w); intros [= <- <-].
Qed.

Lemma same_rollback : s3_same Db.rollback.
Proof. by intros st r st' [= <- <-]. Qed.

Lemma same_cache_read : s3_same (fun st : state => (Ok (text_cache st), st)).
Proof. by intros st r st' [= <- <-]. Qed.

Lemma same_cache_write key (text : Py.str) :
  s3_same (fun st : state => (Ok tt, with_text_cache (insert key text) st)).
Proof. by intros st r st' [= <- <-]. Qed.

Hint Resolve same_ret same_raise same_lift same_first same_setattr
  same_db_delete same_db_add same_commit same_rollback same_cache_read
  same_cache_write : bucket.

Ltac same :=
  repeat first
    [ progress eauto with bucket
    | apply same_bind; [|intros ?]
    | apply same_try_except; [|intros ?]
    | match goal with
      | |- s3_same (if ?b then _ else _) => destruct b
      | |- s3_same (match ?x with _ => _ end) => destruct x
      end ].

Lemma same_extract_text content filename :
  s3_same (extract_text w content filename).
Proof. unfold extract_text. same. Qed.

Lemma same_detect_pages content filename :
  s3_same (detect_pages w content filename).
Proof. unfold detect_pages. same. Qed.

Lemma upload_ok data key ctype st u st' :
  upload_fileobj_to_s3 w data key ctype st = (Ok u, st') ->
  s3_upload_fails w key = false
  /\ s3 st' = <[key := mkObject data (if truthy_opt_str ctype then ctype else None)]>
                (s3 st).
Proof.
  unfold upload_fileobj_to_s3.
  destruct (s3_upload_fails w key); [discriminate|]. by intros [= <- <-].
Qed.

(** The bucket after a run of the suite that returns: the five uploads, in
    the order of the source, on top of the bucket before. *)
Lemma process_book_body_bucket content file_key text_key filename user_id
    author supplied st st' :
  process_book_body w content file_key text_key filename user_id author
                    supplied st = (Ok tt, st') ->
  exists text chunks vz ix ctype st1 st2,
    text_cache st1 = text_cache st
    /\ extract_text w content filename st1 = (Ok text, st2)
    /\ chunk_text text 500 = Ok chunks
    /\ build_index w chunks = Ok (vz, ix)
    /\ s3 st'
       = <[text_key := mkObject (Utf8Text text) (Some "text/plain"%string)]>
         (<[artifact_key user_id filename "_chunks.pkl" :=
              mkObject (PickledChunks chunks) (Some "application/octet-stream"%string)]>
         (<[artifact_key user_id filename "_vectorizer.pkl" :=
              mkObject (PickledVectorizer vz) (Some "application/octet-stream"%string)]>
         (<[artifact_key user_id filename "_index.faiss" :=
              mkObject (FaissFile ix) (Some "application/octet-stream"%string)]>
         (<[file_key := mkObject (RawFile content) ctype]> (s3 st))))).
Proof.
  unfold process_book_body. intros H.
  apply bind_inv in H as [(e & _ & [=]) | (u1 & st1 & H1 & H)].
  pose proof (upload_text_cache _ _ _ _ _ _ _ H1) as Hcache.
  apply upload_ok in H1 as [_ B1].
  apply bind_inv in H as [(e & _ & [=]) | (text & st2 & H2 & H)].
  pose proof H2 as Hext.
  apply same_extract_text in H2.
  apply bind_inv in H as [(e & _ & [=]) | (detected & st3 & H3 & H)].
  apply same_detect_pages in H3.
  apply bind_inv in H as [(e & _ & [=]) | (chunks & st4 & H4 & H)].
  assert (Hchunks : chunk_text text 500 = Ok chunks)
    by (unfold lift in H4; congruence).
  apply same_lift in H4.
  apply bind_inv in H as [(e & _ & [=]) | ([vz ix] & st5 & H5 & H)].
  assert (Hbuilt : build_index w chunks = Ok (vz, ix))
    by (unfold lift in H5; congruence).
  apply same_lift in H5.
  apply bind_inv in H as [(e & _ & [=]) | (u6 & st6 & H6 & H)].
  assert (B6 : s3 st6 = s3 st5).
  { revert H6. match goal with |- ?m _ = _ -> _ => assert (Hs : s3_same m) by same end.
    apply Hs. }
  apply bind_inv in H as [(e & _ & [=]) | (u7 & st7 & H7 & H)].
  apply upload_ok in H7 as [_ B7].
  apply bind_inv in H as [(e & _ & [=]) | (u8 & st8 & H8 & H)].
  apply upload_ok in H8 as [_ B8].
  apply bind_inv in H as [(e & _ & [=]) | (u9 & st9 & H9 & H)].
  apply upload_ok in H9 as [_ B9].
  apply bind_inv in H as [(e & _ & [=]) | (u10 & st10 & H10 & H)].
  apply upload_ok in H10 as [_ B10].
  assert (B11 : s3 st' = s3 st10).
  { revert H. match goal with |- ?m _ = _ -> _ => assert (Hs : s3_same m) by same end.
    apply Hs. }
  exists text, chunks, vz, ix. eexists. exists st1, st2.
  split; [exact Hcache|]. split; [exact Hext|].
  split; [exact Hchunks|]. split; [exact Hbuilt|].
  rewrite B11, B10, B9, B8, B7, B6, H5, H4, H3, H2, B1. reflexivity.
Qed.

End Bucket.

#[export] Hint Resolve same_ret same_raise same_lift same_first same_setattr
  same_db_delete same_db_add same_commit same_rollback same_cache_read
  same_cache_write same_extract_text same_detect_pages : bucket.

#[export] Hint Resolve frame_ret frame_raise frame_lift frame_upload
  frame_download frame_delete_object frame_first frame_cache_read
  frame_cache_write frame_load_local frame_extract_text frame_detect_pages
  : frames.

Ltac same_bucket :=
  repeat first
    [ progress eauto with bucket
    | apply same_bind; [|intros ?]
    | apply same_try_except; [|intros ?]
    | match goal with
      | |- s3_same (if ?b then _ else _) => destruct b
      | |- s3_same (match ?x with _ => _ end) => destruct x
      end ].

Ltac same_db :=
  repeat first
    [ progress eauto with frames
    | apply frame_bind; [|intros ?]
    | apply frame_try_except; [|intros ?]
    | apply frame_try_finally
    | match goal with
      | |- db_frame (if ?b then _ else _) => destruct b
      | |- db_frame (match ?x with _ => _ end) => destruct x
      end ].

Lemma string_app_inv_head (p a b : string) :
  (p ++ a)%string = (p ++ b)%string -> a = b.
Proof. induction p as [|c p IH]; simpl; [auto|]. intros [= H]. auto. Qed.

Lemma artifact_key_suffix user_id filename s1 s2 :
  artifact_key user_id filename s1 = artifact_key user_id filename s2 -> s1 = s2.
Proof.
  unfold artifact_key. intros H.
  repeat apply string_app_inv_head in H. exact H.
Qed.

(** The text [extract_text] returns depends on the state through the cache
    only. *)
Lemma extract_text_by_cache (w : World) content filename sa sb ta tb sa' sb' :
  text_cache sa = text_cache sb ->
  extract_text w content filename sa = (Ok ta, sa') ->
  extract_text w content filename sb = (Ok tb, sb') ->
  ta = tb.
Proof.
  intros Hcache Ha Hb.
  destruct (text_cache sa !! (filename, py_hash w content)) as [cached|] eqn:E.
  - rewrite (extract_text_hit _ _ _ _ _ E) in Ha.
    rewrite Hcache in E. rewrite (extract_text_hit _ _ _ _ _ E) in Hb. congruence.
  - rewrite (extract_text_miss _ _ _ _ E) in Ha.
    rewrite Hcache in E. rewrite (extract_text_miss _ _ _ _ E) in Hb.
    repeat match type of Ha with
           | context [if ?b then _ else _] => destruct b
           | context [match ?x with Some _ => _ | None => _ end] => destruct x
           end; congruence.
Qed.

Section Artifacts.

Variable w : World.

(** A run of the suite that returns, for a book that is in the session:
    the row committed and the bucket, described by the same text and the
    same chunk list. *)
Lemma process_book_body_success content file_key text_key filename user_id
    author supplied st st' book :
  session st = db_rows st ->
  List.find (owned_with_key user_id file_key) (db_rows st) = Some book ->
  process_book_body w content file_key text_key filename user_id author
                    supplied st = (Ok tt, st') ->
  exists text chunks ix ctype detected,
    chunk_text text 500 = Ok chunks
    /\ build_index w chunks = Ok (Fitted 1000 chunks, ix)
    /\ length (xb ix) = length chunks
    /\ db_rows st'
       = update_row (id book)
           (commit_update detected supplied
              (success_metadata
                 (artifact_key user_id filename "_index.faiss")
                 (artifact_key user_id filename "_vectorizer.pkl")
                 (artifact_key user_id filename "_chunks.pkl")
                 (len chunks)))
           (db_rows st)
    /\ session st' = db_rows st'
    /\ s3 st'
       = <[text_key := mkObject (Utf8Text text) (Some "text/plain"%string)]>
         (<[artifact_key user_id filename "_chunks.pkl" :=
              mkObject (PickledChunks chunks) (Some "application/octet-stream"%string)]>
         (<[artifact_key user_id filename "_vectorizer.pkl" :=
              mkObject (PickledVectorizer (Fitted 1000 chunks))
                       (Some "application/octet-stream"%string)]>
         (<[artifact_key user_id filename "_index.faiss" :=
              mkObject (FaissFile ix) (Some "application/octet-stream"%string)]>
         (<[file_key := mkObject (RawFile content) ctype]> (s3 st))))).
Proof.
  intros Hclean Hfind Hbody.
  destruct (process_book_body_bucket w _ _ _ _ _ _ _ _ _ Hbody)
    as (text & chunks & vz & ix & ctype & sa & sa' & Hca & Hea & Hchunks & Hbuilt & Hs3).
  pose proof (process_book_body_cases w _ _ _ _ _ _ _ _ _ _ Hbody)
    as [(e & [=] & _) | [(_ & Hnone & _) | (b & d & chunks0 & _ & Hb & _ & Hs & Hd & Hrun)]].
  { rewrite Hclean in Hnone. congruence. }
  destruct Hrun as (text0 & sb & sb' & Hcb & Heb & Hchunks0 & _).
  assert (text0 = text) as ->.
  { eapply (extract_text_by_cache w content filename sb sa); eauto. congruence. }
  assert (chunks0 = chunks) as -> by congruence.
  rewrite Hclean in Hb, Hs. assert (b = book) as -> by congruence.
  assert (Hshape : vz = Fitted 1000 chunks /\ length (xb ix) = length chunks).
  { pose proof Hbuilt as Hb'. rewrite build_index_result in Hb'.
    destruct (flat_map (Sklearn.tokens w) chunks); [discriminate|].
    injection Hb' as <- <-. split; [reflexivity | simpl; apply length_map]. }
  destruct Hshape as [-> Hrows].
  exists text, chunks, ix, ctype, d.
  split; [exact Hchunks|]. split; [exact Hbuilt|]. split; [exact Hrows|].
  split; [congruence|]. split; [congruence|]. exact Hs3.
Qed.

End Artifacts.

Lemma artifact_keys_distinct user_id filename :
  artifact_key user_id filename "_chunks.pkl" <> artifact_key user_id filename "_vectorizer.pkl"
  /\ artifact_key user_id filename "_chunks.pkl" <> artifact_key user_id filename "_index.faiss"
  /\ artifact_key user_id filename "_vectorizer.pkl" <> artifact_key user_id filename "_index.faiss".
Proof.
  repeat split; intros H; apply artifact_key_suffix in H; discriminate.
Qed.

(** X9. After a successful run the artifacts are aligned: the text stored
    under [text_key] chunks (at 500 words) into exactly the chunk list
    stored under the metadata's [chunks_key]; the vectorizer stored under
    [vectorizer_key] is the one fitted on that list; the index stored under
    [index_key] has one row per chunk; and [num_chunks] is the length of the
    list. The text key must differ from the three artifact keys. *)
Theorem process_book_artifacts_aligned (w : World) content file_key text_key
    filename user_id author supplied st st' book :
  session st = db_rows st ->
  List.find (owned_with_key user_id file_key) (db_rows st) = Some book ->
  text_key <> artifact_key user_id filename "_chunks.pkl" ->
  text_key <> artifact_key user_id filename "_vectorizer.pkl" ->
  text_key <> artifact_key user_id filename "_index.faiss" ->
  process_book_body w content file_key text_key filename user_id author
                    supplied st = (Ok tt, st') ->
  exists book' text chunks ix,
    List.find (owned_with_key user_id file_key) (db_rows st') = Some book'
    /\ chunk_text text 500 = Ok chunks
    /\ body <$> s3 st' !! text_key = Some (Utf8Text text)
    /\ book_metadata book' !! "num_chunks" = Some (JInt (len chunks))
    /\ (exists k, book_metadata book' !! "chunks_key" = Some (JStr k)
                  /\ body <$> s3 st' !! k = Some (PickledChunks chunks))
    /\ (exists k, book_metadata book' !! "vectorizer_key" = Some (JStr k)
                  /\ body <$> s3 st' !! k
                     = Some (PickledVectorizer (Fitted 1000 chunks)))
    /\ (exists k, book_metadata book' !! "index_key" = Some (JStr k)
                  /\ body <$> s3 st' !! k = Some (FaissFile ix)
                  /\ length (xb ix) = length chunks).
Proof.
  intros Hclean Hfind Hc Hv Hi Hbody.
  destruct (process_book_body_success w _ _ _ _ _ _ _ _ _ _ Hclean Hfind Hbody)
    as (text & chunks & ix & ctype & d & Hchunks & _ & Hrows & Hdb & _ & Hs3).
  destruct (artifact_keys_distinct user_id filename) as (Hcv & Hci & Hvi).
  eexists. exists text, chunks, ix.
  split.
  { rewrite Hdb. apply find_update_row; [|exact Hfind|reflexivity].
    intros x. apply owned_with_key_commit_update. }
  match goal with
  | |- context [commit_update ?d ?s ?m ?b] =>
      destruct (commit_update_fields d s m b) as (_ & -> & _)
  end.
  match goal with
  | |- context [success_metadata ?a ?b ?c ?n] =>
      destruct (success_metadata_keys a b c n) as (_ & Hik & Hvk & Hck & Hn)
  end.
  split; [exact Hchunks|].
  split; [rewrite Hs3, lookup_insert_eq; reflexivity|].
  split; [exact Hn|].
  split; [|split].
  - eexists. split; [exact Hck|].
    rewrite Hs3, lookup_insert_ne, lookup_insert_eq by exact Hc. reflexivity.
  - eexists. split; [exact Hvk|].
    rewrite Hs3, lookup_insert_ne by exact Hv.
    rewrite lookup_insert_ne, lookup_insert_eq by exact Hcv. reflexivity.
  - eexists. split; [exact Hik|]. split; [|exact Hrows].
    rewrite Hs3, lookup_insert_ne by exact Hi.
    rewrite lookup_insert_ne by exact Hci.
    rewrite lookup_insert_ne, lookup_insert_eq by exact Hvi. reflexivity.
Qed.

Lemma process_book_artifacts_aligned_witness :
  exists book' text chunks ix,
    List.find (owned_with_key "u1" "users/u1/tale.pdf") (db_rows Sample.st_processed)
    = Some book'
    /\ chunk_text text 500 = Ok chunks
    /\ body <$> s3 Sample.st_processed !! "users/u1/tale_text.txt" = Some (Utf8Text text)
    /\ book_metadata book' !! "num_chunks" = Some (JInt (len chunks))
    /\ (exists k, book_metadata book' !! "chunks_key" = Some (JStr k)
                  /\ body <$> s3 Sample.st_processed !! k = Some (PickledChunks chunks))
    /\ (exists k, book_metadata book' !! "vectorizer_key" = Some (JStr k)
                  /\ body <$> s3 Sample.st_processed !! k
                     = Some (PickledVectorizer (Fitted 1000 chunks)))
    /\ (exists k, book_metadata book' !! "index_key" = Some (JStr k)
                  /\ body <$> s3 Sample.st_processed !! k = Some (FaissFile ix)
                  /\ length (xb ix) = length chunks).
Proof.
  apply (process_book_artifacts_aligned Sample.world [] "users/u1/tale.pdf"
           "users/u1/tale_text.txt" "tale.pdf" "u1" None None Sample.st0
           Sample.st_processed Sample.uploaded).
  - reflexivity.
  - vm_compute. reflexivity.
  - vm_compute. discriminate.
  - vm_compute. discriminate.
  - vm_compute. discriminate.
  - vm_compute. reflexivity.
Defined.

Lemma grows_same {A} (m : M A) : s3_same m -> s3_grows m.
Proof. intros Hm st r st' H key Hk. apply Hm in H. by rewrite H. Qed.

Lemma grows_bind {A B} (m : M A) (k : A -> M B) :
  s3_grows m -> (forall a, s3_grows (k a)) -> s3_grows (bind m k).
Proof.
  intros Hm Hk st r st' H key Hkey.
  apply bind_inv in H as [(e & H & _) | (a & st1 & H1 & H2)].
  - eapply Hm; eauto.
  - eapply Hk; eauto.
Qed.

Lemma grows_try_except {A} (m : M A) (h : exn -> M A) :
  s3_grows m -> (forall e, s3_grows (h e)) -> s3_grows (try_except m h).
Proof.
  intros Hm Hh st r st'. unfold try_except.
  destruct (m st) as [[a|e] st1] eqn:E; intros H key Hkey.
  - injection H as <- <-. eapply Hm; eauto.
  - eapply Hh; eauto.
Qed.

Lemma grows_upload (w : World) data key ctype :
  s3_grows (upload_fileobj_to_s3 w data key ctype).
Proof.
  intros st r st'. unfold upload_fileobj_to_s3.
  destruct (s3_upload_fails w key); intros [= <- <-] k Hk; [exact Hk|].
  simpl. apply lookup_insert_is_Some. destruct (decide (key = k)); auto.
Qed.

Ltac grows_bucket :=
  repeat first
    [ apply grows_upload
    | apply grows_same; solve [same_bucket]
    | apply grows_bind; [|intros ?]
    | apply grows_try_except; [|intros ?]
    | match goal with
      | |- s3_grows (if ?b then _ else _) => destruct b
      | |- s3_grows (match ?x with _ => _ end) => destruct x
      | |- s3_grows (let (_, _) := ?x in _) => destruct x
      end ].

Lemma grows_process_book (w : World) content file_key text_key filename user_id
    author supplied :
  s3_grows (process_book w content file_key text_key filename user_id author
                         supplied).
Proof. unfold process_book, process_book_body. grows_bucket. Qed.

(** X10. The pipeline never removes an object from the bucket, and it does
    not clean up after a failure: whatever was stored before the run is
    still stored after it, and once the upload of the raw file has
    succeeded the raw file is in the bucket at the end of the run, even if
    a later step failed and nothing was committed. *)
Theorem process_book_never_removes (w : World) content file_key text_key
    filename user_id author supplied st key :
  is_Some (s3 st !! key)
  \/ (key = file_key /\ s3_upload_fails w file_key = false) ->
  is_Some (s3 (snd (process_book w content file_key text_key filename user_id
                                 author supplied st)) !! key).
Proof.
  intros [Hold | [-> Hup]].
  - destruct (process_book w content file_key text_key filename user_id author
                supplied st) as [r st'] eqn:E.
    simpl. eapply grows_process_book; eauto.
  - unfold process_book, try_except, process_book_body.
    unfold bind at 1. unfold upload_fileobj_to_s3 at 1. rewrite Hup.
    match goal with
    | |- context [let (_, _) := ?rest ?s in _] =>
        assert (Hrest : s3_grows rest) by grows_bucket;
        destruct (rest s) as [[u|e] st1] eqn:E
    end; simpl.
    + eapply Hrest; [exact E|]. simpl. rewrite lookup_insert_eq. eauto.
    + eapply Hrest; [exact E|]. simpl. rewrite lookup_insert_eq. eauto.
Qed.

Lemma process_book_never_removes_witness :
  is_Some (s3 (snd (process_book Sample.world_unreadable [] "users/u1/tale.pdf"
                      "users/u1/tale_text.txt" "tale.pdf" "u1" None None
                      Sample.st0)) !! "users/u1/tale.pdf").
Proof.
  apply (process_book_never_removes Sample.world_unreadable [] "users/u1/tale.pdf"
           "users/u1/tale_text.txt" "tale.pdf" "u1" None None Sample.st0).
  right. split; reflexivity.
Defined.

(** X11. If the book row is no longer in the database when the uploads are
    done, the run ends normally and commits nothing, but the raw file, the
    text and the three artifacts have been stored all the same. *)
Theorem process_book_missing_book (w : World) content file_key text_key
    filename user_id author supplied st st' :
  List.find (owned_with_key user_id file_key) (session st) = None ->
  process_book_body w content file_key text_key filename user_id author
                    supplied st = (Ok tt, st') ->
  db_rows st' = db_rows st
  /\ session st' = session st
  /\ Forall (fun key => is_Some (s3 st' !! key))
       [file_key; text_key;
        artifact_key user_id filename "_index.faiss";
        artifact_key user_id filename "_vectorizer.pkl";
        artifact_key user_id filename "_chunks.pkl"].
Proof.
  intros Hnone Hbody.
  pose proof (process_book_body_cases w _ _ _ _ _ _ _ _ _ _ Hbody)
    as [(e & [=] & _) | [(_ & _ & Hdb & Hs) | (b & d & chunks & _ & Hb & _)]];
    [|congruence].
  split; [exact Hdb|]. split; [exact Hs|].
  destruct (process_book_body_bucket w _ _ _ _ _ _ _ _ _ Hbody)
    as (text & chunks & vz & ix & ctype & s1 & s2 & _ & _ & _ & _ & ->).
  repeat constructor; rewrite !lookup_insert_is_Some'; auto 10.
Qed.

Lemma process_book_missing_book_witness :
  db_rows (snd (process_book_body Sample.world [] "users/u1/tale.pdf"
                  "users/u1/tale_text.txt" "tale.pdf" "u1" None None
                  Demo.st_empty)) = db_rows Demo.st_empty
  /\ session (snd (process_book_body Sample.world [] "users/u1/tale.pdf"
                     "users/u1/tale_text.txt" "tale.pdf" "u1" None None
                     Demo.st_empty)) = session Demo.st_empty
  /\ Forall (fun key =>
               is_Some (s3 (snd (process_book_body Sample.world []
                                   "users/u1/tale.pdf" "users/u1/tale_text.txt"
                                   "tale.pdf" "u1" None None Demo.st_empty))
                        !! key))
       ["users/u1/tale.pdf"; "users/u1/tale_text.txt";
        artifact_key "u1" "tale.pdf" "_index.faiss";
        artifact_key "u1" "tale.pdf" "_vectorizer.pkl";
        artifact_key "u1" "tale.pdf" "_chunks.pkl"]%string.
Proof.
  apply (process_book_missing_book Sample.world [] "users/u1/tale.pdf"
           "users/u1/tale_text.txt" "tale.pdf" "u1" None None Demo.st_empty).
  - reflexivity.
  - vm_compute. reflexivity.
Defined.

(** X12. The artifact keys are built from the user and the original file
    name, not from the de-duplicated file key. When the pipeline has run
    for two books of one user uploaded under the same file name, the first
    book's metadata still names the chunk list key, and the object under
    that key is now the chunk list of the second book's text. *)
Theorem process_book_same_filename_overwrites (w : World) content_a content_b
    file_key_a text_key_a file_key_b text_key_b filename user_id author_a
    author_b supplied_a supplied_b st0 st1 st2 book_a book_b :
  session st0 = db_rows st0 ->
  List.find (owned_with_key user_id file_key_a) (db_rows st0) = Some book_a ->
  process_book_body w content_a file_key_a text_key_a filename user_id author_a
                    supplied_a st0 = (Ok tt, st1) ->
  List.find (owned_with_key user_id file_key_b) (db_rows st1) = Some book_b ->
  id book_b <> id book_a ->
  text_key_b <> artifact_key user_id filename "_chunks.pkl" ->
  process_book_body w content_b file_key_b text_key_b filename user_id author_b
                    supplied_b st1 = (Ok tt, st2) ->
  exists row_a key text_b chunks_b,
    In row_a (db_rows st2)
    /\ id row_a = id book_a
    /\ file_key row_a = file_key_a
    /\ book_metadata row_a !! "chunks_key" = Some (JStr key)
    /\ body <$> s3 st2 !! key = Some (PickledChunks chunks_b)
    /\ body <$> s3 st2 !! text_key_b = Some (Utf8Text text_b)
    /\ chunk_text text_b 500 = Ok chunks_b.
Proof.
  intros Hclean Hfa Hrun_a Hfb Hids Htk Hrun_b.
  destruct (process_book_body_success w _ _ _ _ _ _ _ _ _ _ Hclean Hfa Hrun_a)
    as (text_a & chunks_a & ix_a & ct_a & d_a & _ & _ & _ & Hdb1 & Hs1 & _).
  destruct (process_book_body_success w _ _ _ _ _ _ _ _ _ _ Hs1 Hfb Hrun_b)
    as (text_b & chunks_b & ix_b & ct_b & d_b & Hchunks & _ & _ & Hdb2 & _ & Hs3).
  set (md_a := success_metadata (artifact_key user_id filename "_index.faiss")
                 (artifact_key user_id filename "_vectorizer.pkl")
                 (artifact_key user_id filename "_chunks.pkl") (len chunks_a)) in *.
  set (row_a := commit_update d_a supplied_a md_a book_a).
  assert (Hin1 : In row_a (db_rows st1)).
  { assert (Hf : List.find (owned_with_key user_id file_key_a) (db_rows st1)
                 = Some row_a).
    { rewrite Hdb1. apply find_update_row; [|exact Hfa|reflexivity].
      intros x. apply owned_with_key_commit_update. }
    by apply find_some in Hf as [? _]. }
  assert (Hida : id row_a = id book_a).
  { subst row_a. unfold commit_update.
    by destruct (use_detected_pages d_a supplied_a). }
  assert (Hfka : file_key row_a = file_key_a).
  { apply find_some in Hfa as [_ Hown]. unfold owned_with_key in Hown.
    apply andb_prop in Hown as [_ Hk]. apply String.eqb_eq in Hk.
    subst row_a. unfold commit_update.
    by destruct (use_detected_pages d_a supplied_a). }
  exists row_a, (artifact_key user_id filename "_chunks.pkl"), text_b, chunks_b.
  split.
  { rewrite Hdb2. unfold update_row. apply in_map_iff. exists row_a.
    split; [|exact Hin1].
    destruct (Z.eqb_spec (id row_a) (id book_b)); [congruence | reflexivity]. }
  split; [exact Hida|]. split; [exact Hfka|].
  split.
  { destruct (commit_update_fields d_a supplied_a md_a book_a) as (_ & Hmd & _).
    fold row_a in Hmd. rewrite Hmd. subst md_a.
    by destruct (success_metadata_keys
                   (artifact_key user_id filename "_index.faiss")
                   (artifact_key user_id filename "_vectorizer.pkl")
                   (artifact_key user_id filename "_chunks.pkl") (len chunks_a))
      as (_ & _ & _ & ? & _). }
  split.
  { rewrite Hs3, lookup_insert_ne, lookup_insert_eq by exact Htk. reflexivity. }
  split; [|exact Hchunks].
  rewrite Hs3, lookup_insert_eq. reflexivity.
Qed.

Lemma process_book_same_filename_overwrites_witness :
  exists row_a key text_b chunks_b,
    In row_a (db_rows Demo.st_two_both)
    /\ id row_a = id Sample.uploaded
    /\ file_key row_a = "users/u1/tale.pdf"%string
    /\ book_metadata row_a !! "chunks_key" = Some (JStr key)
    /\ body <$> s3 Demo.st_two_both !! key = Some (PickledChunks chunks_b)
    /\ body <$> s3 Demo.st_two_both !! "users/u1/tale1_text.txt" = Some (Utf8Text text_b)
    /\ chunk_text text_b 500 = Ok chunks_b.
Proof.
  apply (process_book_same_filename_overwrites Sample.world [] []
           "users/u1/tale.pdf" "users/u1/tale_text.txt"
           "users/u1/tale1.pdf" "users/u1/tale1_text.txt" "tale.pdf" "u1"
           None None None None Demo.st_two Demo.st_two_first Demo.st_two_both
           Sample.uploaded Demo.second).
  - reflexivity.
  - vm_compute. reflexivity.
  - vm_compute. reflexivity.
  - vm_compute. reflexivity.
  - vm_compute. discriminate.
  - vm_compute. discriminate.
  - vm_compute. reflexivity.
Defined.

(** ** Unique storage keys *)

Lemma str_of_nat_inj (a b : nat) : str_of_nat a = str_of_nat b -> a = b.
Proof.
  unfold str_of_nat. intros H.
  assert (Hu : Nat.to_uint a = Nat.to_uint b).
  { apply (f_equal NilEmpty.uint_of_string) in H.
    rewrite !NilEmpty.usu in H. congruence. }
  apply (f_equal Nat.of_uint) in Hu.
  by rewrite !DecimalNat.Unsigned.of_to in Hu.
Qed.

Lemma chars_append (a b : string) :
  Str.chars (a ++ b)%string = Str.chars a ++ Str.chars b.
Proof. induction a as [|c a IH]; simpl; [reflexivity|]. by rewrite <- IH. Qed.

Lemma chars_inj (a b : string) : Str.chars a = Str.chars b -> a = b.
Proof.
  unfold Str.chars. intros H.
  apply (f_equal string_of_list_ascii) in H.
  by rewrite !string_of_list_ascii_of_string in H.
Qed.

Lemma string_app_inv_tail (a b s : string) :
  (a ++ s)%string = (b ++ s)%string -> a = b.
Proof.
  intros H. apply chars_inj.
  apply (f_equal Str.chars) in H. rewrite !chars_append in H.
  by apply app_inv_tail in H.
Qed.

Lemma numbered_file_key_inj user_id base_name ext (a b : nat) :
  numbered_file_key user_id base_name ext a
  = numbered_file_key user_id base_name ext b -> a = b.
Proof.
  unfold numbered_file_key. intros H.
  repeat apply string_app_inv_head in H.
  apply string_app_inv_tail in H. by apply str_of_nat_inj.
Qed.

Lemma find_owned_in (rows : list Book) user_id key :
  List.find (owned_with_key user_id key) rows <> None ->
  In key (map file_key rows).
Proof.
  destruct (List.find (owned_with_key user_id key) rows) as [b|] eqn:E; [|done].
  intros _. apply find_some in E as [Hin Hown].
  unfold owned_with_key in Hown. apply andb_prop in Hown as [_ Hk].
  apply String.eqb_eq in Hk. subst key. by apply in_map.
Qed.

Section UniqueKeys.

Variables (rows : list Book) (user_id base_name ext : string).

(** [taken key]: a book of the user has the file key [key]. *)
Local Notation "'taken' key" :=
  (List.find (owned_with_key user_id key) rows <> None)
  (at level 10, key at level 9).
Local Notation "'numbered' c" :=
  (numbered_file_key user_id base_name ext c) (at level 10, c at level 9).
Local Notation "'loop' fuel" :=
  (unique_keys_loop fuel rows user_id base_name ext)
  (at level 10, fuel at level 9).

(** A loop that reaches its bound has found every key it tested taken. *)
Lemma loop_none : forall fuel fk tk counter,
  loop fuel fk tk counter = None ->
  ((0 < fuel)%nat -> taken fk)
  /\ forall j, (S j < fuel)%nat -> taken (numbered (counter + j)%nat).
Proof.
  induction fuel as [|fuel IH]; intros fk tk c H; [split; intros; lia|].
  simpl in H.
  destruct (List.find (owned_with_key user_id fk) rows) eqn:E; [|discriminate].
  apply IH in H as [Hfirst Hrest].
  split; [intros _; simpl; congruence|].
  intros [|j] Hj.
  - rewrite Nat.add_0_r. apply Hfirst. lia.
  - replace (c + S j)%nat with (S c + j)%nat by lia. apply Hrest. lia.
Qed.

(** Two tests more than there are rows are never all taken: the numbered
    keys are pairwise different, and there are more of them than rows. *)
Lemma loop_enough_fuel fk tk counter :
  loop (S (S (length rows))) fk tk counter <> None.
Proof.
  intros H. apply loop_none in H as [_ Hall].
  set (candidates := map (fun j => numbered (counter + j)%nat)
                         (seq 0 (S (length rows)))).
  assert (Hnodup : NoDup candidates).
  { apply NoDup_fmap_2; [|apply NoDup_ListNoDup, seq_NoDup].
    intros a b Hab. apply numbered_file_key_inj in Hab. lia. }
  assert (Hincl : incl candidates (map file_key rows)).
  { intros key Hin. apply in_map_iff in Hin as (j & <- & Hj).
    apply in_seq in Hj. apply (find_owned_in rows user_id), Hall. lia. }
  apply NoDup_ListNoDup in Hnodup.
  pose proof (NoDup_incl_length Hnodup Hincl) as Hlen.
  subst candidates. rewrite !length_map, length_seq in Hlen. lia.
Qed.

(** The keys returned: the ones the loop started with, or the numbered keys
    of the first counter whose file key is free. *)
Lemma loop_some : forall fuel fk tk counter fk' tk',
  loop fuel fk tk counter = Some (fk', tk') ->
  List.find (owned_with_key user_id fk') rows = None
  /\ ((fk' = fk /\ tk' = tk)
      \/ exists j,
           fk' = numbered (counter + j)%nat
           /\ tk' = numbered_text_key user_id base_name (counter + j)%nat
           /\ taken fk
           /\ forall i, (i < j)%nat -> taken (numbered (counter + i)%nat)).
Proof.
  induction fuel as [|fuel IH]; intros fk tk c fk' tk' H; [discriminate|].
  simpl in H.
  destruct (List.find (owned_with_key user_id fk) rows) eqn:E.
  - apply IH in H as [Hfree [[-> ->] | (j & -> & -> & Htaken & Hbelow)]].
    + split; [exact Hfree|]. right. exists 0%nat.
      rewrite Nat.add_0_r. repeat split; [congruence | intros; lia].
    + split; [exact Hfree|]. right. exists (S j).
      replace (c + S j)%nat with (S c + j)%nat by lia.
      repeat split; [congruence|].
      intros [|i] Hi.
      * rewrite Nat.add_0_r. exact Htaken.
      * replace (c + S i)%nat with (S c + i)%nat by lia. apply Hbelow. lia.
  - injection H as <- <-. split; [exact E|]. by left.
Qed.

End UniqueKeys.

Lemma generate_unique_keys_returns (base_filename user_id : string) (st : state) :
  exists keys,
    generate_unique_keys base_filename user_id st = (Ok keys, st)
    /\ List.find (owned_with_key user_id (fst keys)) (session st) = None.
Proof.
  unfold generate_unique_keys, unique_keys.
  destruct (Str.splitext base_filename) as [base_name ext].
  destruct (unique_keys_loop _ _ _ _ _ _ _ _) as [[fk tk]|] eqn:E.
  - exists (fk, tk). split; [reflexivity|].
    by apply loop_some in E as [Hfree _].
  - by apply loop_enough_fuel in E.
Qed.

(** X13. [generate_unique_keys] always returns, changes nothing, and the
    file key it returns is the key of no book of that user: the loop stops
    after at most two tests more than there are rows. *)
Theorem generate_unique_keys_fresh (base_filename user_id : string) (st : state) :
  exists keys,
    generate_unique_keys base_filename user_id st = (Ok keys, st)
    /\ List.find (owned_with_key user_id (fst keys)) (session st) = None.
Proof. apply generate_unique_keys_returns. Qed.

(** X14. The keys returned are the plain ones when no book of the user has
    the plain file key; otherwise they carry the smallest counter, from 1
    on, whose file key is free, and the text key carries the same
    counter. *)
Theorem generate_unique_keys_first_free (base_filename user_id : string)
    (st st' : state) (keys : string * string) :
  generate_unique_keys base_filename user_id st = (Ok keys, st') ->
  st' = st
  /\ ((keys = (("users/" ++ user_id ++ "/" ++ base_filename)%string,
               ("users/" ++ user_id ++ "/" ++ fst (Str.splitext base_filename)
                ++ "_text.txt")%string))
      \/ exists counter,
           (1 <= counter)%nat
           /\ keys = (numbered_file_key user_id (fst (Str.splitext base_filename))
                        (snd (Str.splitext base_filename)) counter,
                      numbered_text_key user_id (fst (Str.splitext base_filename))
                        counter)
           /\ List.find (owned_with_key user_id
                           ("users/" ++ user_id ++ "/" ++ base_filename)%string)
                        (session st) <> None
           /\ forall i, (1 <= i < counter)%nat ->
                List.find (owned_with_key user_id
                             (numbered_file_key user_id
                                (fst (Str.splitext base_filename))
                                (snd (Str.splitext base_filename)) i))
                          (session st) <> None).
Proof.
  unfold generate_unique_keys, unique_keys.
  destruct (Str.splitext base_filename) as [base_name ext]. cbn [fst snd].
  destruct (unique_keys_loop _ _ _ _ _ _ _ _) as [[fk tk]|] eqn:E;
    [|discriminate].
  intros [= <- <-]. split; [reflexivity|].
  apply loop_some in E as [_ [[-> ->] | (j & -> & -> & Htaken & Hbelow)]].
  - by left.
  - right. exists (1 + j)%nat. repeat split; [lia | exact Htaken |].
    intros i Hi. replace i with (1 + (i - 1))%nat by lia. apply Hbelow. lia.
Qed.

Lemma generate_unique_keys_first_free_witness :
  Demo.st_two = Demo.st_two
  /\ ((("users/u1/tale2.pdf", "users/u1/tale2_text.txt")%string
       = (("users/" ++ "u1" ++ "/" ++ "tale.pdf")%string,
          ("users/" ++ "u1" ++ "/" ++ fst (Str.splitext "tale.pdf")
           ++ "_text.txt")%string))
      \/ exists counter,
           (1 <= counter)%nat
           /\ ("users/u1/tale2.pdf", "users/u1/tale2_text.txt")%string
              = (numbered_file_key "u1" (fst (Str.splitext "tale.pdf"))
                   (snd (Str.splitext "tale.pdf")) counter,
                 numbered_text_key "u1" (fst (Str.splitext "tale.pdf")) counter)
           /\ List.find (owned_with_key "u1"
                           ("users/" ++ "u1" ++ "/" ++ "tale.pdf")%string)
                        (session Demo.st_two) <> None
           /\ forall i, (1 <= i < counter)%nat ->
                List.find (owned_with_key "u1"
                             (numbered_file_key "u1"
                                (fst (Str.splitext "tale.pdf"))
                                (snd (Str.splitext "tale.pdf")) i))
                          (session Demo.st_two) <> None).
Proof.
  apply (generate_unique_keys_first_free "tale.pdf" "u1" Demo.st_two Demo.st_two
           ("users/u1/tale2.pdf", "users/u1/tale2_text.txt")%string).
  vm_compute. reflexivity.
Defined.

Lemma generate_unique_keys_plain (base_filename user_id : string) (st : state) :
  List.find (owned_with_key user_id ("users/" ++ user_id ++ "/" ++ base_filename)%string)
            (session st) = None ->
  generate_unique_keys base_filename user_id st
  = (Ok (("users/" ++ user_id ++ "/" ++ base_filename)%string,
         ("users/" ++ user_id ++ "/" ++ fst (Str.splitext base_filename)
          ++ "_text.txt")%string), st).
Proof.
  intros Hfree. unfold generate_unique_keys, unique_keys.
  destruct (Str.splitext base_filename) as [base_name ext].
  simpl. by rewrite Hfree.
Qed.

(** X15. Only the file key is tested for uniqueness. Two file names with
    the same base name and different endings, each unused so far, get
    different file keys and the same text key. *)
Theorem generate_unique_keys_shared_text_key (name_a name_b user_id : string)
    (st_a st_b : state) :
  fst (Str.splitext name_a) = fst (Str.splitext name_b) ->
  name_a <> name_b ->
  List.find (owned_with_key user_id ("users/" ++ user_id ++ "/" ++ name_a)%string)
            (session st_a) = None ->
  List.find (owned_with_key user_id ("users/" ++ user_id ++ "/" ++ name_b)%string)
            (session st_b) = None ->
  exists keys_a keys_b,
    generate_unique_keys name_a user_id st_a = (Ok keys_a, st_a)
    /\ generate_unique_keys name_b user_id st_b = (Ok keys_b, st_b)
    /\ fst keys_a <> fst keys_b
    /\ snd keys_a = snd keys_b.
Proof.
  intros Hbase Hne Ha Hb.
  rewrite (generate_unique_keys_plain _ _ _ Ha), (generate_unique_keys_plain _ _ _ Hb).
  eexists. eexists. split; [reflexivity|]. split; [reflexivity|]. simpl.
  split; [|by rewrite Hbase].
  intros H. repeat apply string_app_inv_head in H. contradiction.
Qed.

Lemma generate_unique_keys_shared_text_key_witness :
  exists keys_a keys_b,
    generate_unique_keys "tale.pdf" "u1" Demo.st_empty = (Ok keys_a, Demo.st_empty)
    /\ generate_unique_keys "tale.epub" "u1" Sample.st0 = (Ok keys_b, Sample.st0)
    /\ fst keys_a <> fst keys_b
    /\ snd keys_a = snd keys_b.
Proof.
  apply (generate_unique_keys_shared_text_key "tale.pdf" "tale.epub" "u1"
           Demo.st_empty Sample.st0).
  - vm_compute. reflexivity.
  - discriminate.
  - vm_compute. reflexivity.
  - vm_compute. reflexivity.
Defined.

(** ** Uploading a book *)

Lemma find_app_fresh (p : Book -> bool) (rows : list Book) (b : Book) :
  List.find p rows = None -> p b = true -> List.find p (rows ++ [b]) = Some b.
Proof.
  intros Hnone Hb. induction rows as [|a rows IH]; simpl in *.
  - by rewrite Hb.
  - destruct (p a); [discriminate|]. by apply IH.
Qed.

(** What [upload_book] can do: refuse the request with HTTP 400 and no
    effect, fail at the commit with HTTP 500 and the session rolled back,
    or commit the new row. *)
Lemma upload_book_cases (w : World) py_int new_id filename size content author
    pages_field user st r st' :
  upload_book w py_int new_id filename size content author pages_field user st
  = (r, st') ->
  (exists detail, r = Raise (HTTPException 400 detail) /\ st' = st)
  \/ exists keys parsed,
       existsb (Str.endswith filename) ALLOWED_EXTENSIONS = true
       /\ size <= MAX_FILE_SIZE
       /\ generate_unique_keys filename (u_id user) st = (Ok keys, st)
       /\ List.find (owned_with_key (u_id user) (fst keys)) (session st) = None
       /\ ((r = Raise (HTTPException 500 "Failed to create book entry")
            /\ commit_fails w = true
            /\ st' = mkState (db_rows st) (db_rows st) (s3 st) (text_cache st))
           \/ (r = Ok (mkBook new_id (u_id user) (fst (Str.splitext filename))
                              (fst keys) (Some (snd keys)) author parsed 0
                              PROCESSING ∅,
                       process_book w content (fst keys) (snd keys) filename
                                    (u_id user) author parsed)
               /\ commit_fails w = false
               /\ st' = mkState
                          (session st ++ [mkBook new_id (u_id user)
                                            (fst (Str.splitext filename))
                                            (fst keys) (Some (snd keys)) author
                                            parsed 0 PROCESSING ∅])
                          (session st ++ [mkBook new_id (u_id user)
                                            (fst (Str.splitext filename))
                                            (fst keys) (Some (snd keys)) author
                                            parsed 0 PROCESSING ∅])
                          (s3 st) (text_cache st))).
Proof.
  unfold upload_book.
  destruct (existsb (Str.endswith filename) ALLOWED_EXTENSIONS) eqn:Hext; simpl;
    [|intros [= <- <-]; left; eauto].
  destruct (Z.ltb_spec MAX_FILE_SIZE size) as [Hbig|Hsize];
    [intros [= <- <-]; left; eauto|].
  intros H.
  apply bind_inv in H as [(e & H & ->) | (parsed & st1 & H1 & H)].
  { left. destruct (truthy_opt_str pages_field); [|discriminate].
    destruct (py_int (default "" pages_field)); [discriminate|].
    injection H as <- <-. eauto. }
  assert (st1 = st) as ->.
  { destruct (truthy_opt_str pages_field); [|by injection H1 as _ <-].
    destruct (py_int (default "" pages_field)); [|discriminate].
    by injection H1 as _ <-. }
  destruct (generate_unique_keys_returns filename (u_id user) st)
    as (keys & Hkeys & Hfree).
  unfold bind at 1 in H. rewrite Hkeys in H.
  right. exists keys, parsed.
  split; [reflexivity|]. split; [exact Hsize|]. split; [exact Hkeys|].
  split; [exact Hfree|].
  unfold try_except, bind, db_add, Db.commit, Db.rollback in H. simpl in H.
  destruct (commit_fails w); injection H as <- <-; [left | right]; auto.
Qed.

(** X16. A successful upload commits exactly one new row, in status
    PROCESSING with empty metadata and page 0, under a file key no other
    book of the user has, and stores nothing in the bucket. The task it
    schedules is the pipeline for that file key, so the pipeline's lookup by
    user and file key finds the new row and no other. *)
Theorem upload_book_creates_row (w : World) py_int new_id filename size content
    author pages_field user st book task st' :
  upload_book w py_int new_id filename size content author pages_field user st
  = (Ok (book, task), st') ->
  id book = new_id
  /\ user_id book = u_id user
  /\ status book = PROCESSING
  /\ book_metadata book = ∅
  /\ current_page book = 0
  /\ db_rows st' = session st ++ [book]
  /\ session st' = db_rows st'
  /\ s3 st' = s3 st
  /\ List.find (owned_with_key (u_id user) (file_key book)) (session st) = None
  /\ List.find (owned_with_key (u_id user) (file_key book)) (db_rows st') = Some book
  /\ exists key,
       text_key book = Some key
       /\ task = process_book w content (file_key book) key filename (u_id user)
                              author (total_pages book).
Proof.
  intros H.
  apply upload_book_cases in H
    as [(d & [=] & _) | (keys & parsed & _ & _ & _ & Hfree & [([=] & _) | (Hr & _ & ->)])].
  injection Hr as -> ->. simpl.
  repeat split; try exact Hfree.
  - apply find_app_fresh; [exact Hfree|].
    unfold owned_with_key. simpl. by rewrite !String.eqb_refl.
  - eauto.
Qed.

Lemma upload_book_creates_row_witness :
  id Demo.third = 3
  /\ user_id Demo.third = u_id Sample.alice
  /\ status Demo.third = PROCESSING
  /\ book_metadata Demo.third = ∅
  /\ current_page Demo.third = 0
  /\ db_rows Demo.st_three = session Demo.st_two ++ [Demo.third]
  /\ session Demo.st_three = db_rows Demo.st_three
  /\ s3 Demo.st_three = s3 Demo.st_two
  /\ List.find (owned_with_key (u_id Sample.alice) (file_key Demo.third))
               (session Demo.st_two) = None
  /\ List.find (owned_with_key (u_id Sample.alice) (file_key Demo.third))
               (db_rows Demo.st_three) = Some Demo.third
  /\ exists key,
       text_key Demo.third = Some key
       /\ process_book Sample.world [] "users/u1/tale2.pdf" "users/u1/tale2_text.txt"
                       "tale.pdf" "u1" None (Some 12)
          = process_book Sample.world [] (file_key Demo.third) key "tale.pdf"
                         (u_id Sample.alice) None (total_pages Demo.third).
Proof.
  apply (upload_book_creates_row Sample.world (fun _ => Some 12) 3 "tale.pdf"
           1000 [] None (Some "12"%string) Sample.alice Demo.st_two Demo.third
           (process_book Sample.world [] "users/u1/tale2.pdf"
                         "users/u1/tale2_text.txt" "tale.pdf" "u1" None (Some 12))
           Demo.st_three).
  reflexivity.
Defined.



(** X18. An upload that does not succeed creates nothing: the committed
    rows and the bucket are as before. A request refused with HTTP 400 (file
    name, size or page count) has no effect at all; the only other failure
    is HTTP 500 "Failed to create book entry", raised when the commit fails,
    after which the session is rolled back. *)
Theorem upload_book_failure (w : World) py_int new_id filename size content
    author pages_field user st e st' :
  upload_book w py_int new_id filename size content author pages_field user st
  = (Raise e, st') ->
  db_rows st' = db_rows st
  /\ s3 st' = s3 st
  /\ ((exists detail, e = HTTPException 400 detail /\ st' = st)
      \/ (e = HTTPException 500 "Failed to create book entry"
          /\ commit_fails w = true
          /\ session st' = db_rows st)).
Proof.
  intros H.
  apply upload_book_cases in H
    as [(d & [= ->] & ->) | (keys & parsed & _ & _ & _ & _ & [([= ->] & Hc & ->) | ([=] & _)])].
  - repeat split; eauto.
  - repeat split; auto.
Qed.

Lemma upload_book_failure_witness :
  db_rows Demo.st_two = db_rows Demo.st_two
  /\ s3 Demo.st_two = s3 Demo.st_two
  /\ ((exists detail,
         HTTPException 400 "Only PDF or EPUB files allowed" = HTTPException 400 detail
         /\ Demo.st_two = Demo.st_two)
      \/ (HTTPException 400 "Only PDF or EPUB files allowed"
          = HTTPException 500 "Failed to create book entry"
          /\ commit_fails Sample.world = true
          /\ session Demo.st_two = db_rows Demo.st_two)).
Proof.
  apply (upload_book_failure Sample.world (fun _ => Some 12) 3 "TALE.PDF" 1000 []
           None (Some "12"%string) Sample.alice Demo.st_two).
  reflexivity.
Defined.

(** ** Updating and deleting a book *)

(** X19. A successful [update_book] stores the status it is given and the
    page clamped at zero from below (never a negative page), touches no
    other field of the book and nothing in the bucket, and raises the
    user's counter of finished books by one exactly when the new status is
    FINISHED and the stored one was not. *)
Theorem update_book_result (w : World) book_id new_status new_page user
    books_finished st book counter st' :
  update_book w book_id new_status new_page user books_finished st
  = (Ok (book, counter), st') ->
  exists stored,
    List.find (owned_with_id book_id user) (session st) = Some stored
    /\ book = set_current_page (Z.max 0 new_page) (set_status new_status stored)
    /\ 0 <= current_page book
    /\ counter = (if status_eqb new_status FINISHED
                     && negb (status_eqb (status stored) FINISHED)
                  then books_finished + 1 else books_finished)
    /\ db_rows st'
       = update_row (id stored)
           (fun b => set_current_page (Z.max 0 new_page) (set_status new_status b))
           (session st)
    /\ session st' = db_rows st'
    /\ s3 st' = s3 st.
Proof.
  unfold update_book. unfold bind at 1. unfold Db.first.
  destruct (find (owned_with_id book_id user) (session st)) as [stored|] eqn:Hfind;
    [|discriminate].
  unfold try_except, bind. rewrite !setattr_spec. unfold Db.commit, Db.rollback.
  simpl. destruct (commit_fails w); [discriminate|].
  intros [= <- <- <-]. exists stored. simpl.
  repeat split; try lia.
  rewrite update_row_compose by reflexivity. reflexivity.
Qed.

Lemma update_book_result_witness :
  exists stored,
    List.find (owned_with_id 2 Sample.alice) (session Sample.st_reading) = Some stored
    /\ set_current_page 0 (set_status FINISHED Sample.reading)
       = set_current_page (Z.max 0 (-7)) (set_status FINISHED stored)
    /\ 0 <= current_page (set_current_page 0 (set_status FINISHED Sample.reading))
    /\ 4 = (if status_eqb FINISHED FINISHED
               && negb (status_eqb (status stored) FINISHED)
            then 3 + 1 else 3)
    /\ db_rows (snd (update_book Sample.world 2 FINISHED (-7) Sample.alice 3
                                 Sample.st_reading))
       = update_row (id stored)
           (fun b => set_current_page (Z.max 0 (-7)) (set_status FINISHED b))
           (session Sample.st_reading)
    /\ session (snd (update_book Sample.world 2 FINISHED (-7) Sample.alice 3
                                 Sample.st_reading))
       = db_rows (snd (update_book Sample.world 2 FINISHED (-7) Sample.alice 3
                                   Sample.st_reading))
    /\ s3 (snd (update_book Sample.world 2 FINISHED (-7) Sample.alice 3
                            Sample.st_reading))
       = s3 Sample.st_reading.
Proof.
  apply (update_book_result Sample.world 2 FINISHED (-7) Sample.alice 3
           Sample.st_reading).
  reflexivity.
Defined.

Section Deletion.

Variable w : World.

(** The suite of the [try] statement of [delete_book], for the book found. *)
Lemma delete_book_found book_id user st book :
  List.find (owned_with_id book_id user) (session st) = Some book ->
  delete_book w book_id user st
  = try_except
      (run (if Str.nonempty (file_key book)
            then run delete_object w (file_key book) ;; ret tt
            else ret tt) ;;
       run (match text_key book with
            | Some key =>
                if Str.nonempty key
                then run delete_object w key ;; ret tt
                else ret tt
            | None => ret tt
            end) ;;
       run Db.delete (id book) ;;
       run Db.commit w ;;
       ret book)
      (fun _ =>
         run Db.rollback ;;
         raise (HTTPException 500 "Failed to delete book")) st.
Proof. intros H. unfold delete_book. unfold bind at 1. unfold Db.first. by rewrite H. Qed.

End Deletion.

(** X20. When the object store and the commit do not fail, [delete_book]
    returns the book, commits the table without the rows of that id and
    removes the raw file and the extracted text from the bucket. *)
Theorem delete_book_success (w : World) book_id user st book key :
  List.find (owned_with_id book_id user) (session st) = Some book ->
  Str.nonempty (file_key book) = true ->
  text_key book = Some key ->
  Str.nonempty key = true ->
  s3_delete_fails w (file_key book) = false ->
  s3_delete_fails w key = false ->
  commit_fails w = false ->
  exists st',
    delete_book w book_id user st = (Ok book, st')
    /\ db_rows st' = List.filter (fun b => negb (id b =? id book)) (session st)
    /\ session st' = db_rows st'
    /\ s3 st' !! file_key book = None
    /\ s3 st' !! key = None.
Proof.
  intros Hfind Hfk Htk Hk Hdf Hdk Hc.
  rewrite (delete_book_found w _ _ _ _ Hfind).
  unfold try_except, bind, delete_object, Db.delete, Db.commit. simpl.
  rewrite Hfk, Hdf, Htk, Hk. simpl. rewrite Hdk, Hc. simpl.
  eexists. split; [reflexivity|]. simpl.
  repeat split.
  - destruct (decide (key = file_key book)) as [->|Hne].
    + apply lookup_delete_eq.
    + rewrite lookup_delete_ne by exact Hne. apply lookup_delete_eq.
  - apply lookup_delete_eq.
Qed.

Lemma delete_book_success_witness :
  exists st',
    delete_book Sample.world 2 Sample.alice Sample.st_reading
    = (Ok Sample.reading, st')
    /\ db_rows st'
       = List.filter (fun b => negb (id b =? id Sample.reading))
                     (session Sample.st_reading)
    /\ session st' = db_rows st'
    /\ s3 st' !! file_key Sample.reading = None
    /\ s3 st' !! "users/u1/ten_text.txt" = None.
Proof.
  apply (delete_book_success Sample.world 2 Sample.alice Sample.st_reading
           Sample.reading "users/u1/ten_text.txt"); reflexivity.
Defined.

(** X21. The deletion from the bucket is not undone by the rollback: when
    the raw file has been deleted and a later step fails (the deletion of
    the text or the commit), the route answers HTTP 500, the row of the book
    is still committed, and the raw file it points to is gone. *)
Theorem delete_book_failure_keeps_row (w : World) book_id user st book e st' :
  List.find (owned_with_id book_id user) (session st) = Some book ->
  Str.nonempty (file_key book) = true ->
  s3_delete_fails w (file_key book) = false ->
  delete_book w book_id user st = (Raise e, st') ->
  e = HTTPException 500 "Failed to delete book"
  /\ db_rows st' = db_rows st
  /\ session st' = db_rows st
  /\ s3 st' !! file_key book = None.
Proof.
  intros Hfind Hfk Hdf.
  rewrite (delete_book_found w _ _ _ _ Hfind).
  unfold try_except, bind, delete_object, Db.delete, Db.commit, Db.rollback.
  simpl. rewrite Hfk, Hdf. simpl.
  destruct (text_key book) as [key|]; simpl.
  - destruct (Str.nonempty key); simpl.
    + destruct (s3_delete_fails w key); simpl.
      * intros [= <- <-]. simpl. repeat split. apply lookup_delete_eq.
      * destruct (commit_fails w); [|discriminate].
        intros [= <- <-]. simpl. repeat split.
        destruct (decide (key = file_key book)) as [->|Hne].
        -- apply lookup_delete_eq.
        -- rewrite lookup_delete_ne by exact Hne. apply lookup_delete_eq.
    + destruct (commit_fails w); [|discriminate].
      intros [= <- <-]. simpl. repeat split. apply lookup_delete_eq.
  - destruct (commit_fails w); [|discriminate].
    intros [= <- <-]. simpl. repeat split. apply lookup_delete_eq.
Qed.

Lemma delete_book_failure_keeps_row_witness :
  HTTPException 500 "Failed to delete book" = HTTPException 500 "Failed to delete book"
  /\ db_rows (snd (delete_book Sample.world_commit_fails 2 Sample.alice
                               Sample.st_reading)) = db_rows Sample.st_reading
  /\ session (snd (delete_book Sample.world_commit_fails 2 Sample.alice
                               Sample.st_reading)) = db_rows Sample.st_reading
  /\ s3 (snd (delete_book Sample.world_commit_fails 2 Sample.alice
                          Sample.st_reading)) !! file_key Sample.reading = None.
Proof.
  apply (delete_book_failure_keeps_row Sample.world_commit_fails 2 Sample.alice
           Sample.st_reading Sample.reading); reflexivity.
Defined.

(** ** Fetching and listing, continued *)

(** X22. [get_book] never commits and never touches the bucket. When it
    returns, the book is the stored one of that id and owner: unchanged when
    [total_pages] is zero or negative, and with the entry
    ["reading_progress"] added to its metadata, every other field as stored,
    when [total_pages] is positive. *)
Theorem get_book_read_only (w : World) book_id user st r st' :
  get_book w book_id user st = (r, st') ->
  db_rows st' = db_rows st
  /\ s3 st' = s3 st
  /\ forall book, r = Ok book ->
       exists stored n,
         List.find (owned_with_id book_id user) (session st) = Some stored
         /\ total_pages stored = Some n
         /\ id book = book_id
         /\ user_id book = u_id user
         /\ book
            = (if 0 <? n
               then set_book_metadata
                      (<["reading_progress" :=
                           JFloat (fround1 w (fmul_int w
                                     (truediv w (current_page stored) n) 100))]>
                         (book_metadata stored)) stored
               else stored).
Proof.
  unfold get_book. unfold bind at 1. unfold Db.first.
  destruct (find (owned_with_id book_id user) (session st)) as [stored|] eqn:Hfind.
  - pose proof Hfind as Hown. apply find_some in Hown as [_ Hown].
    unfold owned_with_id in Hown. apply andb_prop in Hown as [Hid Hu].
    apply Z.eqb_eq in Hid. apply String.eqb_eq in Hu.
    unfold bind, lift.
    destruct (total_pages stored) as [n|] eqn:Htp.
    + destruct (0 <? n) eqn:Hn; rewrite ?setattr_spec; intros [= <- <-]; simpl.
      * repeat split. intros book [= <-]. exists stored, n.
        rewrite Hn. simpl. rewrite Htp. auto.
      * repeat split. intros book [= <-]. exists stored, n.
        rewrite Hn. auto.
    + intros [= <- <-]. repeat split. discriminate.
  - intros [= <- <-]. repeat split. discriminate.
Qed.

Lemma get_book_read_only_witness :
  db_rows (snd (get_book Sample.world 2 Sample.alice Sample.st_reading))
  = db_rows Sample.st_reading
  /\ s3 (snd (get_book Sample.world 2 Sample.alice Sample.st_reading))
     = s3 Sample.st_reading
  /\ forall book,
       fst (get_book Sample.world 2 Sample.alice Sample.st_reading) = Ok book ->
       exists stored n,
         List.find (owned_with_id 2 Sample.alice) (session Sample.st_reading)
         = Some stored
         /\ total_pages stored = Some n
         /\ id book = 2
         /\ user_id book = u_id Sample.alice
         /\ book
            = (if 0 <? n
               then set_book_metadata
                      (<["reading_progress" :=
                           JFloat (fround1 Sample.world (fmul_int Sample.world
                                     (truediv Sample.world (current_page stored) n)
                                     100))]>
                         (book_metadata stored)) stored
               else stored).
Proof.
  apply (get_book_read_only Sample.world 2 Sample.alice Sample.st_reading).
  apply surjective_pairing.
Defined.



(** ** The prompt and the preferences behind it *)

Lemma instruction_styles_lookup (s : string) :
  instruction_styles !! s
  = if String.eqb s "casual" then Some CASUAL_PROMPT
    else if String.eqb s "concise" then Some CONCISE_PROMPT
    else if String.eqb s "academic" then Some ACADEMIC_PROMPT
    else None.
Proof.
  unfold instruction_styles.
  destruct (String.eqb_spec s "casual") as [->|Hc]; [reflexivity|].
  destruct (String.eqb_spec s "concise") as [->|Hn]; [reflexivity|].
  destruct (String.eqb_spec s "academic") as [->|Ha]; [reflexivity|].
  rewrite !lookup_insert_ne by congruence. apply lookup_empty.
Qed.

Lemma system_prompt_for_rule (style : json) :
  system_prompt_for style
  = match style with
    | JStr s => if String.eqb s "casual" then CASUAL_PROMPT
                else if String.eqb s "concise" then CONCISE_PROMPT
                else ACADEMIC_PROMPT
    | _ => ACADEMIC_PROMPT
    end.
Proof.
  destruct style as [| | | |s]; try reflexivity.
  unfold system_prompt_for. rewrite instruction_styles_lookup.
  destruct (String.eqb s "casual"); [reflexivity|].
  destruct (String.eqb s "concise"); [reflexivity|].
  destruct (String.eqb s "academic"); reflexivity.
Qed.

(** X25. The system prompt of every request is one of the three prompts of
    the source. The style is the user's stored ["instruction_style"] when
    the user has one under ["llm"], else the style of the settings in lower
    case; it selects the casual or the concise prompt only when it is
    exactly the string "casual" or "concise", and the academic prompt in
    every other case, whatever the value. *)
Theorem chat_request_system_prompt (settings : Settings) query chunks book user :
  let style :=
    match user with
    | Some u =>
        match preferences u !! "llm" with
        | Some llm =>
            default (JStr (Str.lower (BOOK_QUERY_INSTRUCTION_STYLE settings)))
                    (llm !! "instruction_style")
        | None => JStr (Str.lower (BOOK_QUERY_INSTRUCTION_STYLE settings))
        end
    | None => JStr (Str.lower (BOOK_QUERY_INSTRUCTION_STYLE settings))
    end in
  rq_system (build_chat_request settings query chunks book user)
  = match style with
    | JStr s => if String.eqb s "casual" then CASUAL_PROMPT
                else if String.eqb s "concise" then CONCISE_PROMPT
                else ACADEMIC_PROMPT
    | _ => ACADEMIC_PROMPT
    end.
Proof.
  intros style. unfold build_chat_request. simpl.
  rewrite system_prompt_for_rule.
  assert (Hstyle : p_instruction_style (resolve_llm_params settings user) = style).
  { subst style. unfold resolve_llm_params.
    destruct user as [u|]; [|reflexivity].
    destruct (preferences u !! "llm") as [llm|]; [|reflexivity].
    simpl. unfold override. by destruct (llm !! "instruction_style"). }
  by rewrite Hstyle.
Qed.




(** X27. Every failure of [update_llm_preferences] reaches the caller as
    HTTP 500 "Failed to update LLM preferences": the HTTP 400 the route
    raises for a temperature, a [max_tokens] or a style that is not valid
    is caught by its own handler, like a failing commit. Nothing is
    committed and the session is rolled back. *)
Theorem update_llm_preferences_failure (w : World) in_unit prefs user st e st' :
  update_llm_preferences w in_unit prefs user st = (Raise e, st') ->
  e = HTTPException 500 "Failed to update LLM preferences"
  /\ db_rows st' = db_rows st
  /\ session st' = db_rows st
  /\ s3 st' = s3 st.
Proof.
  unfold update_llm_preferences, try_except, bind, Db.commit, Db.rollback.
  destruct (lp_model prefs) as [m|];
    (destruct (lp_temperature prefs) as [t|]; [destruct (in_unit t)|]);
    (destruct (lp_max_tokens prefs) as [n|];
      [destruct ((50 <=? n) && (n <=? 1000))|]);
    (destruct (lp_instruction_style prefs) as [s|];
      [destruct (existsb (String.eqb (Str.lower s)) allowed_styles)|]);
    simpl; try (destruct (commit_fails w)); simpl;
    intros [= <- <-]; auto.
Qed.

Lemma update_llm_preferences_failure_witness :
  HTTPException 500 "Failed to update LLM preferences"
  = HTTPException 500 "Failed to update LLM preferences"
  /\ db_rows Sample.st0 = db_rows Sample.st0
  /\ session Sample.st0 = db_rows Sample.st0
  /\ s3 Sample.st0 = s3 Sample.st0.
Proof.
  apply (update_llm_preferences_failure Sample.world (fun _ => true)
           (mkLLMPreferences None None (Some 10) None) Sample.alice Sample.st0).
  reflexivity.
Defined.



(** ** The code after the search, continued *)

(** X29. Line 384, once reached: of the retrieved chunks it keeps exactly
    those whose label does not exceed the boundary, in the order of the
    ranking; when no label exceeds the boundary it keeps them all. *)
Theorem drop_spoilers_keeps_ranked_order labels current_chunk relevant :
  length labels = length relevant ->
  drop_spoilers labels current_chunk relevant
  = Ok (map snd (List.filter (fun p => fst p <=? current_chunk)
                             (combine labels relevant)))
  /\ (Forall (fun label => label <= current_chunk) labels ->
      drop_spoilers labels current_chunk relevant = Ok relevant).
Proof.
  intros Hlen. rewrite (drop_spoilers_filters _ _ _ Hlen). split; [reflexivity|].
  intros Hall. f_equal. revert relevant Hlen.
  induction Hall as [|label labels Hle _ IH]; intros [|c relevant] Hlen;
    try discriminate; [reflexivity|].
  simpl. destruct (Z.leb_spec label current_chunk); [|lia].
  simpl. f_equal. apply IH. by injection Hlen.
Qed.

Lemma drop_spoilers_keeps_ranked_order_witness :
  drop_spoilers [7; 2; 9; 1] 5 [Py.cps "c7"; Py.cps "c2"; Py.cps "c9"; Py.cps "c1"]
  = Ok (map snd (List.filter (fun p => fst p <=? 5)
                  (combine [7; 2; 9; 1]
                     [Py.cps "c7"; Py.cps "c2"; Py.cps "c9"; Py.cps "c1"])))
  /\ (Forall (fun label => label <= 5) [7; 2; 9; 1] ->
      drop_spoilers [7; 2; 9; 1] 5
        [Py.cps "c7"; Py.cps "c2"; Py.cps "c9"; Py.cps "c1"]
      = Ok [Py.cps "c7"; Py.cps "c2"; Py.cps "c9"; Py.cps "c1"]).
Proof.
  apply (drop_spoilers_keeps_ranked_order [7; 2; 9; 1] 5
           [Py.cps "c7"; Py.cps "c2"; Py.cps "c9"; Py.cps "c1"]).
  reflexivity.
Defined.

Lemma map_r_Forall2 {A B} (f : A -> result B) (l : list A) (out : list B) :
  map_r f l = Ok out -> Forall2 (fun a b => f a = Ok b) l out.
Proof.
  revert out. induction l as [|a l IH]; intros out H; simpl in H.
  - injection H as <-. constructor.
  - destruct (f a) as [b|] eqn:Ef; [|discriminate]. simpl in H.
    destruct (map_r f l) as [bs|]; [|discriminate]. injection H as <-.
    constructor; auto.
Qed.

(** X30. Lines 378 and 391-398 without the spoiler filter: when the chunks
    are looked up by the labels of the search and nothing is dropped, every
    evidence entry carries the text of the chunk its [chunk_index] names,
    and the indices and scores of the entries are the labels and distances
    of the search, in order. *)
Theorem evidence_aligned_without_filter (chunks : list Py.str)
    (distances : list float) (labels : list Z) (relevant : list Py.str) :
  map_r (Py.getitem chunks) labels = Ok relevant ->
  length distances = length labels ->
  exists entries,
    evidence distances labels relevant = Ok entries
    /\ Forall (fun entry => Py.getitem chunks (chunk_index entry) = Ok (text entry))
              entries
    /\ map chunk_index entries = labels
    /\ map similarity_score entries = distances.
Proof.
  intros Hlook Hlen. apply map_r_Forall2 in Hlook.
  assert (Hrl : length relevant = length labels)
    by (symmetry; eapply Forall2_length; eauto).
  rewrite evidence_pairs_by_position by lia.
  eexists. split; [reflexivity|].
  clear Hrl. revert distances Hlen.
  induction Hlook as [|label c labels relevant Hc _ IH]; intros [|d distances] Hlen;
    try discriminate; simpl.
  - repeat split; constructor.
  - injection Hlen as Hlen. destruct (IH distances Hlen) as (Ha & Hb & Hd).
    repeat split; [constructor; [exact Hc | exact Ha] | |]; by f_equal.
Qed.

Lemma evidence_aligned_without_filter_witness :
  exists entries,
    evidence [Float64 10; Float64 20] [1; 0] [Py.cps "c1"; Py.cps "c0"] = Ok entries
    /\ Forall (fun entry =>
                 Py.getitem [Py.cps "c0"; Py.cps "c1"] (chunk_index entry)
                 = Ok (text entry)) entries
    /\ map chunk_index entries = [1; 0]
    /\ map similarity_score entries = [Float64 10; Float64 20].
Proof.
  apply (evidence_aligned_without_filter [Py.cps "c0"; Py.cps "c1"]
           [Float64 10; Float64 20] [1; 0] [Py.cps "c1"; Py.cps "c0"]);
    reflexivity.
Defined.
